(** * collectd snmp plugin (src/snmp.c): configuration binder, value
    coercion and scalar poll engine, as a shallow embedding.

    Conventions of the embedding.
    - A C array with its length field (values/values_num,
      children/children_num, values/values_len, data_list/data_list_len,
      ds/ds_num) is a list; a pointer that may be NULL is an [option].
    - Fixed-width integers are [Z] with the wrap-around written out.
    - [double] is [spec_float] at precision 53 and emax 1024.
    - WARNING, ERROR and INFO calls are returned as a list of log entries
      (format string and arguments, in call order); DEBUG compiles to
      nothing in a regular build and is left out.
    - malloc, strdup, realloc and snmp_pdu_create are taken to succeed.
    - Undefined behaviour (a NULL string handed to the daemon) is [None]
      in the poll engine. *)

From Stdlib Require Import ZArith String Ascii SpecFloat Permutation Lia.
From stdpp Require Import base option list strings.

Open Scope Z_scope.
Set Warnings "-register-all".

(** ** Logging *)

Inductive log_level := LOG_ERR | LOG_WARNING | LOG_INFO.

Inductive log_arg :=
| arg_s (s : string)
| arg_i (i : Z).

Record log_entry := Log {
  level : log_level;
  format : string;
  args : list log_arg
}.

Definition ERROR (fmt : string) (a : list log_arg) : list log_entry :=
  [Log LOG_ERR fmt a].
Definition WARNING (fmt : string) (a : list log_arg) : list log_entry :=
  [Log LOG_WARNING fmt a].
Definition INFO (fmt : string) (a : list log_arg) : list log_entry :=
  [Log LOG_INFO fmt a].

(** ** Constants of the headers the plugin includes

    collectd.h, plugin.h and the net-snmp headers are not part of the
    plugin's source file, so their constants are parameters. The
    distinctness fields are what any such header guarantees (each name is
    a different enumerator). *)

Class Headers := {
  ASN_INTEGER : Z;
  ASN_UINTEGER : Z;
  ASN_COUNTER : Z;
  ASN_GAUGE : Z;
  ASN_COUNTER64 : Z;
  DS_TYPE_COUNTER : Z;
  DS_TYPE_GAUGE : Z;
  STAT_SUCCESS : Z;
  SNMP_VERSION_1 : Z;
  SNMP_VERSION_2c : Z;
  DATA_MAX_NAME_LEN : nat;
  ds_types_distinct : DS_TYPE_COUNTER <> DS_TYPE_GAUGE;
  asn_counter64_distinct :
    ASN_COUNTER64 <> ASN_INTEGER /\ ASN_COUNTER64 <> ASN_UINTEGER /\
    ASN_COUNTER64 <> ASN_COUNTER /\ ASN_COUNTER64 <> ASN_GAUGE
}.

(** ** Data structures *)

(** [oid_t]: the first [oid_len] sub-identifiers of the array. *)
Definition oid_t := list Z.

(** Modelled from the spec: net-snmp's [snmp_oid_compare] is not in the
    source file; "Two OIDs are compared by lexicographic sequence
    comparison. Equality is exact sequence equality." *)
Fixpoint snmp_oid_compare (a b : oid_t) : Z :=
  match a, b with
  | [], [] => 0
  | [], _ :: _ => -1
  | _ :: _, [] => 1
  | x :: a', y :: b' =>
      if x <? y then -1 else if y <? x then 1 else snmp_oid_compare a' b'
  end.

(** [struct counter64] of net-snmp: two [u_long] words. *)
Record counter64 := Counter64 { high : Z; low : Z }.

(** [struct variable_list], the fields the plugin reads. [val] is a union
    of pointers; the object read through [val.integer] is a [long], the
    one read through [val.counter64] a [struct counter64]. *)
Record variable_list := Variable_list {
  vl_name : oid_t;
  vl_type : Z;
  val_integer : Z;
  val_counter64 : counter64
}.

(** [value_t] is a union of [counter_t counter] (unsigned 64 bit) and
    [gauge_t gauge] (double); the member last written is the tag. A value
    that was never written is [V_indeterminate]. *)
Inductive value_t :=
| V_counter (c : Z)
| V_gauge (g : spec_float)
| V_indeterminate.

Definition NAN : spec_float := S754_nan.

Definition is_nan (v : value_t) : bool :=
  match v with
  | V_gauge S754_nan => true
  | _ => false
  end.

(** Conversion to [uint64_t]: reduction modulo 2^64. *)
Definition to_uint64 (z : Z) : Z := z mod 2 ^ 64.

(** Conversion of a [uint64_t] to [double], round to nearest even. *)
Definition uint64_to_double (z : Z) : spec_float :=
  binary_normalize 53 1024 z 0 false.

(** ** Configuration tree handed over by the daemon (liboconfig) *)

Inductive oconfig_value_t :=
| OCONFIG_TYPE_STRING (s : string)
| OCONFIG_TYPE_NUMBER (n : spec_float)
| OCONFIG_TYPE_BOOLEAN (b : Z).

Inductive oconfig_item_t := Oconfig_item {
  key : string;
  values : list oconfig_value_t;
  children : list oconfig_item_t
}.

(** ** Private data structures of the plugin (snmp.c 32-69) *)

(** [union instance_u]: a name or an OID. A zeroed union reads as the
    empty name. *)
Inductive instance_t :=
| instance_string (s : string)
| instance_oid (o : oid_t).

Record data_definition_t := Data_definition {
  dd_name : string;
  dd_type : option string;
  is_table : Z;
  instance : instance_t;
  dd_values : option (list oid_t)
}.

Definition values_len (dd : data_definition_t) : Z :=
  match dd_values dd with
  | Some vs => Z.of_nat (length vs)
  | None => 0
  end.

Record snmp_session := Snmp_session {
  peername : option string;
  sess_community : option string;
  community_len : Z;
  sess_version : Z
}.

(** [data_list] holds pointers into the data registry. A registered data
    definition is never written again apart from its [next] link, so the
    pointee is given by value. *)
Record host_definition_t := Host_definition {
  hd_name : string;
  address : option string;
  community : option string;
  version : Z;
  sess : snmp_session;
  data_list : list data_definition_t
}.

Definition data_list_len (hd : host_definition_t) : Z :=
  Z.of_nat (length (data_list hd)).

(** The two registries ([data_head], [host_head], linked through [next])
    and the static flag of [call_snmp_init_once]; [init_snmp_calls]
    counts the calls of net-snmp's [init_snmp]. *)
Record plugin_state := Plugin_state {
  data_head : list data_definition_t;
  host_head : list host_definition_t;
  have_init : Z;
  init_snmp_calls : nat
}.

Definition set_dd_type (t : option string) (dd : data_definition_t) :=
  Data_definition (dd_name dd) t (is_table dd) (instance dd) (dd_values dd).
Definition set_is_table (b : Z) (dd : data_definition_t) :=
  Data_definition (dd_name dd) (dd_type dd) b (instance dd) (dd_values dd).
Definition set_instance (i : instance_t) (dd : data_definition_t) :=
  Data_definition (dd_name dd) (dd_type dd) (is_table dd) i (dd_values dd).
Definition set_dd_values (v : option (list oid_t)) (dd : data_definition_t) :=
  Data_definition (dd_name dd) (dd_type dd) (is_table dd) (instance dd) v.

Definition set_peername (p : option string) (s : snmp_session) :=
  Snmp_session p (sess_community s) (community_len s) (sess_version s).
Definition set_sess_community (c : option string) (n : Z) (s : snmp_session) :=
  Snmp_session (peername s) c n (sess_version s).
Definition set_sess_version (v : Z) (s : snmp_session) :=
  Snmp_session (peername s) (sess_community s) (community_len s) v.

Definition set_address (a : option string) (hd : host_definition_t) :=
  Host_definition (hd_name hd) a (community hd) (version hd) (sess hd)
                  (data_list hd).
Definition set_community (c : option string) (hd : host_definition_t) :=
  Host_definition (hd_name hd) (address hd) c (version hd) (sess hd)
                  (data_list hd).
Definition set_version (v : Z) (hd : host_definition_t) :=
  Host_definition (hd_name hd) (address hd) (community hd) v (sess hd)
                  (data_list hd).
Definition set_sess (s : snmp_session) (hd : host_definition_t) :=
  Host_definition (hd_name hd) (address hd) (community hd) (version hd) s
                  (data_list hd).
Definition set_data_list (l : list data_definition_t)
    (hd : host_definition_t) :=
  Host_definition (hd_name hd) (address hd) (community hd) (version hd)
                  (sess hd) l.

Definition set_data_head (l : list data_definition_t) (st : plugin_state) :=
  Plugin_state l (host_head st) (have_init st) (init_snmp_calls st).
Definition set_host_head (l : list host_definition_t) (st : plugin_state) :=
  Plugin_state (data_head st) l (have_init st) (init_snmp_calls st).

(** ** External types of the daemon (plugin.h) *)

Record data_source_t := Data_source {
  ds_name : string;
  ds_type : Z
}.

Record data_set_t := Data_set {
  dset_type : string;
  ds : list data_source_t
}.

Definition ds_num (d : data_set_t) : Z := Z.of_nat (length (ds d)).

Record value_list_t := Value_list {
  vl_values : list value_t;
  vl_time : Z;
  vl_host : string;
  vl_plugin : string;
  vl_plugin_instance : string;
  vl_type_instance : string
}.

(** ** libc *)

Definition tolower (c : ascii) : ascii :=
  let n := nat_of_ascii c in
  if (65 <=? n)%nat && (n <=? 90)%nat then ascii_of_nat (n + 32) else c.

(** A C string ends at its first NUL; the comparison stops there. *)
Fixpoint strcasecmp (s1 s2 : string) : Z :=
  match s1, s2 with
  | EmptyString, EmptyString => 0
  | EmptyString, String c2 _ => 0 - Z.of_nat (nat_of_ascii (tolower c2))
  | String c1 _, EmptyString => Z.of_nat (nat_of_ascii (tolower c1))
  | String c1 r1, String c2 r2 =>
      let d := Z.of_nat (nat_of_ascii (tolower c1))
               - Z.of_nat (nat_of_ascii (tolower c2)) in
      if negb (d =? 0) then d
      else if Ascii.eqb c1 zero then 0
      else strcasecmp r1 r2
  end.

(** What [strncpy (dst, src, n)] followed by a terminating NUL leaves in
    [dst]: the first [n] characters of [src]. *)
Definition strncpy (src : string) (n : nat) : string :=
  String.substring 0 n src.

(** [(int) d] for a double [d]: truncation towards zero. C leaves the
    conversion of NaN, the infinities and values outside [int] undefined;
    they are mapped outside the accepted versions. *)
Definition double_to_int (d : spec_float) : Z :=
  match d with
  | S754_zero _ => 0
  | S754_finite s m e =>
      let a := if 0 <=? e then Z.pos m * 2 ^ e else Z.pos m / 2 ^ (- e) in
      let r := if s then - a else a in
      if (- 2 ^ 31 <=? r) && (r <? 2 ^ 31) then r else - 2 ^ 31
  | _ => - 2 ^ 31
  end.

(** ** State with log output

    A C function that writes through a pointer to an [S] and logs is a
    function from the [S] before to its result, the [S] after and the log
    entries written. *)

Definition M (S A : Type) : Type := S -> A * S * list log_entry.

Definition ret {S A} (a : A) : M S A := fun s => (a, s, []).

Definition bind {S A B} (m : M S A) (k : A -> M S B) : M S B :=
  fun s =>
    let '(a, s1, l1) := m s in
    let '(b, s2, l2) := k a s1 in
    (b, s2, l1 ++ l2).

Definition get {S} : M S S := fun s => (s, s, []).
Definition modify {S} (f : S -> S) : M S unit := fun s => (tt, f s, []).
Definition log {S} (l : list log_entry) : M S unit := fun s => (tt, s, l).

Declare Scope m_scope.
Delimit Scope m_scope with M.
Notation "x <- m ;; k" := (bind m (fun x => k))
  (at level 100, m at next level, right associativity) : m_scope.
Notation "m ;;; k" := (bind m (fun _ => k))
  (at level 100, right associativity) : m_scope.

(** The external functions of net-snmp and of the daemon the plugin calls.
    [Env] is the state of everything outside the process (agents, network,
    clock); every call that reaches outside threads it. *)
Class Library := {
  snmp_parse_oid : string -> option oid_t;
  read_objid : string -> option oid_t;
  plugin_get_ds : string -> option data_set_t;
  (** the bytes of an OID instance read through [instance.string] *)
  oid_bytes_as_string : oid_t -> string;
  Env : Type;
  snmp_open : snmp_session -> Env -> option snmp_session * Env;
  snmp_synch_response :
    snmp_session -> list oid_t -> Env -> Z * list variable_list * Env;
  snmp_close : snmp_session -> Env -> Env;
  time : Env -> Z * Env
}.

(** The poll engine can run into undefined behaviour; such a run has no
    result. *)
Definition MU (S A : Type) : Type := S -> option (A * S * list log_entry).

Definition retU {S A} (a : A) : MU S A := fun s => Some (a, s, []).

Definition bindU {S A B} (m : MU S A) (k : A -> MU S B) : MU S B :=
  fun s =>
    match m s with
    | None => None
    | Some (a, s1, l1) =>
        match k a s1 with
        | None => None
        | Some (b, s2, l2) => Some (b, s2, l1 ++ l2)
        end
    end.

Definition liftU {S A} (m : M S A) : MU S A := fun s => Some (m s).
Definition undefined {S A} : MU S A := fun _ => None.

Declare Scope mu_scope.
Delimit Scope mu_scope with MU.
Notation "x <- m ;; k" := (bindU m (fun x => k))
  (at level 100, m at next level, right associativity) : mu_scope.
Notation "m ;;; k" := (bindU m (fun _ => k))
  (at level 100, right associativity) : mu_scope.

(** Calls into net-snmp that reach the network, in the order made. *)
Inductive call :=
| call_snmp_open (s : snmp_session)
| call_snmp_synch_response (s : snmp_session) (oids : list oid_t)
| call_snmp_close (s : snmp_session).

(** What a poll cycle acts on: the outside, the samples handed to
    [plugin_dispatch_values] (type name and value list) and the calls
    made. *)
Record world `{Library} := World {
  env : Env;
  dispatched : list (string * value_list_t);
  calls : list call
}.

Section Model.
Context {hdr : Headers} {lib : Library}.

Local Open Scope m_scope.

(** ** Configuration (snmp.c 94-551) *)

Definition call_snmp_init_once : M plugin_state unit :=
  modify (fun st =>
    let calls :=
      if have_init st =? 0 then S (init_snmp_calls st)
      else init_snmp_calls st in
    Plugin_state (data_head st) (host_head st) 1 calls).

Definition csnmp_config_add_data_type (ci : oconfig_item_t)
  : M data_definition_t Z :=
  match values ci with
  | [OCONFIG_TYPE_STRING s] =>
      modify (set_dd_type (Some s)) ;;;
      ret 0
  | _ =>
      log (WARNING "snmp plugin: `Type' needs exactly one string argument."
                   []) ;;;
      ret (-1)
  end.

Definition csnmp_config_add_data_table (ci : oconfig_item_t)
  : M data_definition_t Z :=
  match values ci with
  | [OCONFIG_TYPE_BOOLEAN b] =>
      modify (set_is_table (if b =? 0 then 0 else 1)) ;;;
      ret 0
  | _ =>
      log (WARNING "snmp plugin: `Table' needs exactly one boolean argument."
                   []) ;;;
      ret (-1)
  end.

(** When [read_objid] fails the definition under construction is given
    up by the caller; its instance is left as it was. *)
Definition csnmp_config_add_data_instance (ci : oconfig_item_t)
  : M data_definition_t Z :=
  match values ci with
  | [OCONFIG_TYPE_STRING s] =>
      dd <- get ;;
      if negb (is_table dd =? 0)
      then
        match read_objid s with
        | None =>
            log (ERROR "snmp plugin: read_objid (%s) failed." [arg_s s]) ;;;
            ret (-1)
        | Some o =>
            modify (set_instance (instance_oid o)) ;;;
            ret 0
        end
      else
        modify (set_instance
                  (instance_string (strncpy s (DATA_MAX_NAME_LEN - 1)))) ;;;
        ret 0
  | _ =>
      log (WARNING
             "snmp plugin: `Instance' needs exactly one string argument."
             []) ;;;
      ret (-1)
  end.

(** The loop [for (i...) if (ci->values[i].type != OCONFIG_TYPE_STRING)]:
    the strings, or [None] at the first value of another type. *)
Fixpoint all_strings (vs : list oconfig_value_t) : option (list string) :=
  match vs with
  | [] => Some []
  | OCONFIG_TYPE_STRING s :: vs' =>
      match all_strings vs' with
      | Some ss => Some (s :: ss)
      | None => None
      end
  | _ :: _ => None
  end.

(** The loop over [snmp_parse_oid]: the parsed OIDs, or the first string
    that does not parse. *)
Fixpoint parse_oids (ss : list string) : string + list oid_t :=
  match ss with
  | [] => inr []
  | s :: ss' =>
      match snmp_parse_oid s with
      | None => inl s
      | Some o =>
          match parse_oids ss' with
          | inl bad => inl bad
          | inr os => inr (o :: os)
          end
      end
  end.

Definition csnmp_config_add_data_values (ci : oconfig_item_t)
  : M data_definition_t Z :=
  if Z.of_nat (length (values ci)) <? 1
  then
    log (WARNING "snmp plugin: `Values' needs at least one argument." []) ;;;
    ret (-1)
  else
    match all_strings (values ci) with
    | None =>
        log (WARNING "snmp plugin: `Values' needs only string argument."
                     []) ;;;
        ret (-1)
    | Some ss =>
        match parse_oids ss with
        | inl bad =>
            log (ERROR "snmp plugin: snmp_parse_oid (%s) failed."
                       [arg_s bad]) ;;;
            modify (set_dd_values None) ;;;
            ret (-1)
        | inr os =>
            modify (set_dd_values (Some os)) ;;;
            ret 0
        end
    end.

Definition csnmp_config_add_data_option (option : oconfig_item_t)
  : M data_definition_t Z :=
  if strcasecmp "Type" (key option) =? 0
  then csnmp_config_add_data_type option
  else if strcasecmp "Table" (key option) =? 0
  then csnmp_config_add_data_table option
  else if strcasecmp "Instance" (key option) =? 0
  then csnmp_config_add_data_instance option
  else if strcasecmp "Values" (key option) =? 0
  then csnmp_config_add_data_values option
  else
    log (WARNING "snmp plugin: Option `%s' not allowed here."
                 [arg_s (key option)]) ;;;
    ret (-1).

(** [for (i = 0; i < ci->children_num; i++) { ...; if (status != 0) break; }]
    with [status] initially 0. *)
Fixpoint csnmp_config_add_data_children (opts : list oconfig_item_t)
  : M data_definition_t Z :=
  match opts with
  | [] => ret 0
  | option :: rest =>
      status <- csnmp_config_add_data_option option ;;
      if negb (status =? 0) then ret status
      else csnmp_config_add_data_children rest
  end.

(** The [while (status == 0) { ...; break; }] block of
    [csnmp_config_add_data]. *)
Definition csnmp_config_add_data_check (status : Z)
  : M data_definition_t Z :=
  if status =? 0
  then
    dd <- get ;;
    match dd_type dd with
    | None =>
        log (WARNING "snmp plugin: `Type' not given for data `%s'"
                     [arg_s (dd_name dd)]) ;;;
        ret (-1)
    | Some _ =>
        match dd_values dd with
        | None =>
            log (WARNING "snmp plugin: No `Value' given for data `%s'"
                         [arg_s (dd_name dd)]) ;;;
            ret (-1)
        | Some _ => ret status
        end
    end
  else ret status.

Definition csnmp_config_add_data (ci : oconfig_item_t)
  : M plugin_state Z :=
  match values ci with
  | [OCONFIG_TYPE_STRING name] =>
      let dd := Data_definition name None 0 (instance_string EmptyString)
                                None in
      let '(status, dd, msgs) :=
        (status <- csnmp_config_add_data_children (children ci) ;;
         csnmp_config_add_data_check status) dd in
      log msgs ;;;
      if negb (status =? 0) then ret (-1)
      else
        modify (fun st => set_data_head (data_head st ++ [dd]) st) ;;;
        ret 0
  | _ =>
      log (WARNING
        "snmp plugin: The `Data' config option needs exactly one string argument."
        []) ;;;
      ret (-1)
  end.

Definition csnmp_config_add_host_address (ci : oconfig_item_t)
  : M host_definition_t Z :=
  match values ci with
  | [OCONFIG_TYPE_STRING s] =>
      modify (set_address (Some s)) ;;;
      modify (fun hd => set_sess (set_peername (address hd) (sess hd)) hd) ;;;
      ret 0
  | _ =>
      log (WARNING
        "snmp plugin: The `Address' config option needs exactly one string argument."
        []) ;;;
      ret (-1)
  end.

Definition csnmp_config_add_host_community (ci : oconfig_item_t)
  : M host_definition_t Z :=
  match values ci with
  | [OCONFIG_TYPE_STRING s] =>
      modify (set_community (Some s)) ;;;
      modify (fun hd =>
        set_sess (set_sess_community (community hd)
                    (Z.of_nat (String.length s)) (sess hd)) hd) ;;;
      ret 0
  | _ =>
      log (WARNING
        "snmp plugin: The `Community' config option needs exactly one string argument."
        []) ;;;
      ret (-1)
  end.

Definition csnmp_config_add_host_version (ci : oconfig_item_t)
  : M host_definition_t Z :=
  match values ci with
  | [OCONFIG_TYPE_NUMBER n] =>
      let version := double_to_int n in
      if negb (version =? 1) && negb (version =? 2)
      then
        log (WARNING "snmp plugin: `Version' must either be `1' or `2'."
                     []) ;;;
        ret (-1)
      else
        modify (set_version version) ;;;
        modify (fun hd =>
          set_sess (set_sess_version
                      (if version =? 1 then SNMP_VERSION_1
                       else SNMP_VERSION_2c) (sess hd)) hd) ;;;
        ret 0
  | _ =>
      log (WARNING
        "snmp plugin: The `Version' config option needs exactly one number argument."
        []) ;;;
      ret (-1)
  end.

Definition csnmp_config_add_host_option (option : oconfig_item_t)
  : M host_definition_t Z :=
  if strcasecmp "Address" (key option) =? 0
  then csnmp_config_add_host_address option
  else if strcasecmp "Community" (key option) =? 0
  then csnmp_config_add_host_community option
  else if strcasecmp "Version" (key option) =? 0
  then csnmp_config_add_host_version option
  else
    log (WARNING
      "snmp plugin: csnmp_config_add_host: Option `%s' not allowed here."
      [arg_s (key option)]) ;;;
    ret (-1).

Fixpoint csnmp_config_add_host_children (opts : list oconfig_item_t)
  : M host_definition_t Z :=
  match opts with
  | [] => ret 0
  | option :: rest =>
      status <- csnmp_config_add_host_option option ;;
      if negb (status =? 0) then ret status
      else csnmp_config_add_host_children rest
  end.

Definition csnmp_config_add_host_check (status : Z)
  : M host_definition_t Z :=
  if status =? 0
  then
    hd <- get ;;
    match address hd with
    | None =>
        log (WARNING "snmp plugin: `Address' not given for host `%s'"
                     [arg_s (hd_name hd)]) ;;;
        ret (-1)
    | Some _ =>
        match community hd with
        | None =>
            log (WARNING "snmp plugin: `Community' not given for host `%s'"
                         [arg_s (hd_name hd)]) ;;;
            ret (-1)
        | Some _ => ret status
        end
    end
  else ret status.

(** [snmp_sess_init] followed by [hd->sess.version = SNMP_VERSION_2c]. *)
Definition snmp_sess_init : snmp_session :=
  Snmp_session None None 0 SNMP_VERSION_2c.

Definition csnmp_config_add_host (ci : oconfig_item_t)
  : M plugin_state Z :=
  match values ci with
  | [OCONFIG_TYPE_STRING name] =>
      let hd := Host_definition name None None 2 snmp_sess_init [] in
      let '(status, hd, msgs) :=
        (status <- csnmp_config_add_host_children (children ci) ;;
         csnmp_config_add_host_check status) hd in
      log msgs ;;;
      if negb (status =? 0) then ret (-1)
      else
        modify (fun st => set_host_head (host_head st ++ [hd]) st) ;;;
        ret 0
  | _ =>
      log (WARNING "snmp plugin: `Host' needs exactly one string argument."
                   []) ;;;
      ret (-1)
  end.

(** [for (host = host_head; host != NULL; host = host->next)
       if (strcasecmp (name, host->name) == 0) break;]
    the position and the content of the first host that matches. *)
Definition find_host (name : string) (hosts : list host_definition_t)
  : option (nat * host_definition_t) :=
  list_find (fun host => strcasecmp name (hd_name host) = 0) hosts.

Definition find_data (name : string) (datas : list data_definition_t)
  : option (nat * data_definition_t) :=
  list_find (fun data => strcasecmp name (dd_name data) = 0) datas.

(** [host->data_list[host->data_list_len] = data; host->data_list_len++]
    on the host at position [k] of [host_head]. *)
Definition append_data (k : nat) (data : data_definition_t)
    (st : plugin_state) : plugin_state :=
  set_host_head
    (alter (fun host => set_data_list (data_list host ++ [data]) host) k
           (host_head st)) st.

(** The loop [for (i = 1; i < ci->values_num; i++)] of
    [csnmp_config_add_collect]. *)
Fixpoint csnmp_config_add_collect_names (k : nat) (names : list string)
  : M plugin_state unit :=
  match names with
  | [] => ret tt
  | name :: rest =>
      st <- get ;;
      match find_data name (data_head st) with
      | None =>
          log (WARNING "snmp plugin: No such data configured: `%s'"
                       [arg_s name]) ;;;
          csnmp_config_add_collect_names k rest
      | Some (_, data) =>
          modify (append_data k data) ;;;
          csnmp_config_add_collect_names k rest
      end
  end.

Definition csnmp_config_add_collect (ci : oconfig_item_t)
  : M plugin_state Z :=
  if Z.of_nat (length (values ci)) <? 2
  then
    log (WARNING "snmp plugin: `Collect' needs at least two arguments."
                 []) ;;;
    ret (-1)
  else
    match all_strings (values ci) with
    | None =>
        log (WARNING
               "snmp plugin: All arguments to `Collect' must be strings."
               []) ;;;
        ret (-1)
    | Some [] => ret (-1)
    | Some (name :: names) =>
        st <- get ;;
        match find_host name (host_head st) with
        | None =>
            log (WARNING "snmp plugin: No such host configured: `%s'"
                         [arg_s name]) ;;;
            ret (-1)
        | Some (k, _) =>
            csnmp_config_add_collect_names k names ;;;
            ret 0
        end
    end.

Definition csnmp_config_child (child : oconfig_item_t)
  : M plugin_state unit :=
  if strcasecmp "Data" (key child) =? 0
  then csnmp_config_add_data child ;;; ret tt
  else if strcasecmp "Host" (key child) =? 0
  then csnmp_config_add_host child ;;; ret tt
  else if strcasecmp "Collect" (key child) =? 0
  then csnmp_config_add_collect child ;;; ret tt
  else
    log (WARNING "snmp plugin: Ignoring unknown config option `%s'."
                 [arg_s (key child)]).

Fixpoint csnmp_config_children (cs : list oconfig_item_t)
  : M plugin_state unit :=
  match cs with
  | [] => ret tt
  | child :: rest =>
      csnmp_config_child child ;;;
      csnmp_config_children rest
  end.

Definition csnmp_config (ci : oconfig_item_t) : M plugin_state Z :=
  call_snmp_init_once ;;;
  csnmp_config_children (children ci) ;;;
  ret 0.

Definition csnmp_init : M plugin_state Z :=
  call_snmp_init_once ;;;
  ret 0.

(** ** Value coercion (snmp.c 579-616) *)

Definition csnmp_value_list_to_value (vl : variable_list) (type : Z)
  : value_t * list log_entry :=
  let ret := V_indeterminate in
  let temp := 0 in
  let defined := 1 in
  let '(temp, defined, msgs) :=
    if (vl_type vl =? ASN_INTEGER)
       || (vl_type vl =? ASN_UINTEGER)
       || (vl_type vl =? ASN_COUNTER)
       || (vl_type vl =? ASN_GAUGE)
    then (to_uint64 (val_integer vl), defined, [])
    else if vl_type vl =? ASN_COUNTER64
    then
      let temp := to_uint64 (high (val_counter64 vl)) in
      let temp := to_uint64 (Z.shiftl temp 32) in
      let temp := to_uint64 (temp + to_uint64 (low (val_counter64 vl))) in
      (temp, defined, [])
    else
      (temp, 0,
       WARNING "snmp plugin: I don't know the ASN type `%i'"
               [arg_i (vl_type vl)])
  in
  let ret :=
    if type =? DS_TYPE_COUNTER
    then V_counter temp
    else if type =? DS_TYPE_GAUGE
    then
      let ret := V_gauge NAN in
      if negb (defined =? 0) then V_gauge (uint64_to_double temp) else ret
    else ret
  in
  (ret, msgs).

(** ** Poll engine (snmp.c 618-757) *)

Definition do_snmp_open (s : snmp_session)
  : M world (option snmp_session) :=
  fun w =>
    let '(r, e) := snmp_open s (env w) in
    (r, World _ e (dispatched w) (calls w ++ [call_snmp_open s]), []).

Definition do_snmp_synch_response (s : snmp_session) (oids : list oid_t)
  : M world (Z * list variable_list) :=
  fun w =>
    let '(status, res, e) := snmp_synch_response s oids (env w) in
    (status, res,
     World _ e (dispatched w) (calls w ++ [call_snmp_synch_response s oids]),
     []).

Definition do_snmp_close (s : snmp_session) : M world unit :=
  fun w =>
    (tt,
     World _ (snmp_close s (env w)) (dispatched w)
           (calls w ++ [call_snmp_close s]),
     []).

Definition do_time : M world Z :=
  fun w =>
    let '(t, e) := time (env w) in
    (t, World _ e (dispatched w) (calls w), []).

Definition plugin_dispatch_values (type : string) (vl : value_list_t)
  : M world unit :=
  modify (fun w => World _ (env w) (dispatched w ++ [(type, vl)]) (calls w)).

(** [data->instance.string] *)
Definition instance_as_string (i : instance_t) : string :=
  match i with
  | instance_string s => s
  | instance_oid o => oid_bytes_as_string o
  end.

Definition csnmp_read_table (sess_ptr : snmp_session)
    (host : host_definition_t) (data : data_definition_t) : MU world Z :=
  retU 0.

(** The loop (658-664) that presets the slots. *)
Definition csnmp_read_value_init (dss : list data_source_t) : list value_t :=
  map (fun d => if ds_type d =? DS_TYPE_COUNTER then V_counter 0
                else V_gauge NAN) dss.

(** The inner loop (700-703), for the indices [idx] in turn, on the
    array [vl.values]. Both lookups are in range once [ds_num] has been
    compared with [values_len]. *)
Fixpoint csnmp_read_value_slots (dss : list data_source_t)
    (oids : list oid_t) (vb : variable_list) (idx : list nat)
  : M (list value_t) unit :=
  match idx with
  | [] => ret tt
  | i :: rest =>
      match oids !! i, dss !! i with
      | Some o, Some d =>
          if snmp_oid_compare o (vl_name vb) =? 0
          then
            let '(v, msgs) := csnmp_value_list_to_value vb (ds_type d) in
            log msgs ;;;
            modify (fun vals => <[i := v]> vals)
          else ret tt
      | _, _ => ret tt
      end ;;;
      csnmp_read_value_slots dss oids vb rest
  end.

(** The loop over [res->variables] (693-704). *)
Fixpoint csnmp_read_value_variables (dss : list data_source_t)
    (oids : list oid_t) (vbs : list variable_list)
  : M (list value_t) unit :=
  match vbs with
  | [] => ret tt
  | vb :: rest =>
      csnmp_read_value_slots dss oids vb (seq 0 (length oids)) ;;;
      csnmp_read_value_variables dss oids rest
  end.

Definition csnmp_read_value (sess_ptr : snmp_session)
    (host : host_definition_t) (data : data_definition_t) : MU world Z :=
  match dd_type data with
  | None => undefined
  | Some type =>
      match plugin_get_ds type with
      | None =>
          liftU (log (ERROR "snmp plugin: DataSet `%s' not defined."
                            [arg_s type]) ;;;
                 ret (-1))
      | Some ds_ =>
          if negb (ds_num ds_ =? values_len data)
          then
            liftU (log (ERROR
              "snmp plugin: DataSet `%s' requires %i values, but config talks about %i"
              [arg_s type; arg_i (ds_num ds_); arg_i (values_len data)]) ;;;
              ret (-1))
          else
            let oids := default [] (dd_values data) in
            let values := csnmp_read_value_init (ds ds_) in
            let host_ := strncpy (hd_name host) (DATA_MAX_NAME_LEN - 1) in
            let type_instance :=
              strncpy (instance_as_string (instance data))
                      (DATA_MAX_NAME_LEN - 1) in
            liftU (
              r <- do_snmp_synch_response sess_ptr oids ;;
              let '(status, res) := r in
              if negb (status =? STAT_SUCCESS)
              then
                log (ERROR "snmp plugin: snmp_synch_response failed." []) ;;;
                ret (-1)
              else
                t <- do_time ;;
                let '(_, values, msgs) :=
                  csnmp_read_value_variables (ds ds_) oids res values in
                log msgs ;;;
                plugin_dispatch_values type
                  (Value_list values t host_ "snmp" EmptyString
                              type_instance) ;;;
                ret 0)
      end
  end.

(** The loop over [host->data_list] (729-737); the results of the reads
    are dropped. *)
Fixpoint csnmp_read_host_data (sess_ptr : snmp_session)
    (host : host_definition_t) (datas : list data_definition_t)
  : MU world unit :=
  match datas with
  | [] => retU tt
  | data :: rest =>
      ((if negb (is_table data =? 0)
        then csnmp_read_table sess_ptr host data
        else csnmp_read_value sess_ptr host data) ;;;
       csnmp_read_host_data sess_ptr host rest)%MU
  end.

(** [snmp_perror] writes to stderr and is left out. *)
Definition csnmp_read_host (host : host_definition_t) : MU world Z :=
  (r <- liftU (do_snmp_open (sess host)) ;;
   match r with
   | None =>
       liftU (log (ERROR "snmp plugin: snmp_open failed." [])) ;;;
       retU (-1)
   | Some sess_ptr =>
       csnmp_read_host_data sess_ptr host (data_list host) ;;;
       liftU (do_snmp_close sess_ptr) ;;;
       retU 0
   end)%MU.

(** The loop over the host registry (753-754). *)
Fixpoint csnmp_read_hosts (hosts : list host_definition_t)
  : MU world unit :=
  match hosts with
  | [] => retU tt
  | host :: rest =>
      (csnmp_read_host host ;;;
       csnmp_read_hosts rest)%MU
  end.

Definition csnmp_read (st : plugin_state) : MU world Z :=
  match host_head st with
  | [] =>
      (liftU (log (INFO "snmp plugin: No hosts configured." [])) ;;;
       retU (-1))%MU
  | _ :: _ =>
      (csnmp_read_hosts (host_head st) ;;;
       retU 0)%MU
  end.

End Model.

(** ** Observations and notions the properties are stated with *)

Definition result_of {S A} (r : A * S * list log_entry) : A := r.1.1.
Definition state_of {S A} (r : A * S * list log_entry) : S := r.1.2.
Definition log_of {S A} (r : A * S * list log_entry) : list log_entry := r.2.

Section Notions.
Context {hdr : Headers} {lib : Library}.

Definition asn_known : list Z :=
  [ASN_INTEGER; ASN_UINTEGER; ASN_COUNTER; ASN_GAUGE; ASN_COUNTER64].

(** What one returned variable does to slot [j]. *)
Definition slot_update (dss : list data_source_t) (oids : list oid_t)
    (vb : variable_list) (j : nat) (old : value_t) : value_t :=
  match oids !! j, dss !! j with
  | Some o, Some d =>
      if bool_decide (o = vl_name vb)
      then (csnmp_value_list_to_value vb (ds_type d)).1
      else old
  | _, _ => old
  end.

(** The last returned variable named [o], if any. *)
Definition last_named (o : oid_t) (vbs : list variable_list)
  : option variable_list :=
  last (filter (fun vb => o = vl_name vb) vbs).

(** What the whole response does to slot [j]. *)
Definition slot_final (dss : list data_source_t) (oids : list oid_t)
    (vbs : list variable_list) (j : nat) (old : value_t) : value_t :=
  match oids !! j, dss !! j with
  | Some o, Some d =>
      match last_named o vbs with
      | Some vb => (csnmp_value_list_to_value vb (ds_type d)).1
      | None => old
      end
  | _, _ => old
  end.

(** The value of a slot no returned variable is matched to. *)
Definition absent (d : data_source_t) : value_t :=
  if ds_type d =? DS_TYPE_COUNTER then V_counter 0 else V_gauge NAN.

(** The slot of OID [o] and data source [d] after a response: the
    coercion of the last returned variable named [o], the absent value
    when there is none. *)
Definition scalar_slot (vbs : list variable_list) (o : oid_t)
    (d : data_source_t) : value_t :=
  match last_named o vbs with
  | Some vb => (csnmp_value_list_to_value vb (ds_type d)).1
  | None => absent d
  end.

Definition scalar_slots (dss : list data_source_t) (oids : list oid_t)
    (vbs : list variable_list) : list value_t :=
  zip_with (scalar_slot vbs) oids dss.

(** Two returned variables that carry the same reading. *)
Definition same_reading (v1 v2 : variable_list) : Prop :=
  vl_type v1 = vl_type v2 /\ val_integer v1 = val_integer v2
  /\ val_counter64 v1 = val_counter64 v2.

(** The convention of the source file: 0 is the result of success, -1
    the result of every failure path. *)
Definition is_error_result (status : Z) : bool := negb (status =? 0).

Definition is_request (c : call) : Prop :=
  match c with
  | call_snmp_synch_response _ _ => True
  | _ => False
  end.

(** The sessions [snmp_open] was called on, in call order. *)
Definition opened (cs : list call) : list snmp_session :=
  omap (fun c => match c with
                 | call_snmp_open s => Some s
                 | _ => None
                 end) cs.

(** The registry keeps only data definitions that have a type. *)
Definition typed (data : data_definition_t) : Prop := is_Some (dd_type data).

Definition typed_hosts (hosts : list host_definition_t) : Prop :=
  Forall (fun host => Forall typed (data_list host)) hosts.

(** [w'] is reached from [w] by requests only. *)
Definition by_requests (w w' : world) : Prop :=
  exists cs, calls w' = calls w ++ cs /\ Forall is_request cs.

(** The content of a C string, in lower case. *)
Fixpoint c_lower (s : string) : string :=
  match s with
  | EmptyString => EmptyString
  | String c r =>
      if Ascii.eqb c zero then EmptyString
      else String (tolower c) (c_lower r)
  end.

(** Resolution of a name: the first entry of the registry whose name is
    the same up to case. *)
Definition resolve_host (h : string) (hosts : list host_definition_t)
  : option (nat * host_definition_t) :=
  list_find (fun host => c_lower h = c_lower (hd_name host)) hosts.

Definition resolve_data (n : string) (datas : list data_definition_t)
  : option data_definition_t :=
  snd <$> list_find (fun data => c_lower n = c_lower (dd_name data)) datas.

(** The warnings for the names that do not resolve, in the order given. *)
Definition unresolved_warnings (ns : list string)
    (datas : list data_definition_t) : list log_entry :=
  concat (map (fun n =>
                 match resolve_data n datas with
                 | None => WARNING "snmp plugin: No such data configured: `%s'"
                                   [arg_s n]
                 | Some _ => []
                 end) ns).

(** [host->data_list] of the host at position [k] extended by [ds]. *)
Definition bind_datas (k : nat) (ds : list data_definition_t)
    (st : plugin_state) : plugin_state :=
  set_host_head
    (alter (fun host => set_data_list (data_list host ++ ds) host) k
           (host_head st)) st.

(** The declaration has an option keyed [name], up to case. *)
Definition has_option (name : string) (ci : oconfig_item_t) : bool :=
  existsb (fun o => strcasecmp name (key o) =? 0) (children ci).

(** A data-definition declaration without a Type or without a Values
    option. *)
Definition incomplete (ci : oconfig_item_t) : bool :=
  negb (has_option "Type" ci) || negb (has_option "Values" ci).

Definition is_data (ci : oconfig_item_t) : bool :=
  strcasecmp "Data" (key ci) =? 0.

(** A values list, once set, is not empty. *)
Definition values_ok (dd : data_definition_t) : Prop :=
  forall oids, dd_values dd = Some oids -> oids <> [].

(** The definition the options of [ci] build, and the status after the
    check block. *)
Definition built (ci : oconfig_item_t) (name : string)
  : Z * data_definition_t * list log_entry :=
  (status <- csnmp_config_add_data_children (children ci) ;;
   csnmp_config_add_data_check status)%M
    (Data_definition name None 0 (instance_string EmptyString) None).

Definition registry_typed (st : plugin_state) : Prop :=
  Forall typed (data_head st) /\ typed_hosts (host_head st).

End Notions.

(** ** Notions for the properties of the configuration binder and of the
    poll engine beyond the ones above *)

Section Further_notions.
Context {hdr : Headers} {lib : Library}.

(** The callbacks [module_register] (759-764) hands to the daemon for
    start-up: the configuration callback, once per block of the plugin,
    and the init callback. *)
Inductive callback :=
| cb_config (ci : oconfig_item_t)
| cb_init.

Definition run_callback (cb : callback) : M plugin_state Z :=
  match cb with
  | cb_config ci => csnmp_config ci
  | cb_init => csnmp_init
  end.

Fixpoint run_callbacks (cbs : list callback) (st : plugin_state)
  : plugin_state :=
  match cbs with
  | [] => st
  | cb :: rest => run_callbacks rest (state_of (run_callback cb st))
  end.

(** The host definition the options of [ci] build, and the status after
    the check block. *)
Definition built_host (ci : oconfig_item_t) (name : string)
  : Z * host_definition_t * list log_entry :=
  (status <- csnmp_config_add_host_children (children ci) ;;
   csnmp_config_add_host_check status)%M
    (Host_definition name None None 2 snmp_sess_init []).

(** [h'] is [h] with data definitions appended to its collect set. *)
Definition host_extends (h h' : host_definition_t) : Prop :=
  hd_name h' = hd_name h /\ address h' = address h
  /\ community h' = community h /\ version h' = version h
  /\ sess h' = sess h /\ data_list h `prefix_of` data_list h'.

(** [st'] keeps every entry of the registries of [st] at its place. *)
Definition state_extends (st st' : plugin_state) : Prop :=
  data_head st `prefix_of` data_head st'
  /\ forall i h, host_head st !! i = Some h ->
                 exists h', host_head st' !! i = Some h' /\ host_extends h h'.

(** Every pointer in a collect set points into the data registry. *)
Definition registry_closed (st : plugin_state) : Prop :=
  Forall (fun host => Forall (fun data => data ∈ data_head st)
                             (data_list host))
         (host_head st).

(** The session of a host mirrors its address, community and version. *)
Definition session_mirrors (hd : host_definition_t) : Prop :=
  peername (sess hd) = address hd
  /\ sess_community (sess hd) = community hd
  /\ (forall c, community hd = Some c ->
                community_len (sess hd) = Z.of_nat (String.length c))
  /\ (version hd = 1 /\ sess_version (sess hd) = SNMP_VERSION_1
      \/ version hd = 2 /\ sess_version (sess hd) = SNMP_VERSION_2c).

Definition host_ok (hd : host_definition_t) : Prop :=
  is_Some (address hd) /\ is_Some (community hd) /\ session_mirrors hd.

(** The keys [csnmp_config_add_data] and [csnmp_config_add_host] know. *)
Definition data_option_known (o : oconfig_item_t) : bool :=
  (strcasecmp "Type" (key o) =? 0) || (strcasecmp "Table" (key o) =? 0)
  || (strcasecmp "Instance" (key o) =? 0)
  || (strcasecmp "Values" (key o) =? 0).

Definition host_option_known (o : oconfig_item_t) : bool :=
  (strcasecmp "Address" (key o) =? 0)
  || (strcasecmp "Community" (key o) =? 0)
  || (strcasecmp "Version" (key o) =? 0).

(** A host declaration without an Address or without a Community
    option. *)
Definition host_incomplete (ci : oconfig_item_t) : bool :=
  negb (has_option "Address" ci) || negb (has_option "Community" ci).

(** A declaration is turned down with a report, or taken without one. *)
Definition reported {S} (r : Z * S * list log_entry) : Prop :=
  (result_of r = 0 /\ log_of r = [])
  \/ (result_of r = -1 /\ log_of r <> []).

(** What every option keeps of the data definition under construction:
    the name, a table flag of 0 or 1 and a bounded instance name. *)
Definition data_shape (name : string) (dd : data_definition_t) : Prop :=
  dd_name dd = name
  /\ (is_table dd = 0 \/ is_table dd = 1)
  /\ forall s, instance dd = instance_string s ->
               (String.length s <= DATA_MAX_NAME_LEN - 1)%nat.

(** The sign bit of a double is clear (NaN has none in [spec_float]). *)
Definition sign_clear (g : spec_float) : bool :=
  match g with
  | S754_zero s | S754_infinity s | S754_finite s _ _ => negb s
  | S754_nan => true
  end.

(** The two checks [csnmp_read_value] makes before it sends a request:
    the daemon knows the type, and the type has as many slots as the
    definition has values. *)
Definition checked (data : data_definition_t) : bool :=
  match dd_type data with
  | Some type =>
      match plugin_get_ds type with
      | Some ds_ => ds_num ds_ =? values_len data
      | None => false
      end
  | None => false
  end.

(** The definitions of a collect set a request is sent for. *)
Definition pollable (data : data_definition_t) : bool :=
  (is_table data =? 0) && checked data.

(** The request [csnmp_read_value] sends for a definition. *)
Definition request_of (sess_ptr : snmp_session) (data : data_definition_t)
  : call :=
  call_snmp_synch_response sess_ptr (default [] (dd_values data)).

(** A sample as [csnmp_read_value] fills it for [host] and [data]. *)
Definition sample_of (host : host_definition_t) (data : data_definition_t)
    (s : string * value_list_t) : Prop :=
  dd_type data = Some s.1
  /\ vl_host s.2 = strncpy (hd_name host) (DATA_MAX_NAME_LEN - 1)
  /\ vl_plugin s.2 = "snmp"
  /\ vl_plugin_instance s.2 = EmptyString
  /\ vl_type_instance s.2
     = strncpy (instance_as_string (instance data)) (DATA_MAX_NAME_LEN - 1)
  /\ exists ds_, plugin_get_ds s.1 = Some ds_
                 /\ length (vl_values s.2) = length (ds ds_)
                 /\ ds_num ds_ = values_len data.

(** A sample of a scalar definition bound to one of [hosts]. *)
Definition sample_from (hosts : list host_definition_t)
    (s : string * value_list_t) : Prop :=
  exists host data,
    host ∈ hosts /\ data ∈ data_list host /\ is_table data = 0
    /\ sample_of host data s.

(** The keys [csnmp_config] knows. *)
Definition declaration_known (child : oconfig_item_t) : bool :=
  (strcasecmp "Data" (key child) =? 0)
  || (strcasecmp "Host" (key child) =? 0)
  || (strcasecmp "Collect" (key child) =? 0).

End Further_notions.

(** ** The headers and a library to run the model on

    [collectd_headers] carries the values of net-snmp's and collectd's
    headers. [sim_library] stands for the world outside: OIDs are dotted
    decimals, the daemon knows two data sets, one agent answers at
    10.0.0.1 and serves a single integer. *)

Definition collectd_headers : Headers :=
  {| ASN_INTEGER := 2;
     ASN_UINTEGER := 71;
     ASN_COUNTER := 65;
     ASN_GAUGE := 66;
     ASN_COUNTER64 := 70;
     DS_TYPE_COUNTER := 0;
     DS_TYPE_GAUGE := 1;
     STAT_SUCCESS := 0;
     SNMP_VERSION_1 := 0;
     SNMP_VERSION_2c := 1;
     DATA_MAX_NAME_LEN := 64;
     ds_types_distinct := ltac:(discriminate);
     asn_counter64_distinct := ltac:(repeat split; discriminate) |}.

Definition digit (c : ascii) : option Z :=
  let n := nat_of_ascii c in
  if (48 <=? n)%nat && (n <=? 57)%nat then Some (Z.of_nat (n - 48)) else None.

(** Dotted decimal: [cur] is the sub-identifier being read, [acc] the
    ones read so far, last first. *)
Fixpoint parse_dotted (s : string) (cur : option Z) (acc : list Z)
  : option oid_t :=
  match s with
  | EmptyString =>
      match cur with
      | Some n => Some (rev (n :: acc))
      | None => None
      end
  | String c r =>
      if Ascii.eqb c "."
      then
        match cur with
        | Some n => parse_dotted r None (n :: acc)
        | None => None
        end
      else
        match digit c with
        | Some d => parse_dotted r (Some (10 * default 0 cur + d)) acc
        | None => None
        end
  end.

Definition sim_types_db (type : string) : option data_set_t :=
  if String.eqb type "if_octets"
  then Some (Data_set "if_octets"
               [Data_source "rx" 0; Data_source "tx" 0])
  else if String.eqb type "df"
  then Some (Data_set "df"
               [Data_source "used" 1; Data_source "free" 1])
  else None.

Definition sim_agent_mib : list variable_list :=
  [Variable_list [1; 3; 6; 1; 1] 2 42 (Counter64 0 0)].

Definition sim_library : Library :=
  {| snmp_parse_oid := fun s => parse_dotted s None [];
     read_objid := fun s => parse_dotted s None [];
     plugin_get_ds := sim_types_db;
     oid_bytes_as_string := fun _ => EmptyString;
     Env := Z;
     snmp_open := fun s e =>
       (match peername s with
        | Some a => if String.eqb a "10.0.0.1" then Some s else None
        | None => None
        end, e);
     snmp_synch_response := fun s oids e =>
       (0,
        filter (fun vb => vl_name vb ∈ oids) sim_agent_mib,
        e);
     snmp_close := fun _ e => e;
     time := fun e => (e, e + 1) |}.

Definition sim_d1 : data_definition_t :=
  Data_definition "d1" (Some "df") 0 (instance_string "eth0")
                  (Some [[1; 3; 6; 1; 1]; [1; 3; 6; 1; 2]]).

Definition sim_sess (a : string) : snmp_session :=
  Snmp_session (Some a) (Some "public") 6 1.

Definition sim_h1 : host_definition_t :=
  Host_definition "h1" (Some "10.0.0.1") (Some "public") 2
                  (sim_sess "10.0.0.1") [sim_d1].

Definition sim_world : world (H := sim_library) :=
  World sim_library 1000 [] [].

(** A configuration item whose arguments are all strings. *)
Definition sim_item (k : string) (vs : list string)
    (cs : list oconfig_item_t) : oconfig_item_t :=
  Oconfig_item k (map OCONFIG_TYPE_STRING vs) cs.

(** A declaration with one value for a type of two slots. *)
Definition sim_octets_item : oconfig_item_t :=
  sim_item "Data" ["octets"]
    [sim_item "Type" ["if_octets"] [];
     sim_item "Values" ["1.3.6.1.2.1.2.2.1.10.1"] []].

(** A configuration for [sim_library]: the definition of the round trip,
    the declaration above, a host nobody answers for and the host of the
    agent. *)
Definition sim_config : oconfig_item_t :=
  sim_item "Plugin" ["snmp"]
    [sim_item "Data" ["d1"]
       [sim_item "Type" ["df"] [];
        Oconfig_item "Table" [OCONFIG_TYPE_BOOLEAN 0] [];
        sim_item "Instance" ["eth0"] [];
        sim_item "Values" ["1.3.6.1.1"; "1.3.6.1.2"] []];
     sim_octets_item;
     sim_item "Host" ["down"]
       [sim_item "Address" ["192.0.2.1"] [];
        sim_item "Community" ["public"] []];
     sim_item "Host" ["h1"]
       [sim_item "Address" ["10.0.0.1"] [];
        sim_item "Community" ["public"] [];
        Oconfig_item "Version"
          [OCONFIG_TYPE_NUMBER (S754_finite false 4503599627370496 (-51))]
          []];
     sim_item "Collect" ["down"; "d1"] [];
     sim_item "Collect" ["H1"; "D1"; "nosuch"; "octets"] []].

Definition plugin_state_init : plugin_state := Plugin_state [] [] 0 0.

Definition sim_state : plugin_state :=
  state_of (csnmp_config (hdr := collectd_headers) (lib := sim_library)
              sim_config plugin_state_init).

Definition sim_octets : data_definition_t :=
  Data_definition "octets" (Some "if_octets") 0 (instance_string EmptyString)
                  (Some [[1; 3; 6; 1; 2; 1; 2; 2; 1; 10; 1]]).

(** The host of the agent with both definitions of [sim_config] bound. *)
Definition sim_h1_bound : host_definition_t :=
  Host_definition "h1" (Some "10.0.0.1") (Some "public") 2
                  (sim_sess "10.0.0.1") [sim_d1; sim_octets].

(** * Properties *)

(** ** Conversion to double *)

Lemma shr_1_nonneg (mrs : shr_record) :
  0 <= shr_m mrs -> 0 <= shr_m (shr_1 mrs).
Proof.
  destruct mrs as [m r s]. simpl.
  destruct m as [|p|p]; [easy| |intros H; exfalso; lia].
  destruct p; simpl; lia.
Qed.

Lemma iter_pos_invariant {A} (P : A -> Prop) (f : A -> A) :
  (forall a, P a -> P (f a)) ->
  forall p a, P a -> P (SpecFloat.iter_pos f p a).
Proof.
  intros Hf p. induction p as [p IH|p IH|]; simpl; intros a Ha.
  - apply IH, IH, Hf, Ha.
  - apply IH, IH, Ha.
  - apply Hf, Ha.
Qed.

Lemma shr_m_shr_record_of_loc (m : Z) (l : location) :
  shr_m (shr_record_of_loc m l) = m.
Proof. destruct l as [|[]]; reflexivity. Qed.

Lemma shr_fexp_nonneg prec emax (m e : Z) (l : location) :
  0 <= m -> 0 <= shr_m (fst (shr_fexp prec emax m e l)).
Proof.
  intros Hm. unfold shr_fexp, shr.
  destruct (fexp prec emax (Zdigits2 m + e) - e) as [|p|p]; simpl;
    rewrite ?shr_m_shr_record_of_loc; try assumption.
  apply (iter_pos_invariant (fun mrs => 0 <= shr_m mrs)).
  - apply shr_1_nonneg.
  - rewrite shr_m_shr_record_of_loc. assumption.
Qed.

Lemma round_nearest_even_nonneg (m : Z) (l : location) :
  0 <= m -> 0 <= round_nearest_even m l.
Proof.
  intros Hm. unfold round_nearest_even.
  destruct l as [|[]]; try destruct (Z.even m); lia.
Qed.

Lemma binary_round_aux_not_nan prec emax (sx : bool) (mx ex : Z)
    (lx : location) :
  0 <= mx -> binary_round_aux prec emax sx mx ex lx <> S754_nan.
Proof.
  intros Hm. unfold binary_round_aux.
  pose proof (shr_fexp_nonneg prec emax mx ex lx Hm) as H1.
  destruct (shr_fexp prec emax mx ex lx) as [mrs' e']. simpl in H1.
  pose proof (shr_fexp_nonneg prec emax
                (round_nearest_even (shr_m mrs') (loc_of_shr_record mrs'))
                e' loc_Exact (round_nearest_even_nonneg _ _ H1)) as H2.
  destruct (shr_fexp prec emax _ e' loc_Exact) as [mrs'' e'']. simpl in H2.
  destruct (shr_m mrs'') as [|p|p]; [discriminate| |lia].
  destruct (e'' <=? emax - prec); discriminate.
Qed.

Lemma uint64_to_double_not_nan (z : Z) : uint64_to_double z <> S754_nan.
Proof.
  unfold uint64_to_double, binary_normalize, binary_round.
  destruct z as [|p|p]; [discriminate| |];
    destruct (shl_align _ _ _) as [mz ez];
    apply binary_round_aux_not_nan; lia.
Qed.

(** ** Value coercion *)

Section Value_coercion.
Context {hdr : Headers}.

Lemma asn_known_test (t : Z) :
  t ∈ asn_known <->
  (t =? ASN_INTEGER) || (t =? ASN_UINTEGER) || (t =? ASN_COUNTER)
    || (t =? ASN_GAUGE) || (t =? ASN_COUNTER64) = true.
Proof.
  unfold asn_known. rewrite !elem_of_cons, elem_of_nil.
  rewrite !orb_true_iff, !Z.eqb_eq. tauto.
Qed.

(** How the wire type decides [defined]: the value of the slot for a
    counter and for a gauge, in terms of the integer read. *)
Lemma csnmp_value_list_to_value_unknown (vl : variable_list) (type : Z) :
  vl_type vl ∉ asn_known ->
  (csnmp_value_list_to_value vl type).1 =
    if type =? DS_TYPE_COUNTER then V_counter 0
    else if type =? DS_TYPE_GAUGE then V_gauge NAN
    else V_indeterminate.
Proof.
  intros Hk. rewrite asn_known_test in Hk.
  apply not_true_is_false in Hk. rewrite !orb_false_iff in Hk.
  destruct Hk as [[[[H1 H2] H3] H4] H5].
  unfold csnmp_value_list_to_value. rewrite H1, H2, H3, H4, H5. simpl.
  destruct (type =? DS_TYPE_COUNTER), (type =? DS_TYPE_GAUGE); reflexivity.
Qed.

Lemma csnmp_value_list_to_value_known (vl : variable_list) (type : Z) :
  vl_type vl ∈ asn_known ->
  exists temp,
    (csnmp_value_list_to_value vl type).1 =
      if type =? DS_TYPE_COUNTER then V_counter temp
      else if type =? DS_TYPE_GAUGE then V_gauge (uint64_to_double temp)
      else V_indeterminate.
Proof.
  intros Hk. rewrite asn_known_test in Hk.
  unfold csnmp_value_list_to_value.
  destruct ((vl_type vl =? ASN_INTEGER) || (vl_type vl =? ASN_UINTEGER)
            || (vl_type vl =? ASN_COUNTER) || (vl_type vl =? ASN_GAUGE))
    eqn:H4.
  - eexists. simpl.
    destruct (type =? DS_TYPE_COUNTER), (type =? DS_TYPE_GAUGE); reflexivity.
  - simpl in Hk. rewrite Hk. eexists. simpl.
    destruct (type =? DS_TYPE_COUNTER), (type =? DS_TYPE_GAUGE); reflexivity.
Qed.

(** Only the wire type and the object behind [val] are read. *)
Lemma csnmp_value_list_to_value_ext (vl vl' : variable_list) (type : Z) :
  vl_type vl' = vl_type vl ->
  val_integer vl' = val_integer vl ->
  val_counter64 vl' = val_counter64 vl ->
  csnmp_value_list_to_value vl' type = csnmp_value_list_to_value vl type.
Proof.
  intros Ht Hi Hc. unfold csnmp_value_list_to_value.
  rewrite Ht, Hi, Hc. reflexivity.
Qed.

Lemma gauge_is_not_counter : (DS_TYPE_GAUGE =? DS_TYPE_COUNTER) = false.
Proof. apply Z.eqb_neq. intros H. apply ds_types_distinct. auto. Qed.

(** C3. Value coercion reads only the wire type and the wire value of the
    variable and the slot kind. For a counter slot the result is never
    NaN, and is the counter 0 when the wire type is not a known one. For a
    gauge slot the result is NaN exactly when the wire type is outside
    integer, unsigned integer, 32-bit counter, gauge and 64-bit
    counter. *)
Theorem value_coercion_nan (vl : variable_list) :
  (forall vl' type,
     vl_type vl' = vl_type vl ->
     val_integer vl' = val_integer vl ->
     val_counter64 vl' = val_counter64 vl ->
     csnmp_value_list_to_value vl' type = csnmp_value_list_to_value vl type)
  /\ is_nan (csnmp_value_list_to_value vl DS_TYPE_COUNTER).1 = false
  /\ (vl_type vl ∉ asn_known ->
      (csnmp_value_list_to_value vl DS_TYPE_COUNTER).1 = V_counter 0)
  /\ (is_nan (csnmp_value_list_to_value vl DS_TYPE_GAUGE).1 = true <->
      vl_type vl ∉ asn_known).
Proof.
  split; [|split; [|split]].
  - intros vl' type. apply csnmp_value_list_to_value_ext.
  - destruct (decide (vl_type vl ∈ asn_known)) as [Hk|Hk].
    + destruct (csnmp_value_list_to_value_known vl DS_TYPE_COUNTER Hk)
        as [temp ->].
      rewrite Z.eqb_refl. reflexivity.
    + rewrite (csnmp_value_list_to_value_unknown vl _ Hk), Z.eqb_refl.
      reflexivity.
  - intros Hk.
    rewrite (csnmp_value_list_to_value_unknown vl _ Hk), Z.eqb_refl.
    reflexivity.
  - destruct (decide (vl_type vl ∈ asn_known)) as [Hk|Hk].
    + destruct (csnmp_value_list_to_value_known vl DS_TYPE_GAUGE Hk)
        as [temp ->].
      rewrite gauge_is_not_counter, Z.eqb_refl. simpl.
      pose proof (uint64_to_double_not_nan temp) as Hn.
      destruct (uint64_to_double temp); try (split; [discriminate|tauto]).
      congruence.
    + rewrite (csnmp_value_list_to_value_unknown vl _ Hk).
      rewrite gauge_is_not_counter, Z.eqb_refl. simpl. tauto.
Qed.

(** C4. A 64-bit counter with high word [h] and low word [l] (32 bits
    each) is coerced to the integer (h << 32) + l: stored as it is in a
    counter slot, converted to double in a gauge slot. *)
Theorem counter64_reconstruction (vl : variable_list) (h l : Z) :
  vl_type vl = ASN_COUNTER64 ->
  val_counter64 vl = Counter64 h l ->
  0 <= h < 2 ^ 32 ->
  0 <= l < 2 ^ 32 ->
  (csnmp_value_list_to_value vl DS_TYPE_COUNTER).1
    = V_counter (Z.shiftl h 32 + l)
  /\ (csnmp_value_list_to_value vl DS_TYPE_GAUGE).1
    = V_gauge (uint64_to_double (Z.shiftl h 32 + l)).
Proof.
  intros Ht Hv Hh Hl.
  destruct asn_counter64_distinct as (N1 & N2 & N3 & N4).
  unfold csnmp_value_list_to_value. rewrite Ht, Hv.
  apply Z.eqb_neq in N1, N2, N3, N4. rewrite N1, N2, N3, N4, Z.eqb_refl.
  simpl high. simpl low. cbv [orb].
  assert (Hw : to_uint64 (to_uint64 (Z.shiftl (to_uint64 h) 32)
                          + to_uint64 l) = Z.shiftl h 32 + l).
  { unfold to_uint64. rewrite !Z.shiftl_mul_pow2 by lia.
    rewrite (Z.mod_small h) by lia.
    rewrite (Z.mod_small l) by lia.
    rewrite (Z.mod_small (h * 2 ^ 32)) by lia.
    apply Z.mod_small. lia. }
  rewrite Hw, gauge_is_not_counter, !Z.eqb_refl. simpl. auto.
Qed.

(** C10. The result of value coercion is left unassigned exactly when
    the slot kind is neither counter nor gauge: with a counter or gauge
    slot the function always assigns its result, with any other slot kind
    it returns the indeterminate value. *)
Theorem value_coercion_assigned (vl : variable_list) (type : Z) :
  (csnmp_value_list_to_value vl type).1 = V_indeterminate <->
  type <> DS_TYPE_COUNTER /\ type <> DS_TYPE_GAUGE.
Proof.
  rewrite <- !Z.eqb_neq.
  destruct (decide (vl_type vl ∈ asn_known)) as [Hk|Hk].
  - destruct (csnmp_value_list_to_value_known vl type Hk) as [temp ->].
    destruct (type =? DS_TYPE_COUNTER), (type =? DS_TYPE_GAUGE);
      split; try discriminate; try tauto; intros [? ?]; discriminate.
  - rewrite (csnmp_value_list_to_value_unknown vl type Hk).
    destruct (type =? DS_TYPE_COUNTER), (type =? DS_TYPE_GAUGE);
      split; try discriminate; try tauto; intros [? ?]; discriminate.
Qed.

End Value_coercion.

(** High word 1 and low word 2 give 0x100000002 = 4294967298. *)
Lemma counter64_reconstruction_witness :
  let vl := Variable_list [1; 3; 6; 1; 2; 1; 31; 1; 1; 1; 6; 1] 70 0
                          (Counter64 1 2) in
  (csnmp_value_list_to_value (hdr := collectd_headers) vl 0).1
    = V_counter 4294967298
  /\ (csnmp_value_list_to_value (hdr := collectd_headers) vl 1).1
    = V_gauge (S754_finite false 4503599629467648 (-20)).
Proof.
  intros vl.
  apply (counter64_reconstruction (hdr := collectd_headers) vl 1 2);
    [reflexivity | reflexivity | lia | lia].
Defined.

(** ** The state-and-log functions *)

Lemma state_of_bind {S A B} (m : M S A) (k : A -> M S B) (s : S) :
  state_of (bind m k s) = state_of (k (result_of (m s)) (state_of (m s))).
Proof.
  unfold bind, state_of, result_of.
  destruct (m s) as [[a s1] l1]. simpl.
  destruct (k a s1) as [[b s2] l2]. reflexivity.
Qed.

Lemma result_of_bind {S A B} (m : M S A) (k : A -> M S B) (s : S) :
  result_of (bind m k s) = result_of (k (result_of (m s)) (state_of (m s))).
Proof.
  unfold bind, state_of, result_of.
  destruct (m s) as [[a s1] l1]. simpl.
  destruct (k a s1) as [[b s2] l2]. reflexivity.
Qed.

Lemma log_of_bind {S A B} (m : M S A) (k : A -> M S B) (s : S) :
  log_of (bind m k s) =
  log_of (m s) ++ log_of (k (result_of (m s)) (state_of (m s))).
Proof.
  unfold bind, state_of, result_of, log_of.
  destruct (m s) as [[a s1] l1]. simpl.
  destruct (k a s1) as [[b s2] l2]. reflexivity.
Qed.

Lemma run_eta {S A} (r : A * S * list log_entry) :
  r = (result_of r, state_of r, log_of r).
Proof. destruct r as [[a s] l]. reflexivity. Qed.

(** ** OID comparison *)

Lemma snmp_oid_compare_eq (a b : oid_t) :
  snmp_oid_compare a b = 0 <-> a = b.
Proof.
  revert b. induction a as [|x a IH]; intros [|y b]; simpl;
    try (split; [discriminate | discriminate]); [tauto|].
  destruct (x <? y) eqn:Hxy; [apply Z.ltb_lt in Hxy|apply Z.ltb_ge in Hxy].
  { split; [discriminate|]. intros [= -> _]. lia. }
  destruct (y <? x) eqn:Hyx; [apply Z.ltb_lt in Hyx|apply Z.ltb_ge in Hyx].
  { split; [discriminate|]. intros [= -> _]. lia. }
  rewrite IH. assert (x = y) by lia. subst. split; congruence.
Qed.

Lemma snmp_oid_compare_eqb (a b : oid_t) :
  (snmp_oid_compare a b =? 0) = bool_decide (a = b).
Proof.
  case_bool_decide as H.
  - apply Z.eqb_eq, snmp_oid_compare_eq, H.
  - apply Z.eqb_neq. rewrite snmp_oid_compare_eq. exact H.
Qed.

(** ** Matching returned variables against the configured OIDs *)

Section Matching.
Context {hdr : Headers}.

Lemma slot_update_idemp dss oids vb j old old' :
  slot_update dss oids vb j (slot_update dss oids vb j old) =
  slot_update dss oids vb j old /\
  (slot_update dss oids vb j old = old \/
   slot_update dss oids vb j old = slot_update dss oids vb j old').
Proof.
  unfold slot_update.
  destruct (oids !! j), (dss !! j); auto.
  case_bool_decide; auto.
Qed.

Lemma csnmp_read_value_slots_lookup dss oids vb idx (vals : list value_t)
    (j : nat) :
  state_of (csnmp_read_value_slots dss oids vb idx vals) !! j =
    if decide (j ∈ idx) then slot_update dss oids vb j <$> vals !! j
    else vals !! j.
Proof.
  revert vals. induction idx as [|i rest IH]; intros vals.
  - case_decide as H; [by apply elem_of_nil in H|reflexivity].
  - cbn [csnmp_read_value_slots]. rewrite state_of_bind.
    set (body := match oids !! i, dss !! i with
                 | Some o, Some d => _
                 | _, _ => _
                 end).
    assert (Hbody : forall k, state_of (body vals) !! k =
              if decide (k = i) then slot_update dss oids vb i <$> vals !! i
              else vals !! k).
    { intros k. subst body. unfold slot_update. clear IH.
      destruct (oids !! i) as [o|], (dss !! i) as [d|];
        try (cbn; destruct (decide (k = i)) as [->|];
             [destruct (vals !! i)|]; reflexivity).
      rewrite snmp_oid_compare_eqb. case_bool_decide.
      - destruct (csnmp_value_list_to_value vb (ds_type d)) as [v msgs].
        rewrite state_of_bind. cbn.
        destruct (decide (k = i)) as [->|].
        + destruct (decide (i < length vals)%nat).
          * rewrite list_lookup_insert_eq by assumption.
            destruct (lookup_lt_is_Some_2 vals i) as [x ->]; auto.
          * rewrite list_insert_ge by lia.
            rewrite (lookup_ge_None_2 vals i) by lia. reflexivity.
        + rewrite list_lookup_insert_ne by auto. reflexivity.
      - cbn. destruct (decide (k = i)) as [->|];
          [destruct (vals !! i)|]; reflexivity. }
    rewrite IH, Hbody.
    destruct (decide (j = i)) as [->|Hne].
    + rewrite (decide_True (P := i ∈ i :: rest)) by apply list_elem_of_here.
      destruct (decide (i ∈ rest)); [|reflexivity].
      destruct (vals !! i) as [x|]; [|reflexivity]. cbn. f_equal.
      apply (slot_update_idemp dss oids vb i x x).
    + destruct (decide (j ∈ rest)) as [Hin|Hnin].
      * rewrite (decide_True (P := j ∈ i :: rest))
          by (apply list_elem_of_further; exact Hin).
        reflexivity.
      * rewrite (decide_False (P := j ∈ i :: rest)); [reflexivity|].
        rewrite elem_of_cons. tauto.
Qed.

(** One pass of the inner loop over all slots. *)
Lemma csnmp_read_value_variable_lookup dss oids vb (vals : list value_t)
    (j : nat) :
  state_of (csnmp_read_value_slots dss oids vb (seq 0 (length oids)) vals)
    !! j
  = slot_update dss oids vb j <$> vals !! j.
Proof.
  rewrite csnmp_read_value_slots_lookup.
  destruct (decide (j ∈ seq 0 (length oids))) as [Hin|Hin]; [reflexivity|].
  assert (Hnone : oids !! j = None).
  { apply lookup_ge_None_2. rewrite elem_of_seq in Hin. lia. }
  unfold slot_update. rewrite Hnone.
  destruct (vals !! j); reflexivity.
Qed.

Lemma last_named_cons o vb vbs :
  last_named o (vb :: vbs) =
    match last_named o vbs with
    | Some vb' => Some vb'
    | None => if bool_decide (o = vl_name vb) then Some vb else None
    end.
Proof.
  unfold last_named. rewrite filter_cons.
  case_bool_decide as H.
  - rewrite decide_True by exact H.
    destruct (filter _ vbs) as [|x l] eqn:E; [reflexivity|].
    rewrite last_cons. destruct (last (x :: l)) eqn:El; [reflexivity|].
    apply last_None in El. discriminate.
  - rewrite decide_False by exact H.
    destruct (last _); reflexivity.
Qed.

Lemma csnmp_read_value_variables_lookup dss oids vbs (vals : list value_t)
    (j : nat) :
  state_of (csnmp_read_value_variables dss oids vbs vals) !! j
  = slot_final dss oids vbs j <$> vals !! j.
Proof.
  revert vals. induction vbs as [|vb rest IH]; intros vals.
  - cbn. unfold slot_final, last_named. cbn.
    destruct (oids !! j), (dss !! j), (vals !! j); reflexivity.
  - cbn [csnmp_read_value_variables]. rewrite state_of_bind, IH.
    rewrite csnmp_read_value_variable_lookup.
    destruct (vals !! j) as [old|]; [|reflexivity]. cbn. f_equal.
    unfold slot_final, slot_update.
    destruct (oids !! j) as [o|]; [|reflexivity].
    destruct (dss !! j) as [d|]; [|reflexivity].
    rewrite last_named_cons.
    destruct (last_named o rest); [reflexivity|].
    case_bool_decide; reflexivity.
Qed.

Lemma csnmp_read_value_slots_length dss oids vb idx (vals : list value_t) :
  length (state_of (csnmp_read_value_slots dss oids vb idx vals))
  = length vals.
Proof.
  revert vals. induction idx as [|i rest IH]; intros vals; [reflexivity|].
  cbn [csnmp_read_value_slots]. rewrite state_of_bind, IH.
  destruct (oids !! i), (dss !! i); try reflexivity.
  destruct (snmp_oid_compare _ _ =? 0); [|reflexivity].
  destruct (csnmp_value_list_to_value _ _) as [v msgs].
  rewrite state_of_bind. cbn. apply length_insert.
Qed.

Lemma csnmp_read_value_variables_length dss oids vbs (vals : list value_t) :
  length (state_of (csnmp_read_value_variables dss oids vbs vals))
  = length vals.
Proof.
  revert vals. induction vbs as [|vb rest IH]; intros vals; [reflexivity|].
  cbn [csnmp_read_value_variables]. rewrite state_of_bind, IH.
  apply csnmp_read_value_slots_length.
Qed.

End Matching.

(** ** Scalar-mode polling *)

Section Scalar_poll.
Context {hdr : Headers} {lib : Library}.

Lemma csnmp_read_value_variables_slots dss oids vbs :
  length oids = length dss ->
  state_of (csnmp_read_value_variables dss oids vbs
              (csnmp_read_value_init dss))
  = scalar_slots dss oids vbs.
Proof.
  intros Hlen. apply list_eq. intros j.
  rewrite csnmp_read_value_variables_lookup.
  unfold scalar_slots, csnmp_read_value_init.
  rewrite lookup_zip_with, list_lookup_fmap.
  unfold slot_final, scalar_slot, absent.
  destruct (oids !! j) as [o|] eqn:Ho, (dss !! j) as [d|] eqn:Hd;
    cbn; try reflexivity.
  apply lookup_ge_None in Ho. apply lookup_lt_Some in Hd. lia.
Qed.

Lemma last_named_elem_of o vbs vb :
  last_named o vbs = Some vb -> vb ∈ vbs /\ vl_name vb = o.
Proof.
  unfold last_named. intros H.
  assert (Hin : vb ∈ filter (fun vb => o = vl_name vb) vbs).
  { apply last_Some in H as [l' ->]. apply elem_of_app. right.
    apply list_elem_of_here. }
  apply list_elem_of_filter in Hin. destruct Hin. auto.
Qed.

Lemma last_named_Permutation o vbs vbs' :
  vbs ≡ₚ vbs' ->
  match last_named o vbs, last_named o vbs' with
  | Some v, Some v' => v ∈ vbs /\ v' ∈ vbs /\ vl_name v = vl_name v'
  | None, None => True
  | _, _ => False
  end.
Proof.
  intros Hp.
  assert (Hf : filter (fun vb => o = vl_name vb) vbs
               ≡ₚ filter (fun vb => o = vl_name vb) vbs')
    by (rewrite Hp; reflexivity).
  destruct (last_named o vbs) as [v|] eqn:E1,
           (last_named o vbs') as [v'|] eqn:E2.
  - apply last_named_elem_of in E1 as [? ?], E2 as [? ?].
    split; [assumption|]. split; [rewrite Hp; assumption|congruence].
  - unfold last_named in E2. apply last_None in E2. rewrite E2 in Hf.
    apply Permutation_nil_r in Hf. unfold last_named in E1.
    rewrite Hf in E1. discriminate.
  - unfold last_named in E1. apply last_None in E1. rewrite E1 in Hf.
    symmetry in Hf. apply Permutation_nil_r in Hf. unfold last_named in E2.
    rewrite Hf in E2. discriminate.
  - exact I.
Qed.

(** C6, as the code has it. When returned variables with the same
    identifier carry the same wire type and value (as they do when the
    identifiers are pairwise distinct), any permutation of the returned
    variables produces the same final slot array. *)
Theorem matching_order_independent (dss : list data_source_t)
    (oids : list oid_t) (vbs vbs' : list variable_list)
    (vals : list value_t) :
  (forall v1 v2, v1 ∈ vbs -> v2 ∈ vbs -> vl_name v1 = vl_name v2 ->
                 same_reading v1 v2) ->
  vbs ≡ₚ vbs' ->
  state_of (csnmp_read_value_variables dss oids vbs vals)
  = state_of (csnmp_read_value_variables dss oids vbs' vals).
Proof.
  intros Hsame Hp. apply list_eq. intros j.
  rewrite !csnmp_read_value_variables_lookup.
  destruct (vals !! j) as [old|]; [|reflexivity]. cbn. f_equal.
  unfold slot_final.
  destruct (oids !! j) as [o|]; [|reflexivity].
  destruct (dss !! j) as [d|]; [|reflexivity].
  pose proof (last_named_Permutation o vbs vbs' Hp) as H.
  destruct (last_named o vbs) as [v|], (last_named o vbs') as [v'|];
    try contradiction; [|reflexivity].
  destruct H as (Hv & Hv' & Hn).
  destruct (Hsame v v' Hv Hv' Hn) as (Ht & Hi & Hc).
  f_equal. symmetry. apply csnmp_value_list_to_value_ext; auto.
Qed.

(** C5. A scalar read whose request succeeds dispatches one sample;
    slot [j] of it holds the absent value (0 for a counter slot, NaN for
    a gauge slot) unless a returned variable is named by OID [j], in which
    case it holds the coercion of the last such variable. *)
Theorem scalar_poll_slots (sess_ptr : snmp_session)
    (host : host_definition_t) (data : data_definition_t)
    (type : string) (ds_ : data_set_t) (oids : list oid_t)
    (res : list variable_list) (e1 e2 : Env) (t : Z) (w : world) :
  dd_type data = Some type ->
  plugin_get_ds type = Some ds_ ->
  dd_values data = Some oids ->
  length oids = length (ds ds_) ->
  snmp_synch_response sess_ptr oids (env w) = (STAT_SUCCESS, res, e1) ->
  time e1 = (t, e2) ->
  (exists msgs,
     csnmp_read_value sess_ptr host data w =
     Some (0,
           World _ e2
             (dispatched w ++
                [(type,
                  Value_list (scalar_slots (ds ds_) oids res) t
                    (strncpy (hd_name host) (DATA_MAX_NAME_LEN - 1))
                    "snmp" EmptyString
                    (strncpy (instance_as_string (instance data))
                             (DATA_MAX_NAME_LEN - 1)))])
             (calls w ++ [call_snmp_synch_response sess_ptr oids]),
           msgs))
  /\ (forall d, ds_type d = DS_TYPE_COUNTER -> absent d = V_counter 0)
  /\ (forall d, ds_type d = DS_TYPE_GAUGE -> absent d = V_gauge NAN).
Proof.
  intros Htype Hds Hvals Hlen Hresp Htime.
  split; [|split].
  - unfold csnmp_read_value. rewrite Htype, Hds.
    unfold ds_num, values_len. rewrite Hvals, Hlen, Z.eqb_refl. cbn [negb].
    change (default [] (Some oids)) with oids. unfold liftU.
    unfold bind at 1. unfold do_snmp_synch_response at 1.
    rewrite Hresp. rewrite Z.eqb_refl. cbn [negb].
    unfold bind at 1. unfold do_time at 1. cbn [env]. rewrite Htime.
    rewrite <- (csnmp_read_value_variables_slots (ds ds_) oids res Hlen).
    rewrite (run_eta (csnmp_read_value_variables _ _ _ _)).
    cbn. eexists. reflexivity.
  - intros d Hd. unfold absent. rewrite Hd, Z.eqb_refl. reflexivity.
  - intros d Hd. unfold absent. rewrite Hd, gauge_is_not_counter.
    reflexivity.
Qed.

End Scalar_poll.

(** The round trip of the specification: two gauge slots, 42 returned for
    the first OID and nothing for the second. *)
Lemma scalar_poll_slots_witness :
  (exists msgs,
     csnmp_read_value (hdr := collectd_headers) (lib := sim_library)
       (sim_sess "10.0.0.1") sim_h1 sim_d1 sim_world =
     Some (0,
           World sim_library 1001
             [("df",
               Value_list
                 [V_gauge (S754_finite false 5910974510923776 (-47));
                  V_gauge S754_nan]
                 1000 "h1" "snmp" EmptyString "eth0")]
             [call_snmp_synch_response (sim_sess "10.0.0.1")
                [[1; 3; 6; 1; 1]; [1; 3; 6; 1; 2]]],
           msgs))
  /\ (forall d, ds_type d = 0 ->
        absent (hdr := collectd_headers) d = V_counter 0)
  /\ (forall d, ds_type d = 1 ->
        absent (hdr := collectd_headers) d = V_gauge NAN).
Proof.
  apply (scalar_poll_slots (hdr := collectd_headers) (lib := sim_library)
           (sim_sess "10.0.0.1") sim_h1 sim_d1 "df"
           (Data_set "df" [Data_source "used" 1; Data_source "free" 1])
           [[1; 3; 6; 1; 1]; [1; 3; 6; 1; 2]]
           [Variable_list [1; 3; 6; 1; 1] 2 42 (Counter64 0 0)]
           1000 1001 1000 sim_world);
    reflexivity.
Defined.

(** Two returned variables with distinct identifiers, in both orders. *)
Lemma matching_order_independent_witness :
  let dss := [Data_source "used" 1; Data_source "free" 1] in
  let oids := [[1; 3; 6; 1; 1]; [1; 3; 6; 1; 2]] in
  let a := Variable_list [1; 3; 6; 1; 1] 2 42 (Counter64 0 0) in
  let b := Variable_list [1; 3; 6; 1; 2] 66 7 (Counter64 0 0) in
  state_of (csnmp_read_value_variables (hdr := collectd_headers) dss oids
              [a; b] [V_gauge NAN; V_gauge NAN])
  = state_of (csnmp_read_value_variables (hdr := collectd_headers) dss oids
                [b; a] [V_gauge NAN; V_gauge NAN]).
Proof.
  intros dss oids a b.
  apply (matching_order_independent (hdr := collectd_headers) dss oids
           [a; b] [b; a]).
  - intros v1 v2 H1 H2 Hn.
    apply elem_of_cons in H1 as [->|H1];
      [|apply list_elem_of_singleton in H1 as ->];
      (apply elem_of_cons in H2 as [->|H2];
       [|apply list_elem_of_singleton in H2 as ->]);
      try discriminate Hn; repeat split.
  - apply perm_swap.
Defined.

(** C6 as stated fails. A definition names the same OID for its two
    counter slots, and the response carries that identifier twice with
    the readings 5 and 7 (the counter moved between the two reads of the
    agent): every slot keeps the reading that comes last, 7 in one order
    of the response and 5 in the other. *)
Lemma matching_order_dependent :
  let dss := [Data_source "rx" 0; Data_source "tx" 0] in
  let oids := [[1; 3; 6; 1; 1]; [1; 3; 6; 1; 1]] in
  let v5 := Variable_list [1; 3; 6; 1; 1] 65 5 (Counter64 0 0) in
  let v7 := Variable_list [1; 3; 6; 1; 1] 65 7 (Counter64 0 0) in
  let run vbs :=
    state_of (csnmp_read_value_variables (hdr := collectd_headers) dss oids
                vbs (csnmp_read_value_init (hdr := collectd_headers) dss)) in
  [v5; v7] ≡ₚ [v7; v5]
  /\ run [v5; v7] = [V_counter 7; V_counter 7]
  /\ run [v7; v5] = [V_counter 5; V_counter 5]
  /\ run [v5; v7] <> run [v7; v5].
Proof.
  intros dss oids v5 v7 run. split; [apply perm_swap|].
  split; [reflexivity|]. split; [reflexivity|].
  vm_compute. discriminate.
Qed.

(** ** The poll cycle *)

Section Poll_cycle.
Context {hdr : Headers} {lib : Library}.

Lemma by_requests_refl w : by_requests w w.
Proof. exists []. rewrite app_nil_r. auto. Qed.

Lemma by_requests_trans w1 w2 w3 :
  by_requests w1 w2 -> by_requests w2 w3 -> by_requests w1 w3.
Proof.
  intros (c1 & H1 & F1) (c2 & H2 & F2). exists (c1 ++ c2).
  rewrite H2, H1, app_assoc. split; [reflexivity|].
  apply Forall_app; auto.
Qed.

Lemma opened_requests cs : Forall is_request cs -> opened cs = [].
Proof.
  induction 1 as [|c cs Hc _ IH]; [reflexivity|].
  destruct c; try contradiction. exact IH.
Qed.

Lemma opened_app cs1 cs2 : opened (cs1 ++ cs2) = opened cs1 ++ opened cs2.
Proof. apply omap_app. Qed.

Lemma bindU_Some {S A B} (m : MU S A) (k : A -> MU S B) s a s1 l1 :
  m s = Some (a, s1, l1) ->
  bindU m k s =
    match k a s1 with
    | Some (b, s2, l2) => Some (b, s2, l1 ++ l2)
    | None => None
    end.
Proof. intros H. unfold bindU. rewrite H. reflexivity. Qed.

Lemma csnmp_read_value_defined sess_ptr host data w :
  typed data ->
  exists r w' msgs,
    csnmp_read_value sess_ptr host data w = Some (r, w', msgs)
    /\ by_requests w w'.
Proof.
  intros [type Htype]. unfold csnmp_read_value. rewrite Htype.
  destruct (plugin_get_ds type) as [ds_|].
  2: { do 3 eexists. split; [reflexivity|]. apply by_requests_refl. }
  destruct (negb (ds_num ds_ =? values_len data)).
  { do 3 eexists. split; [reflexivity|]. apply by_requests_refl. }
  unfold liftU, bind at 1, do_snmp_synch_response at 1.
  destruct (snmp_synch_response _ _ _) as [[status res] e1].
  destruct (negb (status =? STAT_SUCCESS)).
  - do 3 eexists. split; [reflexivity|].
    eexists [_]. cbn. split; [reflexivity|]. repeat constructor.
  - unfold bind at 1, do_time at 1. cbn [env].
    destruct (time e1) as [t e2].
    destruct (csnmp_read_value_variables _ _ _ _) as [[u vals] msgs].
    do 3 eexists. split; [reflexivity|].
    eexists [_]. cbn. split; [reflexivity|]. repeat constructor.
Qed.

Lemma csnmp_read_host_data_defined sess_ptr host datas w :
  Forall typed datas ->
  exists w' msgs,
    csnmp_read_host_data sess_ptr host datas w = Some (tt, w', msgs)
    /\ by_requests w w'.
Proof.
  intros Ht. revert w. induction Ht as [|data rest Hd _ IH]; intros w.
  - do 2 eexists. split; [reflexivity|]. apply by_requests_refl.
  - cbn [csnmp_read_host_data].
    assert (Hstep : exists r w1 l1,
               (if negb (is_table data =? 0)
                then csnmp_read_table sess_ptr host data
                else csnmp_read_value sess_ptr host data) w
               = Some (r, w1, l1) /\ by_requests w w1).
    { destruct (negb (is_table data =? 0)).
      - do 3 eexists. split; [reflexivity|]. apply by_requests_refl.
      - apply csnmp_read_value_defined, Hd. }
    destruct Hstep as (r & w1 & l1 & E1 & R1).
    destruct (IH w1) as (w2 & l2 & E2 & R2).
    rewrite (bindU_Some _ _ _ _ _ _ E1), E2.
    do 2 eexists. split; [reflexivity|].
    eapply by_requests_trans; eassumption.
Qed.

Lemma csnmp_read_host_closed host w :
  csnmp_read_host host w =
    match snmp_open (sess host) (env w) with
    | (None, e) =>
        Some (-1,
              World _ e (dispatched w)
                    (calls w ++ [call_snmp_open (sess host)]),
              ERROR "snmp plugin: snmp_open failed." [])
    | (Some sess_ptr, e) =>
        match csnmp_read_host_data sess_ptr host (data_list host)
                (World _ e (dispatched w)
                       (calls w ++ [call_snmp_open (sess host)])) with
        | Some (_, w1, l1) =>
            Some (0,
                  World _ (snmp_close sess_ptr (env w1)) (dispatched w1)
                        (calls w1 ++ [call_snmp_close sess_ptr]),
                  l1)
        | None => None
        end
    end.
Proof.
  unfold csnmp_read_host, bindU at 1, liftU at 1, do_snmp_open.
  destruct (snmp_open (sess host) (env w)) as [[sess_ptr|] e].
  - unfold bindU at 1.
    destruct (csnmp_read_host_data _ _ _ _) as [[[u w1] l1]|];
      [|reflexivity].
    cbn. rewrite app_nil_r. reflexivity.
  - reflexivity.
Qed.

Lemma csnmp_read_host_defined host w :
  Forall typed (data_list host) ->
  exists r w' msgs,
    csnmp_read_host host w = Some (r, w', msgs)
    /\ opened (calls w') = opened (calls w) ++ [sess host].
Proof.
  intros Ht. rewrite csnmp_read_host_closed.
  destruct (snmp_open (sess host) (env w)) as [[sess_ptr|] e].
  - destruct (csnmp_read_host_data_defined sess_ptr host (data_list host)
                (World _ e (dispatched w)
                       (calls w ++ [call_snmp_open (sess host)])) Ht)
      as (w1 & l1 & E1 & cs & Hc & Hr).
    rewrite E1. do 3 eexists. split; [reflexivity|].
    cbn [calls] in *. rewrite Hc, !opened_app, (opened_requests cs Hr).
    cbn. rewrite !app_nil_r. reflexivity.
  - do 3 eexists. split; [reflexivity|].
    cbn [calls]. rewrite opened_app. reflexivity.
Qed.

Lemma csnmp_read_hosts_defined hosts w :
  typed_hosts hosts ->
  exists w' msgs,
    csnmp_read_hosts hosts w = Some (tt, w', msgs)
    /\ opened (calls w') = opened (calls w) ++ map sess hosts.
Proof.
  intros Ht. revert w. induction Ht as [|host rest Hh _ IH]; intros w.
  - do 2 eexists. split; [reflexivity|]. cbn. rewrite app_nil_r.
    reflexivity.
  - destruct (csnmp_read_host_defined host w Hh) as (r & w1 & l1 & E1 & O1).
    destruct (IH w1) as (w2 & l2 & E2 & O2).
    cbn [csnmp_read_hosts]. rewrite (bindU_Some _ _ _ _ _ _ E1), E2.
    do 2 eexists. split; [reflexivity|].
    rewrite O2, O1, <- app_assoc. reflexivity.
Qed.

(** C1, as the code has it. With no host registered the read cycle
    leaves the world as it is (no sample dispatched, no session opened),
    logs "No hosts configured." at level info, and returns -1. *)
Theorem read_without_hosts (st : plugin_state) (w : world) :
  host_head st = [] ->
  csnmp_read st w
  = Some (-1, w, INFO "snmp plugin: No hosts configured." [])
  /\ is_error_result (-1) = true.
Proof.
  intros H. unfold csnmp_read. rewrite H. split; reflexivity.
Qed.

(** C9. A host whose session fails to open makes one call (the failed
    open), dispatches nothing and leaves the rest of the cycle as it
    would have been without it. A session that opens is closed after the
    host's definitions, with only requests in between. In a cycle every
    registered host has its session opened, in registration order,
    whatever the earlier hosts returned. *)
Theorem host_failure_contained (st : plugin_state) (w : world) :
  typed_hosts (host_head st) ->
  host_head st <> [] ->
  (forall host w0 e,
     snmp_open (sess host) (env w0) = (None, e) ->
     let w1 := World _ e (dispatched w0)
                     (calls w0 ++ [call_snmp_open (sess host)]) in
     csnmp_read_host host w0
     = Some (-1, w1, ERROR "snmp plugin: snmp_open failed." [])
     /\ forall rest,
          csnmp_read_hosts (host :: rest) w0
          = match csnmp_read_hosts rest w1 with
            | Some (u, w', msgs) =>
                Some (u, w', ERROR "snmp plugin: snmp_open failed." []
                             ++ msgs)
            | None => None
            end)
  /\ (forall host w0 sess_ptr e,
        Forall typed (data_list host) ->
        snmp_open (sess host) (env w0) = (Some sess_ptr, e) ->
        exists w' msgs cs,
          csnmp_read_host host w0 = Some (0, w', msgs)
          /\ calls w' = calls w0 ++ [call_snmp_open (sess host)] ++ cs
                                 ++ [call_snmp_close sess_ptr]
          /\ Forall is_request cs)
  /\ (exists w' msgs,
        csnmp_read st w = Some (0, w', msgs)
        /\ opened (calls w') = opened (calls w) ++ map sess (host_head st)).
Proof.
  intros Ht Hne. split; [|split].
  - intros host w0 e Hopen w1.
    assert (E : csnmp_read_host host w0
                = Some (-1, w1, ERROR "snmp plugin: snmp_open failed." [])).
    { rewrite csnmp_read_host_closed, Hopen. reflexivity. }
    split; [exact E|]. intros rest.
    cbn [csnmp_read_hosts]. rewrite (bindU_Some _ _ _ _ _ _ E).
    reflexivity.
  - intros host w0 sess_ptr e Hd Hopen.
    rewrite csnmp_read_host_closed, Hopen.
    destruct (csnmp_read_host_data_defined sess_ptr host (data_list host)
                (World _ e (dispatched w0)
                       (calls w0 ++ [call_snmp_open (sess host)])) Hd)
      as (w1 & l1 & E1 & cs & Hc & Hr).
    rewrite E1. exists (World _ (snmp_close sess_ptr (env w1))
                          (dispatched w1)
                          (calls w1 ++ [call_snmp_close sess_ptr])), l1, cs.
    split; [reflexivity|]. split; [|exact Hr].
    cbn [calls] in *. rewrite Hc, <- !app_assoc. reflexivity.
  - destruct (csnmp_read_hosts_defined (host_head st) w Ht)
      as (w' & msgs & E & O).
    unfold csnmp_read. destruct (host_head st) as [|h hs] eqn:Hh;
      [contradiction|].
    rewrite (bindU_Some _ _ _ _ _ _ E). cbn.
    do 2 eexists. split; [reflexivity|]. exact O.
Qed.

End Poll_cycle.

Example sim_state_registries :
  data_head sim_state = [sim_d1; sim_octets]
  /\ host_head sim_state =
       [Host_definition "down" (Some "192.0.2.1") (Some "public") 2
                        (sim_sess "192.0.2.1") [sim_d1];
        Host_definition "h1" (Some "10.0.0.1") (Some "public") 2
                        (sim_sess "10.0.0.1") [sim_d1; sim_octets]].
Proof. split; vm_compute; reflexivity. Qed.

(** A cycle over the two hosts: the first session fails to open, the
    second host is polled all the same and its sample is dispatched; the
    definition with the wrong number of values yields no sample. *)
Example sim_cycle :
  exists msgs,
    csnmp_read (hdr := collectd_headers) (lib := sim_library)
               sim_state sim_world
    = Some (0,
            World sim_library 1001
              [("df",
                Value_list
                  [V_gauge (S754_finite false 5910974510923776 (-47));
                   V_gauge S754_nan]
                  1000 "h1" "snmp" EmptyString "eth0")]
              [call_snmp_open (sim_sess "192.0.2.1");
               call_snmp_open (sim_sess "10.0.0.1");
               call_snmp_synch_response (sim_sess "10.0.0.1")
                 [[1; 3; 6; 1; 1]; [1; 3; 6; 1; 2]];
               call_snmp_close (sim_sess "10.0.0.1")],
            msgs).
Proof. eexists. vm_compute. reflexivity. Qed.

(** The read cycle on the state before any configuration. *)
Lemma read_without_hosts_witness :
  csnmp_read (hdr := collectd_headers) (lib := sim_library)
             plugin_state_init sim_world
  = Some (-1, sim_world, INFO "snmp plugin: No hosts configured." [])
  /\ is_error_result (-1) = true.
Proof.
  apply (read_without_hosts (hdr := collectd_headers) (lib := sim_library)
           plugin_state_init sim_world).
  reflexivity.
Defined.

(** C1 as stated fails: with no host registered the result of the read
    cycle is -1, an error result. *)
Lemma read_without_hosts_is_error :
  ~ (exists status w' msgs,
       csnmp_read (hdr := collectd_headers) (lib := sim_library)
                  plugin_state_init sim_world
       = Some (status, w', msgs)
       /\ dispatched w' = []
       /\ msgs = INFO "snmp plugin: No hosts configured." []
       /\ is_error_result status = false).
Proof.
  intros (status & w' & msgs & E & _ & _ & Hs).
  vm_compute in E. injection E as <- _ _. discriminate Hs.
Qed.

(** The cycle over the hosts of [sim_config]: the session of the first
    fails to open, the session of the second is opened all the same. *)
Lemma host_failure_contained_witness :
  exists w' msgs,
    csnmp_read (hdr := collectd_headers) (lib := sim_library)
               sim_state sim_world = Some (0, w', msgs)
    /\ opened (calls w') = [sim_sess "192.0.2.1"; sim_sess "10.0.0.1"].
Proof.
  apply (host_failure_contained (hdr := collectd_headers)
           (lib := sim_library) sim_state sim_world).
  - vm_compute. repeat constructor; eexists; reflexivity.
  - vm_compute. discriminate.
Defined.

(** ** Case-insensitive names *)

Lemma tolower_zero (c : ascii) : tolower c = zero <-> c = zero.
Proof.
  destruct c as [[] [] [] [] [] [] [] []]; vm_compute;
    split; congruence.
Qed.

Lemma nat_of_ascii_inj (a b : ascii) :
  nat_of_ascii a = nat_of_ascii b -> a = b.
Proof.
  intros H. rewrite <- (ascii_nat_embedding a), <- (ascii_nat_embedding b).
  congruence.
Qed.

Lemma strcasecmp_lower (a b : string) :
  strcasecmp a b = 0 <-> c_lower a = c_lower b.
Proof.
  revert b. induction a as [|c1 r1 IH]; intros [|c2 r2]; cbn.
  - tauto.
  - destruct (Ascii.eqb_spec c2 zero) as [->|Hc]; [vm_compute; tauto|].
    split; [|discriminate]. intros H. exfalso. apply Hc, tolower_zero.
    apply nat_of_ascii_inj. change (nat_of_ascii zero) with 0%nat. lia.
  - destruct (Ascii.eqb_spec c1 zero) as [->|Hc]; [vm_compute; tauto|].
    split; [|discriminate]. intros H. exfalso. apply Hc, tolower_zero.
    apply nat_of_ascii_inj. change (nat_of_ascii zero) with 0%nat. lia.
  - destruct (Z.eqb_spec (Z.of_nat (nat_of_ascii (tolower c1))
                          - Z.of_nat (nat_of_ascii (tolower c2))) 0)
      as [Hd|Hd]; cbn [negb].
    + assert (Hl : tolower c1 = tolower c2)
        by (apply nat_of_ascii_inj; lia).
      destruct (Ascii.eqb_spec c1 zero) as [->|H1].
      * change (tolower zero) with zero in Hl. symmetry in Hl.
        apply (proj1 (tolower_zero c2)) in Hl. subst c2.
        rewrite Ascii.eqb_refl. tauto.
      * destruct (Ascii.eqb_spec c2 zero) as [->|H2].
        { change (tolower zero) with zero in Hl.
          apply (proj1 (tolower_zero c1)) in Hl. contradiction. }
        rewrite IH, Hl. split; [intros ->; reflexivity|].
        intros [= E]. exact E.
    + split; [intros H; contradiction|]. intros H. exfalso. apply Hd.
      destruct (Ascii.eqb_spec c1 zero) as [->|H1],
               (Ascii.eqb_spec c2 zero) as [->|H2];
        try discriminate H; [reflexivity|].
      injection H as -> _. lia.
Qed.

(** ** The Collect binding *)

Section Collect.
Context {hdr : Headers} {lib : Library}.

Lemma find_host_resolve h hosts : find_host h hosts = resolve_host h hosts.
Proof. apply list_find_ext. intros host. apply strcasecmp_lower. Qed.

Lemma find_data_resolve n datas :
  snd <$> find_data n datas = resolve_data n datas.
Proof.
  unfold resolve_data, find_data. f_equal.
  apply list_find_ext. intros data. apply strcasecmp_lower.
Qed.

Lemma all_strings_map (ss : list string) :
  all_strings (map OCONFIG_TYPE_STRING ss) = Some ss.
Proof. induction ss as [|s ss IH]; cbn; [|rewrite IH]; reflexivity. Qed.

Lemma bind_datas_nil k st : bind_datas k [] st = st.
Proof.
  unfold bind_datas. rewrite list_alter_id.
  - destruct st. reflexivity.
  - intros [? ? ? ? ? ?]. unfold set_data_list. cbn.
    rewrite app_nil_r. reflexivity.
Qed.

Lemma bind_datas_append k data ds st :
  bind_datas k ds (append_data k data st) = bind_datas k (data :: ds) st.
Proof.
  unfold bind_datas, append_data, set_host_head. cbn.
  rewrite list_alter_alter_eq. f_equal.
  apply list_alter_ext; [|reflexivity]. intros host _.
  unfold set_data_list. cbn. rewrite <- app_assoc. reflexivity.
Qed.

Lemma csnmp_config_add_collect_names_run k ns st :
  csnmp_config_add_collect_names k ns st =
  (tt,
   bind_datas k (omap (fun n => resolve_data n (data_head st)) ns) st,
   unresolved_warnings ns (data_head st)).
Proof.
  revert st. induction ns as [|n rest IH]; intros st.
  - cbn. rewrite bind_datas_nil. reflexivity.
  - cbn [csnmp_config_add_collect_names omap list_omap].
    unfold unresolved_warnings. cbn [map concat].
    rewrite <- find_data_resolve.
    unfold bind at 1, get.
    destruct (find_data n (data_head st)) as [[i data]|] eqn:E; cbn [fmap option_fmap option_map snd].
    + unfold bind at 1, modify. rewrite IH.
      change (data_head (append_data k data st)) with (data_head st).
      rewrite bind_datas_append. reflexivity.
    + unfold bind at 1, log. rewrite IH. reflexivity.
Qed.

Lemma csnmp_config_add_collect_run key_ cs h n ns st :
  csnmp_config_add_collect
    (Oconfig_item key_ (map OCONFIG_TYPE_STRING (h :: n :: ns)) cs) st =
  match find_host h (host_head st) with
  | None =>
      (-1, st,
       WARNING "snmp plugin: No such host configured: `%s'" [arg_s h])
  | Some (k, _) =>
      (0,
       bind_datas k
         (omap (fun n => resolve_data n (data_head st)) (n :: ns)) st,
       unresolved_warnings (n :: ns) (data_head st))
  end.
Proof.
  unfold csnmp_config_add_collect. cbn [values].
  rewrite all_strings_map, length_map.
  replace (Z.of_nat (length (h :: n :: ns)) <? 2) with false
    by (symmetry; apply Z.ltb_ge; cbn [length]; lia).
  unfold bind at 1, get.
  destruct (find_host h (host_head st)) as [[k host]|]; [|reflexivity].
  unfold bind at 1. rewrite csnmp_config_add_collect_names_run.
  cbn [ret]. rewrite app_nil_r. reflexivity.
Qed.

(** C7. A Collect declaration with host name [h] and data names [ns].
    When no registered host is named [h] up to case the declaration is
    rejected and nothing changes. When the host resolves, the data
    definitions the names resolve to (each looked up on its own, up to
    case) are appended to the collect set of that host in the order
    given, nothing else changes, and a warning is logged for each name
    that does not resolve. A declaration with an argument that is not a
    string is no list of names; it is rejected and nothing changes. *)
Theorem collect_binding (key_ : string) (cs : list oconfig_item_t)
    (h : string) (ns : list string) (st : plugin_state) :
  let ci := Oconfig_item key_ (map OCONFIG_TYPE_STRING (h :: ns)) cs in
  let r := csnmp_config_add_collect ci st in
  match resolve_host h (host_head st) with
  | None => result_of r = -1 /\ state_of r = st
  | Some (k, host) =>
      state_of r =
        set_host_head
          (<[k := set_data_list
                    (data_list host
                     ++ omap (fun n => resolve_data n (data_head st)) ns)
                    host]> (host_head st)) st
      /\ (ns <> [] ->
          result_of r = 0
          /\ log_of r = unresolved_warnings ns (data_head st))
  end
  /\ (forall ci',
        all_strings (values ci') = None ->
        result_of (csnmp_config_add_collect ci' st) = -1
        /\ state_of (csnmp_config_add_collect ci' st) = st).
Proof.
  intros ci r. split.
  2: { intros ci' Hs. unfold csnmp_config_add_collect. rewrite Hs.
       destruct (Z.of_nat (length (values ci')) <? 2); split; reflexivity. }
  subst r ci. rewrite <- find_host_resolve.
  destruct ns as [|n ns'].
  - unfold csnmp_config_add_collect. cbn.
    destruct (find_host h (host_head st)) as [[k host]|] eqn:E.
    + split; [|intros H; contradiction].
      apply list_find_Some in E as (Hk & _ & _).
      rewrite list_insert_id.
      * destruct st. reflexivity.
      * rewrite Hk. f_equal. destruct host. unfold set_data_list. cbn.
        rewrite app_nil_r. reflexivity.
    + split; reflexivity.
  - rewrite csnmp_config_add_collect_run.
    destruct (find_host h (host_head st)) as [[k host]|] eqn:E.
    + cbn [state_of result_of log_of fst snd].
      split; [|intros _; split; reflexivity].
      unfold bind_datas. f_equal.
      apply list_find_Some in E as (Hk & _ & _).
      rewrite list_insert_alter. apply list_alter_ext; [|reflexivity].
      intros x Hx. rewrite Hk in Hx. injection Hx as <-. reflexivity.
    + split; reflexivity.
Qed.

End Collect.

(** ** Data definitions and the registry *)

Section Data_registry.
Context {hdr : Headers} {lib : Library}.

Lemma parse_oids_length ss os :
  parse_oids ss = inr os -> length os = length ss.
Proof.
  revert os. induction ss as [|s ss IH]; intros os; cbn.
  - intros [= <-]. reflexivity.
  - destruct (snmp_parse_oid s); [|discriminate].
    destruct (parse_oids ss) as [bad|os']; [discriminate|].
    intros [= <-]. cbn. f_equal. apply IH. reflexivity.
Qed.

Lemma all_strings_length vs ss :
  all_strings vs = Some ss -> length ss = length vs.
Proof.
  revert ss. induction vs as [|v vs IH]; intros ss; cbn.
  - intros [= <-]. reflexivity.
  - destruct v; try discriminate.
    destruct (all_strings vs) as [ss'|]; [|discriminate].
    intros [= <-]. cbn. f_equal. apply IH. reflexivity.
Qed.

Lemma csnmp_config_add_data_values_ok o dd :
  values_ok dd ->
  values_ok (state_of (csnmp_config_add_data_values o dd)).
Proof.
  intros Hok. unfold csnmp_config_add_data_values.
  destruct (Z.of_nat (length (values o)) <? 1) eqn:Hn; [exact Hok|].
  destruct (all_strings (values o)) as [ss|] eqn:Hs; [|exact Hok].
  destruct (parse_oids ss) as [bad|os] eqn:Hp.
  - intros oids. cbn. discriminate.
  - intros oids. cbn. intros [= <-].
    apply parse_oids_length in Hp. apply all_strings_length in Hs.
    apply Z.ltb_ge in Hn. destruct os; [cbn in Hp; lia|discriminate].
Qed.

Lemma csnmp_config_add_data_option_ok o dd :
  values_ok dd ->
  values_ok (state_of (csnmp_config_add_data_option o dd)).
Proof.
  intros Hok. unfold csnmp_config_add_data_option.
  destruct (strcasecmp "Type" (key o) =? 0).
  { unfold csnmp_config_add_data_type. repeat case_match; exact Hok. }
  destruct (strcasecmp "Table" (key o) =? 0).
  { unfold csnmp_config_add_data_table. repeat case_match; exact Hok. }
  destruct (strcasecmp "Instance" (key o) =? 0).
  { unfold csnmp_config_add_data_instance.
    repeat case_match; try exact Hok;
      rewrite state_of_bind; cbn; repeat case_match; exact Hok. }
  destruct (strcasecmp "Values" (key o) =? 0).
  { apply csnmp_config_add_data_values_ok, Hok. }
  exact Hok.
Qed.

Lemma csnmp_config_add_data_option_type o dd :
  (strcasecmp "Type" (key o) =? 0) = false ->
  dd_type (state_of (csnmp_config_add_data_option o dd)) = dd_type dd.
Proof.
  intros Hk. unfold csnmp_config_add_data_option. rewrite Hk.
  destruct (strcasecmp "Table" (key o) =? 0).
  { unfold csnmp_config_add_data_table. repeat case_match; reflexivity. }
  destruct (strcasecmp "Instance" (key o) =? 0).
  { unfold csnmp_config_add_data_instance.
    repeat case_match; try reflexivity;
      rewrite state_of_bind; cbn; repeat case_match; reflexivity. }
  destruct (strcasecmp "Values" (key o) =? 0); [|reflexivity].
  unfold csnmp_config_add_data_values. repeat case_match; reflexivity.
Qed.

Lemma csnmp_config_add_data_option_values o dd :
  (strcasecmp "Values" (key o) =? 0) = false ->
  dd_values (state_of (csnmp_config_add_data_option o dd)) = dd_values dd.
Proof.
  intros Hk. unfold csnmp_config_add_data_option. rewrite Hk.
  destruct (strcasecmp "Type" (key o) =? 0).
  { unfold csnmp_config_add_data_type. repeat case_match; reflexivity. }
  destruct (strcasecmp "Table" (key o) =? 0).
  { unfold csnmp_config_add_data_table. repeat case_match; reflexivity. }
  destruct (strcasecmp "Instance" (key o) =? 0); [|reflexivity].
  unfold csnmp_config_add_data_instance.
  repeat case_match; try reflexivity;
    rewrite state_of_bind; cbn; repeat case_match; reflexivity.
Qed.

(** An invariant of the data definition under construction that every
    option keeps is kept by the loop over the options. *)
Lemma csnmp_config_add_data_children_invariant
    (P : data_definition_t -> Prop) (Q : oconfig_item_t -> Prop) opts dd :
  (forall o dd, Q o -> P dd ->
                P (state_of (csnmp_config_add_data_option o dd))) ->
  Forall Q opts ->
  P dd ->
  P (state_of (csnmp_config_add_data_children opts dd)).
Proof.
  intros Hstep Hq. revert dd.
  induction Hq as [|o rest Ho _ IH]; intros dd Hdd; [exact Hdd|].
  cbn [csnmp_config_add_data_children]. rewrite state_of_bind.
  destruct (negb (result_of (csnmp_config_add_data_option o dd) =? 0));
    [apply Hstep; assumption|].
  apply IH, Hstep; assumption.
Qed.

Lemma has_option_false name ci :
  has_option name ci = false ->
  Forall (fun o => (strcasecmp name (key o) =? 0) = false) (children ci).
Proof.
  unfold has_option. induction (children ci) as [|o rest IH]; cbn.
  - constructor.
  - intros H. apply orb_false_iff in H as [H1 H2].
    constructor; auto.
Qed.

(** The result of the check block: 0 only with a type and values. *)
Lemma csnmp_config_add_data_check_run status dd :
  state_of (csnmp_config_add_data_check status dd) = dd
  /\ (result_of (csnmp_config_add_data_check status dd) =? 0) =
     (status =? 0) && bool_decide (is_Some (dd_type dd))
                   && bool_decide (is_Some (dd_values dd)).
Proof.
  unfold csnmp_config_add_data_check.
  destruct (status =? 0) eqn:Hs; [|split; [reflexivity|exact Hs]].
  unfold bind, get.
  destruct (dd_type dd) as [t|], (dd_values dd) as [v|]; cbn;
    rewrite ?Hs; split; try reflexivity.
Qed.

Lemma csnmp_config_add_data_run ci st :
  csnmp_config_add_data ci st =
  match values ci with
  | [OCONFIG_TYPE_STRING name] =>
      if result_of (built ci name) =? 0
      then (0, set_data_head (data_head st ++ [state_of (built ci name)]) st,
            log_of (built ci name))
      else (-1, st, log_of (built ci name))
  | _ =>
      (-1, st,
       WARNING
         "snmp plugin: The `Data' config option needs exactly one string argument."
         [])
  end.
Proof.
  unfold csnmp_config_add_data.
  destruct (values ci) as [|[name| |] [|]]; try reflexivity.
  fold (built ci name).
  destruct (built ci name) as [[status dd] msgs].
  cbn [result_of state_of log_of fst snd].
  unfold bind, log, modify.
  destruct (status =? 0); cbn; rewrite ?app_nil_r; reflexivity.
Qed.

Lemma built_state ci name :
  state_of (built ci name)
  = state_of (csnmp_config_add_data_children (children ci)
                (Data_definition name None 0 (instance_string EmptyString)
                                 None)).
Proof.
  unfold built. rewrite state_of_bind.
  apply csnmp_config_add_data_check_run.
Qed.

Lemma built_result ci name :
  (result_of (built ci name) =? 0) = true ->
  is_Some (dd_type (state_of (built ci name)))
  /\ is_Some (dd_values (state_of (built ci name))).
Proof.
  rewrite built_state. unfold built. rewrite result_of_bind.
  set (r := csnmp_config_add_data_children _ _).
  destruct (csnmp_config_add_data_check_run (result_of r) (state_of r))
    as [_ ->].
  rewrite !andb_true_iff, !bool_decide_eq_true. tauto.
Qed.

Lemma incomplete_rejected ci st :
  incomplete ci = true ->
  result_of (csnmp_config_add_data ci st) = -1
  /\ state_of (csnmp_config_add_data ci st) = st.
Proof.
  intros Hinc. rewrite csnmp_config_add_data_run.
  destruct (values ci) as [|[name| |] [|]]; try (split; reflexivity).
  destruct (result_of (built ci name) =? 0) eqn:Hr; [|split; reflexivity].
  exfalso. apply built_result in Hr as [Ht Hv].
  rewrite built_state in Ht, Hv.
  unfold incomplete in Hinc. apply orb_true_iff in Hinc as [H|H];
    apply negb_true_iff, has_option_false in H.
  - revert Ht. apply (csnmp_config_add_data_children_invariant
                        (fun dd => ~ is_Some (dd_type dd)) _ _ _
                        ltac:(intros o dd Ho; cbv beta;
                              rewrite csnmp_config_add_data_option_type
                                by exact Ho; auto) H).
    cbn. apply is_Some_None.
  - revert Hv. apply (csnmp_config_add_data_children_invariant
                        (fun dd => ~ is_Some (dd_values dd)) _ _ _
                        ltac:(intros o dd Ho; cbv beta;
                              rewrite csnmp_config_add_data_option_values
                                by exact Ho; auto) H).
    cbn. apply is_Some_None.
Qed.

Lemma csnmp_config_child_incomplete ci st :
  is_data ci && incomplete ci = true ->
  state_of (csnmp_config_child ci st) = st.
Proof.
  intros H. apply andb_true_iff in H as [Hd Hi].
  unfold csnmp_config_child. unfold is_data in Hd. rewrite Hd.
  rewrite state_of_bind. cbn [ret state_of fst snd].
  apply incomplete_rejected, Hi.
Qed.

Lemma csnmp_config_children_filter cs st :
  state_of (csnmp_config_children cs st)
  = state_of (csnmp_config_children
                (filter (fun ci => is_data ci && incomplete ci = false) cs)
                st).
Proof.
  revert st. induction cs as [|ci rest IH]; intros st; [reflexivity|].
  rewrite filter_cons.
  destruct (decide (is_data ci && incomplete ci = false)) as [Hk|Hk].
  - cbn [csnmp_config_children]. rewrite !state_of_bind. apply IH.
  - apply not_false_is_true in Hk.
    cbn [csnmp_config_children]. rewrite state_of_bind.
    rewrite (csnmp_config_child_incomplete ci st Hk). apply IH.
Qed.

(** C8. A data-definition declaration that lacks a Type option or a
    Values option is rejected and leaves the plugin state as it was; the
    state after processing a configuration (both registries) is the state
    after processing it without those declarations. *)
Theorem incomplete_data_rejected (key_ : string)
    (vs : list oconfig_value_t) (cs : list oconfig_item_t)
    (st : plugin_state) :
  (forall ci st0,
     incomplete ci = true ->
     result_of (csnmp_config_add_data ci st0) = -1
     /\ state_of (csnmp_config_add_data ci st0) = st0)
  /\ state_of (csnmp_config (Oconfig_item key_ vs cs) st)
     = state_of (csnmp_config
                   (Oconfig_item key_ vs
                      (filter (fun ci => is_data ci && incomplete ci = false)
                              cs))
                   st).
Proof.
  split; [apply incomplete_rejected|].
  unfold csnmp_config. cbn [children].
  rewrite !state_of_bind. cbn [ret state_of fst snd].
  apply csnmp_config_children_filter.
Qed.

Lemma csnmp_config_add_data_accepted ci st :
  result_of (csnmp_config_add_data ci st) = 0 ->
  exists dd type oids,
    state_of (csnmp_config_add_data ci st)
    = set_data_head (data_head st ++ [dd]) st
    /\ dd_type dd = Some type
    /\ dd_values dd = Some oids
    /\ oids <> [].
Proof.
  rewrite csnmp_config_add_data_run.
  destruct (values ci) as [|[name| |] [|]]; try discriminate.
  destruct (result_of (built ci name) =? 0) eqn:Hr; [|discriminate].
  intros _. destruct (built_result ci name Hr) as [[type Ht] [oids Hv]].
  exists (state_of (built ci name)), type, oids.
  repeat split; try assumption.
  assert (Hok : values_ok (state_of (built ci name))).
  { rewrite built_state.
    apply (csnmp_config_add_data_children_invariant values_ok
             (fun _ => True)).
    - intros o dd _. apply csnmp_config_add_data_option_ok.
    - apply Forall_true. auto.
    - intros oids'. discriminate. }
  apply Hok, Hv.
Qed.

(** Registration reads the library through the two OID parsers only. *)
Lemma parse_oids_ext (lib' : Library) ss :
  (forall s, snmp_parse_oid (Library := lib') s
              = snmp_parse_oid (Library := lib) s) ->
  parse_oids (lib := lib') ss = parse_oids (lib := lib) ss.
Proof.
  intros Hp. induction ss as [|s ss IH]; [reflexivity|].
  cbn. rewrite Hp, IH. reflexivity.
Qed.

Lemma csnmp_config_add_data_option_ext (lib' : Library) o dd :
  (forall s, snmp_parse_oid (Library := lib') s
              = snmp_parse_oid (Library := lib) s) ->
  (forall s, read_objid (Library := lib') s
              = read_objid (Library := lib) s) ->
  csnmp_config_add_data_option (lib := lib') o dd
  = csnmp_config_add_data_option (lib := lib) o dd.
Proof.
  intros Hp Hr. unfold csnmp_config_add_data_option.
  destruct (strcasecmp "Type" (key o) =? 0); [reflexivity|].
  destruct (strcasecmp "Table" (key o) =? 0); [reflexivity|].
  destruct (strcasecmp "Instance" (key o) =? 0).
  { unfold csnmp_config_add_data_instance.
    destruct (values o) as [|[s| |] [|]]; try reflexivity.
    unfold bind, get. destruct (negb (is_table dd =? 0)); [|reflexivity].
    rewrite Hr. reflexivity. }
  destruct (strcasecmp "Values" (key o) =? 0); [|reflexivity].
  unfold csnmp_config_add_data_values.
  destruct (Z.of_nat (length (values o)) <? 1); [reflexivity|].
  destruct (all_strings (values o)) as [ss|]; [|reflexivity].
  rewrite (parse_oids_ext lib' ss Hp). reflexivity.
Qed.

Lemma csnmp_config_add_data_children_ext (lib' : Library) opts dd :
  (forall s, snmp_parse_oid (Library := lib') s
              = snmp_parse_oid (Library := lib) s) ->
  (forall s, read_objid (Library := lib') s
              = read_objid (Library := lib) s) ->
  csnmp_config_add_data_children (lib := lib') opts dd
  = csnmp_config_add_data_children (lib := lib) opts dd.
Proof.
  intros Hp Hr. revert dd. induction opts as [|o rest IH]; intros dd;
    [reflexivity|].
  cbn [csnmp_config_add_data_children]. unfold bind.
  rewrite (csnmp_config_add_data_option_ext lib' o dd Hp Hr).
  destruct (csnmp_config_add_data_option (lib := lib) o dd)
    as [[status dd1] l1].
  destruct (negb (status =? 0)); [reflexivity|]. rewrite IH. reflexivity.
Qed.

Lemma csnmp_config_add_data_ext (lib' : Library) ci st :
  (forall s, snmp_parse_oid (Library := lib') s
              = snmp_parse_oid (Library := lib) s) ->
  (forall s, read_objid (Library := lib') s
              = read_objid (Library := lib) s) ->
  csnmp_config_add_data (lib := lib') ci st
  = csnmp_config_add_data (lib := lib) ci st.
Proof.
  intros Hp Hr. unfold csnmp_config_add_data.
  destruct (values ci) as [|[name| |] [|]]; try reflexivity.
  match goal with
  | |- context [bind (csnmp_config_add_data_children (lib := lib') ?o) ?k ?d] =>
      replace (bind (csnmp_config_add_data_children (lib := lib') o) k d)
        with (bind (csnmp_config_add_data_children (lib := lib) o) k d)
        by (unfold bind;
            rewrite (csnmp_config_add_data_children_ext lib' _ _ Hp Hr);
            reflexivity)
  end.
  reflexivity.
Qed.

(** C2, as the code has it. A data definition accepted into the registry
    has a type and a values list that is not empty; its length is not
    compared with the slot count of the type at registration, which gives
    the same result whatever data sets the daemon knows. The comparison is
    made by each read: when the counts differ the read logs an error and
    returns -1, without a request and without a sample. *)
Theorem data_arity_checked_at_read (ci : oconfig_item_t) (st : plugin_state) :
  (result_of (csnmp_config_add_data ci st) = 0 ->
   exists dd type oids,
     state_of (csnmp_config_add_data ci st)
     = set_data_head (data_head st ++ [dd]) st
     /\ dd_type dd = Some type
     /\ dd_values dd = Some oids
     /\ oids <> [])
  /\ (forall lib' : Library,
        (forall s, snmp_parse_oid (Library := lib') s
              = snmp_parse_oid (Library := lib) s) ->
        (forall s, read_objid (Library := lib') s
              = read_objid (Library := lib) s) ->
        csnmp_config_add_data (lib := lib') ci st
        = csnmp_config_add_data (lib := lib) ci st)
  /\ (forall sess_ptr host data type ds_ (w : world),
        dd_type data = Some type ->
        plugin_get_ds type = Some ds_ ->
        ds_num ds_ <> values_len data ->
        csnmp_read_value sess_ptr host data w
        = Some (-1, w,
                ERROR
                  "snmp plugin: DataSet `%s' requires %i values, but config talks about %i"
                  [arg_s type; arg_i (ds_num ds_);
                   arg_i (values_len data)])).
Proof.
  split; [apply csnmp_config_add_data_accepted|].
  split; [intros lib'; apply csnmp_config_add_data_ext|].
  intros sess_ptr host data type ds_ w Ht Hds Hne.
  unfold csnmp_read_value. rewrite Ht, Hds.
  apply Z.eqb_neq in Hne. rewrite Hne. reflexivity.
Qed.

End Data_registry.

(** ** What configuration registers can be polled

    Every data definition in the registry, and every one bound to a
    host, has a type: the poll engine never hands a NULL type to the
    daemon. *)

Section Registry_typed.
Context {hdr : Headers} {lib : Library}.

Lemma csnmp_config_add_data_typed ci st :
  registry_typed st -> registry_typed (state_of (csnmp_config_add_data ci st)).
Proof.
  intros [Hd Hh]. rewrite csnmp_config_add_data_run.
  destruct (values ci) as [|[name| |] [|]]; try (split; assumption).
  destruct (result_of (built ci name) =? 0) eqn:Hr; [|split; assumption].
  split; [|exact Hh]. cbn. apply Forall_app. split; [exact Hd|].
  constructor; [|constructor]. apply (built_result ci name Hr).
Qed.

Lemma csnmp_config_add_host_option_data_list o hd :
  data_list (state_of (csnmp_config_add_host_option o hd)) = data_list hd.
Proof.
  unfold csnmp_config_add_host_option, csnmp_config_add_host_address,
    csnmp_config_add_host_community, csnmp_config_add_host_version.
  repeat case_match; reflexivity.
Qed.

Lemma csnmp_config_add_host_children_data_list opts hd :
  data_list (state_of (csnmp_config_add_host_children opts hd))
  = data_list hd.
Proof.
  revert hd. induction opts as [|o rest IH]; intros hd; [reflexivity|].
  cbn [csnmp_config_add_host_children]. rewrite state_of_bind.
  destruct (negb (_ =? 0)); [|rewrite IH];
    apply csnmp_config_add_host_option_data_list.
Qed.

Lemma csnmp_config_add_host_check_state status hd :
  state_of (csnmp_config_add_host_check status hd) = hd.
Proof.
  unfold csnmp_config_add_host_check.
  destruct (status =? 0); [|reflexivity].
  unfold bind, get. destruct (address hd), (community hd); reflexivity.
Qed.

Lemma csnmp_config_add_host_typed ci st :
  registry_typed st -> registry_typed (state_of (csnmp_config_add_host ci st)).
Proof.
  intros [Hd Hh]. unfold csnmp_config_add_host.
  destruct (values ci) as [|[name| |] [|]]; try (split; assumption).
  set (hd0 := Host_definition name None None 2 snmp_sess_init []).
  set (m := bind _ _).
  assert (Hl : data_list (state_of (m hd0)) = []).
  { subst m. rewrite state_of_bind, csnmp_config_add_host_check_state.
    apply csnmp_config_add_host_children_data_list. }
  destruct (m hd0) as [[status hd] msgs]. cbn in Hl.
  rewrite state_of_bind. cbn [log state_of result_of fst snd].
  destruct (negb (status =? 0)); [split; assumption|].
  rewrite state_of_bind. cbn. split; [exact Hd|].
  apply Forall_app. split; [exact Hh|].
  constructor; [|constructor]. rewrite Hl. constructor.
Qed.

Lemma resolve_data_elem_of n datas data :
  resolve_data n datas = Some data -> data ∈ datas.
Proof.
  unfold resolve_data.
  destruct (list_find _ datas) as [[i d]|] eqn:E; [|discriminate].
  intros [= <-]. apply list_find_Some in E as (Hi & _).
  apply list_elem_of_lookup. eauto.
Qed.

Lemma bind_datas_typed k ns st :
  registry_typed st ->
  registry_typed
    (bind_datas k (omap (fun n => resolve_data n (data_head st)) ns) st).
Proof.
  intros [Hd Hh]. split; [exact Hd|]. cbn.
  apply Forall_alter; [exact Hh|]. intros host _ Hhost. cbn.
  apply Forall_app. split; [exact Hhost|].
  apply Forall_forall. intros data Hin.
  apply list_elem_of_omap in Hin as (n & _ & Hn).
  apply resolve_data_elem_of in Hn.
  rewrite Forall_forall in Hd. apply Hd, Hn.
Qed.

Lemma csnmp_config_add_collect_typed ci st :
  registry_typed st ->
  registry_typed (state_of (csnmp_config_add_collect ci st)).
Proof.
  intros Ht. unfold csnmp_config_add_collect.
  destruct (Z.of_nat (length (values ci)) <? 2); [exact Ht|].
  destruct (all_strings (values ci)) as [[|h ns]|]; try exact Ht.
  unfold bind at 1, get.
  destruct (find_host h (host_head st)) as [[k host]|]; [|exact Ht].
  unfold bind at 1. rewrite csnmp_config_add_collect_names_run.
  cbn. apply bind_datas_typed, Ht.
Qed.

Lemma csnmp_config_children_typed cs st :
  registry_typed st ->
  registry_typed (state_of (csnmp_config_children cs st)).
Proof.
  revert st. induction cs as [|ci rest IH]; intros st Ht; [exact Ht|].
  cbn [csnmp_config_children]. rewrite state_of_bind. apply IH.
  unfold csnmp_config_child.
  destruct (strcasecmp "Data" (key ci) =? 0).
  { rewrite state_of_bind. apply csnmp_config_add_data_typed, Ht. }
  destruct (strcasecmp "Host" (key ci) =? 0).
  { rewrite state_of_bind. apply csnmp_config_add_host_typed, Ht. }
  destruct (strcasecmp "Collect" (key ci) =? 0).
  { rewrite state_of_bind. apply csnmp_config_add_collect_typed, Ht. }
  exact Ht.
Qed.

Lemma csnmp_config_typed ci st :
  registry_typed st -> registry_typed (state_of (csnmp_config ci st)).
Proof.
  intros Ht. unfold csnmp_config.
  rewrite !state_of_bind. cbn [ret state_of fst snd].
  apply csnmp_config_children_typed. exact Ht.
Qed.

End Registry_typed.

(** C2 as stated fails: the declaration is accepted into the registry
    although its one value disagrees with the two slots of its type. *)
Lemma data_arity_not_checked_at_registration :
  let r := csnmp_config_add_data (hdr := collectd_headers)
             (lib := sim_library) sim_octets_item plugin_state_init in
  result_of r = 0
  /\ ~ (forall dd type ds_,
          dd ∈ data_head (state_of r) ->
          dd_type dd = Some type ->
          plugin_get_ds (Library := sim_library) type = Some ds_ ->
          values_len dd = ds_num ds_).
Proof.
  split; [reflexivity|]. intros H.
  specialize (H sim_octets "if_octets"
                (Data_set "if_octets"
                   [Data_source "rx" 0; Data_source "tx" 0])).
  discriminate H; [vm_compute; apply list_elem_of_here | reflexivity..].
Qed.

(** The definition accepted above is turned down by each read. *)
Example sim_octets_read :
  csnmp_read_value (hdr := collectd_headers) (lib := sim_library)
    (sim_sess "10.0.0.1") sim_h1 sim_octets sim_world
  = Some (-1, sim_world,
          ERROR
            "snmp plugin: DataSet `%s' requires %i values, but config talks about %i"
            [arg_s "if_octets"; arg_i 2; arg_i 1]).
Proof. reflexivity. Qed.

(** A Collect declaration for a host that is not registered changes
    nothing; one for [h1], written in another case, binds the two names
    that resolve and skips the third. *)
Example sim_collect :
  let st := state_of (csnmp_config_children (hdr := collectd_headers)
                        (lib := sim_library)
                        (take 4 (children sim_config)) plugin_state_init) in
  state_of (csnmp_config_add_collect
              (sim_item "Collect" ["h2"; "d1"] []) st) = st
  /\ map (fun host => map dd_name (data_list host))
         (host_head
            (state_of (csnmp_config_add_collect
                         (sim_item "Collect" ["H1"; "D1"; "nosuch"; "octets"]
                                   []) st)))
     = [[]; ["d1"; "octets"]].
Proof. split; vm_compute; reflexivity. Qed.

(** A declaration without Values between the declarations of
    [sim_config] leaves the registries as they are without it. *)
Example sim_incomplete :
  state_of (csnmp_config (hdr := collectd_headers) (lib := sim_library)
              (sim_item "Plugin" ["snmp"]
                 (sim_item "Data" ["broken"] [sim_item "Type" ["df"] []]
                  :: children sim_config))
              plugin_state_init)
  = sim_state.
Proof. vm_compute. reflexivity. Qed.

(** What [sim_config] registers can be polled. *)
Lemma sim_state_typed : registry_typed sim_state.
Proof.
  apply (csnmp_config_typed (hdr := collectd_headers) (lib := sim_library)).
  split; constructor.
Qed.

(** * Further properties of the configuration binder *)

Section Config_steps.
Context {hdr : Headers} {lib : Library}.

Lemma csnmp_config_add_host_run ci st :
  csnmp_config_add_host ci st =
  match values ci with
  | [OCONFIG_TYPE_STRING name] =>
      if result_of (built_host ci name) =? 0
      then (0,
            set_host_head (host_head st ++ [state_of (built_host ci name)]) st,
            log_of (built_host ci name))
      else (-1, st, log_of (built_host ci name))
  | _ =>
      (-1, st,
       WARNING "snmp plugin: `Host' needs exactly one string argument." [])
  end.
Proof.
  unfold csnmp_config_add_host.
  destruct (values ci) as [|[name| |] [|]]; try reflexivity.
  fold (built_host ci name).
  destruct (built_host ci name) as [[status hd] msgs].
  cbn [result_of state_of log_of fst snd].
  unfold bind, log, modify.
  destruct (status =? 0); cbn; rewrite ?app_nil_r; reflexivity.
Qed.

(** The state after a Collect declaration: as before, or with some of
    the registered data definitions appended to one host. *)
Lemma csnmp_config_add_collect_state ci st :
  state_of (csnmp_config_add_collect ci st) = st
  \/ exists k ns,
       state_of (csnmp_config_add_collect ci st)
       = bind_datas k (omap (fun n => resolve_data n (data_head st)) ns) st.
Proof.
  remember (state_of (csnmp_config_add_collect ci st)) as s eqn:E.
  unfold csnmp_config_add_collect in E.
  destruct (Z.of_nat (length (values ci)) <? 2); [left; exact E|].
  destruct (all_strings (values ci)) as [[|h ns]|]; try (left; exact E).
  unfold bind at 1, get in E.
  destruct (find_host h (host_head st)) as [[k host]|]; [|left; exact E].
  unfold bind at 1 in E. rewrite csnmp_config_add_collect_names_run in E.
  right. exists k, ns. exact E.
Qed.

(** A relation between plugin states that holds across each way a
    declaration can change the state holds across a whole configuration. *)
Lemma csnmp_config_children_steps
    (R : plugin_state -> plugin_state -> Prop) :
  (forall st, R st st) ->
  (forall a b c, R a b -> R b c -> R a c) ->
  (forall ci name st,
     (result_of (built ci name) =? 0) = true ->
     R st (set_data_head (data_head st ++ [state_of (built ci name)]) st)) ->
  (forall ci name st,
     (result_of (built_host ci name) =? 0) = true ->
     R st (set_host_head (host_head st ++ [state_of (built_host ci name)])
                         st)) ->
  (forall k ns st,
     R st (bind_datas k (omap (fun n => resolve_data n (data_head st)) ns)
                      st)) ->
  forall cs st, R st (state_of (csnmp_config_children cs st)).
Proof.
  intros Hrefl Htrans Hdata Hhost Hcollect cs.
  induction cs as [|ci rest IH]; intros st; [apply Hrefl|].
  cbn [csnmp_config_children]. rewrite state_of_bind.
  eapply Htrans; [|apply IH].
  unfold csnmp_config_child.
  destruct (strcasecmp "Data" (key ci) =? 0).
  { rewrite state_of_bind. cbn [ret state_of fst snd].
    rewrite csnmp_config_add_data_run.
    destruct (values ci) as [|[name| |] [|]]; try apply Hrefl.
    destruct (result_of (built ci name) =? 0) eqn:Hr; [|apply Hrefl].
    apply Hdata, Hr. }
  destruct (strcasecmp "Host" (key ci) =? 0).
  { rewrite state_of_bind. cbn [ret state_of fst snd].
    rewrite csnmp_config_add_host_run.
    destruct (values ci) as [|[name| |] [|]]; try apply Hrefl.
    destruct (result_of (built_host ci name) =? 0) eqn:Hr; [|apply Hrefl].
    apply Hhost, Hr. }
  destruct (strcasecmp "Collect" (key ci) =? 0); [|apply Hrefl].
  rewrite state_of_bind. cbn [ret state_of fst snd].
  destruct (csnmp_config_add_collect_state ci st) as [->|(k & ns & ->)];
    [apply Hrefl|apply Hcollect].
Qed.

Lemma csnmp_config_state ci st :
  state_of (csnmp_config ci st)
  = state_of (csnmp_config_children (children ci)
                (state_of (call_snmp_init_once st))).
Proof.
  unfold csnmp_config. rewrite !state_of_bind. reflexivity.
Qed.

(** X1. [init_snmp] is called once: by the first callback that runs
    while the flag is clear, and never again. After any callback the flag
    is set. *)
Theorem init_snmp_once (cbs : list callback) (st : plugin_state) :
  let st' := run_callbacks cbs st in
  (cbs <> [] -> have_init st' = 1)
  /\ init_snmp_calls st'
     = if bool_decide (cbs = []) || negb (have_init st =? 0)
       then init_snmp_calls st
       else S (init_snmp_calls st).
Proof.
  assert (Hch : forall cs s,
             have_init (state_of (csnmp_config_children cs s)) = have_init s
             /\ init_snmp_calls (state_of (csnmp_config_children cs s))
                = init_snmp_calls s).
  { intros cs s.
    apply (csnmp_config_children_steps
             (fun a b => have_init b = have_init a
                         /\ init_snmp_calls b = init_snmp_calls a));
      try (intros; split; reflexivity).
    intros a b c [H1 H2] [H3 H4]. split; congruence. }
  assert (Hcb : forall cb s,
             have_init (state_of (run_callback cb s)) = 1
             /\ init_snmp_calls (state_of (run_callback cb s))
                = if have_init s =? 0 then S (init_snmp_calls s)
                  else init_snmp_calls s).
  { intros [ci|] s; cbn [run_callback].
    - rewrite csnmp_config_state.
      destruct (Hch (children ci) (state_of (call_snmp_init_once s)))
        as [-> ->].
      split; reflexivity.
    - split; reflexivity. }
  revert st. induction cbs as [|cb rest IH]; intros st st'.
  - split; [intros H; contradiction|reflexivity].
  - subst st'. cbn [run_callbacks].
    destruct (Hcb cb st) as [H1 H2].
    destruct (IH (state_of (run_callback cb st))) as [IH1 IH2].
    split.
    + intros _. destruct rest as [|cb' rest']; [exact H1|].
      apply IH1. discriminate.
    + rewrite IH2, H1, H2. cbn.
      rewrite orb_true_r. destruct (have_init st =? 0); reflexivity.
Qed.

End Config_steps.

(** ** The registries only grow *)

Section Registry_growth.
Context {hdr : Headers} {lib : Library}.

(** [csnmp_config_children_steps] for a start-up sequence. *)
Lemma run_callbacks_steps (R : plugin_state -> plugin_state -> Prop) :
  (forall st, R st st) ->
  (forall a b c, R a b -> R b c -> R a c) ->
  (forall st i n, R st (Plugin_state (data_head st) (host_head st) i n)) ->
  (forall ci name st,
     (result_of (built ci name) =? 0) = true ->
     R st (set_data_head (data_head st ++ [state_of (built ci name)]) st)) ->
  (forall ci name st,
     (result_of (built_host ci name) =? 0) = true ->
     R st (set_host_head (host_head st ++ [state_of (built_host ci name)])
                         st)) ->
  (forall k ns st,
     R st (bind_datas k (omap (fun n => resolve_data n (data_head st)) ns)
                      st)) ->
  forall cbs st, R st (run_callbacks cbs st).
Proof.
  intros Hrefl Htrans Hinit Hdata Hhost Hcollect cbs.
  induction cbs as [|cb rest IH]; intros st; [apply Hrefl|].
  cbn [run_callbacks]. eapply Htrans; [|apply IH].
  destruct cb as [ci|]; cbn [run_callback].
  - rewrite csnmp_config_state.
    apply (Htrans _ (state_of (call_snmp_init_once st))); [apply Hinit|].
    apply csnmp_config_children_steps; assumption.
  - apply Hinit.
Qed.

Lemma host_extends_refl h : host_extends h h.
Proof. repeat split; reflexivity. Qed.

Lemma host_extends_trans a b c :
  host_extends a b -> host_extends b c -> host_extends a c.
Proof.
  intros (A1 & A2 & A3 & A4 & A5 & A6) (B1 & B2 & B3 & B4 & B5 & B6).
  repeat split; try congruence. etransitivity; eassumption.
Qed.

Lemma state_extends_refl st : state_extends st st.
Proof.
  split; [reflexivity|]. intros i h Hi. exists h.
  split; [exact Hi|apply host_extends_refl].
Qed.

Lemma state_extends_trans a b c :
  state_extends a b -> state_extends b c -> state_extends a c.
Proof.
  intros [D1 H1] [D2 H2]. split; [etransitivity; eassumption|].
  intros i h Hi. destruct (H1 i h Hi) as (h' & Hi' & E1).
  destruct (H2 i h' Hi') as (h'' & Hi'' & E2).
  exists h''. split; [exact Hi''|].
  eapply host_extends_trans; eassumption.
Qed.

Lemma bind_datas_extends k ds st : state_extends st (bind_datas k ds st).
Proof.
  split; [reflexivity|]. intros i h Hi. cbn.
  rewrite list_lookup_alter. destruct (decide (k = i)) as [->|Hne].
  - rewrite Hi. cbn. eexists. split; [reflexivity|].
    repeat split. cbn. apply prefix_app_r. reflexivity.
  - exists h. split; [exact Hi|apply host_extends_refl].
Qed.

Lemma run_callbacks_extends cbs st : state_extends st (run_callbacks cbs st).
Proof.
  apply run_callbacks_steps.
  - apply state_extends_refl.
  - apply state_extends_trans.
  - intros s i n. split; [reflexivity|]. intros j h Hj. exists h.
    split; [exact Hj|apply host_extends_refl].
  - intros ci name s _. split.
    + cbn. apply prefix_app_r. reflexivity.
    + intros j h Hj. exists h. split; [exact Hj|apply host_extends_refl].
  - intros ci name s _. split; [reflexivity|].
    intros j h Hj. exists h. split; [|apply host_extends_refl].
    cbn. apply lookup_app_l_Some, Hj.
  - intros k ns s. apply bind_datas_extends.
Qed.

(** X2. Configuration never removes or rewrites a registry entry: after
    any sequence of callbacks the data registry has the old one as a
    prefix, and every host is still at its position with the same name,
    address, community, version and session, its collect set extended at
    the end. *)
Theorem registries_only_grow (cbs : list callback) (st : plugin_state) :
  data_head st `prefix_of` data_head (run_callbacks cbs st)
  /\ forall i h,
       host_head st !! i = Some h ->
       exists h',
         host_head (run_callbacks cbs st) !! i = Some h'
         /\ hd_name h' = hd_name h /\ address h' = address h
         /\ community h' = community h /\ version h' = version h
         /\ sess h' = sess h /\ data_list h `prefix_of` data_list h'.
Proof. apply run_callbacks_extends. Qed.

Lemma resolve_data_extends n st st' d :
  state_extends st st' ->
  resolve_data n (data_head st) = Some d ->
  resolve_data n (data_head st') = Some d.
Proof.
  intros [[new ->] _]. unfold resolve_data.
  destruct (list_find _ (data_head st)) as [[i x]|] eqn:E; [|discriminate].
  intros [= <-]. rewrite (list_find_app_l _ _ new _ _ E). reflexivity.
Qed.

Lemma resolve_host_extends n st st' k h :
  state_extends st st' ->
  resolve_host n (host_head st) = Some (k, h) ->
  exists h', resolve_host n (host_head st') = Some (k, h')
             /\ host_extends h h'.
Proof.
  intros [_ Hh]. unfold resolve_host. intros E.
  apply list_find_Some in E as (Hk & HP & Hbefore).
  destruct (Hh k h Hk) as (h' & Hk' & He).
  exists h'. split; [|exact He].
  apply list_find_Some. split; [exact Hk'|]. split.
  - destruct He as (-> & _). exact HP.
  - intros j y Hj Hlt HPy.
    destruct (lookup_lt_is_Some_2 (host_head st) j) as [x Hx].
    { apply lookup_lt_Some in Hk. lia. }
    destruct (Hh j x Hx) as (y' & Hj' & (Hn & _)).
    rewrite Hj in Hj'. injection Hj' as <-.
    apply (Hbefore j x Hx Hlt). rewrite <- Hn. exact HPy.
Qed.

(** X3. A name that resolves keeps resolving to the same entry: after
    any further callbacks a data name yields the same definition and a
    host name the host at the same position, whatever declarations with
    the same name were added since. *)
Theorem resolution_is_stable (cbs : list callback) (st : plugin_state)
    (n : string) :
  (forall d, resolve_data n (data_head st) = Some d ->
             resolve_data n (data_head (run_callbacks cbs st)) = Some d)
  /\ (forall k h,
        resolve_host n (host_head st) = Some (k, h) ->
        exists h',
          resolve_host n (host_head (run_callbacks cbs st)) = Some (k, h')
          /\ hd_name h' = hd_name h
          /\ data_list h `prefix_of` data_list h').
Proof.
  pose proof (run_callbacks_extends cbs st) as He. split.
  - intros d. apply resolve_data_extends, He.
  - intros k h E.
    destruct (resolve_host_extends n st _ k h He E)
      as (h' & E' & Hn & _ & _ & _ & _ & Hp).
    exists h'. auto.
Qed.

Lemma built_host_data_list ci name :
  data_list (state_of (built_host ci name)) = [].
Proof.
  unfold built_host. rewrite state_of_bind.
  rewrite csnmp_config_add_host_check_state.
  apply csnmp_config_add_host_children_data_list.
Qed.

(** X4. After any start-up sequence every entry of every collect set is
    an entry of the data registry. *)
Theorem collect_sets_closed (cbs : list callback) :
  registry_closed (run_callbacks cbs plugin_state_init).
Proof.
  apply (run_callbacks_steps
           (fun a b => registry_closed a -> registry_closed b));
    [auto | auto | auto | | | | constructor].
  - intros ci name st _ Hc. unfold registry_closed in *. cbn.
    eapply Forall_impl; [exact Hc|]. intros h Hh. cbn in Hh.
    eapply Forall_impl; [exact Hh|]. intros d Hd. cbn in Hd.
    apply elem_of_app. left. exact Hd.
  - intros ci name st _ Hc. unfold registry_closed in *. cbn.
    apply Forall_app. split; [exact Hc|].
    constructor; [|constructor]. rewrite built_host_data_list. constructor.
  - intros k ns st Hc. unfold registry_closed in *. cbn.
    apply Forall_alter; [exact Hc|]. intros h _ Hh. cbn.
    apply Forall_app. split; [exact Hh|].
    apply Forall_forall. intros d Hd.
    apply list_elem_of_omap in Hd as (n & _ & Hn).
    eapply resolve_data_elem_of, Hn.
Qed.

End Registry_growth.

(** ** Host declarations *)

Section Host_registry.
Context {hdr : Headers} {lib : Library}.

Lemma csnmp_config_add_host_children_invariant
    (P : host_definition_t -> Prop) (Q : oconfig_item_t -> Prop) opts hd :
  (forall o hd, Q o -> P hd ->
                P (state_of (csnmp_config_add_host_option o hd))) ->
  Forall Q opts ->
  P hd ->
  P (state_of (csnmp_config_add_host_children opts hd)).
Proof.
  intros Hstep Hq. revert hd.
  induction Hq as [|o rest Ho _ IH]; intros hd Hhd; [exact Hhd|].
  cbn [csnmp_config_add_host_children]. rewrite state_of_bind.
  destruct (negb (result_of (csnmp_config_add_host_option o hd) =? 0));
    [apply Hstep; assumption|].
  apply IH, Hstep; assumption.
Qed.

Lemma csnmp_config_add_host_option_mirrors o hd :
  session_mirrors hd ->
  session_mirrors (state_of (csnmp_config_add_host_option o hd)).
Proof.
  intros (H1 & H2 & H3 & H4). unfold csnmp_config_add_host_option.
  destruct (strcasecmp "Address" (key o) =? 0).
  { unfold csnmp_config_add_host_address.
    destruct (values o) as [|[s| |] [|]]; repeat split; cbn; assumption. }
  destruct (strcasecmp "Community" (key o) =? 0).
  { unfold csnmp_config_add_host_community.
    destruct (values o) as [|[s| |] [|]]; repeat split; cbn;
      try assumption.
    intros c [= <-]. reflexivity. }
  destruct (strcasecmp "Version" (key o) =? 0);
    [|repeat split; assumption].
  unfold csnmp_config_add_host_version.
  destruct (values o) as [|[|n|] [|]]; try (repeat split; assumption).
  destruct (double_to_int n =? 1) eqn:E1; cbn [negb andb].
  - apply Z.eqb_eq in E1. repeat split; cbn; try assumption.
    left. auto.
  - destruct (double_to_int n =? 2) eqn:E2; cbn [negb];
      [|repeat split; assumption].
    apply Z.eqb_eq in E2. repeat split; cbn; try assumption.
    right. auto.
Qed.

Lemma csnmp_config_add_host_option_address o hd :
  (strcasecmp "Address" (key o) =? 0) = false ->
  address (state_of (csnmp_config_add_host_option o hd)) = address hd.
Proof.
  intros Hk. unfold csnmp_config_add_host_option. rewrite Hk.
  unfold csnmp_config_add_host_community, csnmp_config_add_host_version.
  repeat case_match; reflexivity.
Qed.

Lemma csnmp_config_add_host_option_community o hd :
  (strcasecmp "Community" (key o) =? 0) = false ->
  community (state_of (csnmp_config_add_host_option o hd)) = community hd.
Proof.
  intros Hk. unfold csnmp_config_add_host_option. rewrite Hk.
  unfold csnmp_config_add_host_address, csnmp_config_add_host_version.
  repeat case_match; reflexivity.
Qed.

Lemma csnmp_config_add_host_option_version o hd :
  (strcasecmp "Version" (key o) =? 0) = false ->
  version (state_of (csnmp_config_add_host_option o hd)) = version hd
  /\ sess_version (sess (state_of (csnmp_config_add_host_option o hd)))
     = sess_version (sess hd).
Proof.
  intros Hk. unfold csnmp_config_add_host_option. rewrite Hk.
  unfold csnmp_config_add_host_address, csnmp_config_add_host_community.
  repeat case_match; split; reflexivity.
Qed.

Lemma csnmp_config_add_host_option_name o hd :
  hd_name (state_of (csnmp_config_add_host_option o hd)) = hd_name hd.
Proof.
  unfold csnmp_config_add_host_option, csnmp_config_add_host_address,
    csnmp_config_add_host_community, csnmp_config_add_host_version.
  repeat case_match; reflexivity.
Qed.

Lemma csnmp_config_add_host_check_run status hd :
  (result_of (csnmp_config_add_host_check status hd) =? 0) =
  (status =? 0) && bool_decide (is_Some (address hd))
                && bool_decide (is_Some (community hd)).
Proof.
  unfold csnmp_config_add_host_check.
  destruct (status =? 0) eqn:Hs; [|exact Hs].
  unfold bind, get.
  destruct (address hd) as [a|], (community hd) as [c|]; cbn;
    rewrite ?Hs; reflexivity.
Qed.

Lemma built_host_state ci name :
  state_of (built_host ci name)
  = state_of (csnmp_config_add_host_children (children ci)
                (Host_definition name None None 2 snmp_sess_init [])).
Proof.
  unfold built_host. rewrite state_of_bind.
  apply csnmp_config_add_host_check_state.
Qed.

Lemma built_host_result ci name :
  (result_of (built_host ci name) =? 0) =
  (result_of (csnmp_config_add_host_children (children ci)
                (Host_definition name None None 2 snmp_sess_init [])) =? 0)
  && bool_decide (is_Some (address (state_of (built_host ci name))))
  && bool_decide (is_Some (community (state_of (built_host ci name)))).
Proof.
  rewrite built_host_state. unfold built_host. rewrite result_of_bind.
  apply csnmp_config_add_host_check_run.
Qed.

Lemma built_host_ok ci name :
  (result_of (built_host ci name) =? 0) = true ->
  host_ok (state_of (built_host ci name)).
Proof.
  rewrite built_host_result, !andb_true_iff, !bool_decide_eq_true.
  intros [[_ Ha] Hc]. split; [exact Ha|]. split; [exact Hc|].
  rewrite built_host_state.
  apply (csnmp_config_add_host_children_invariant session_mirrors
           (fun _ => True)).
  - intros o hd _. apply csnmp_config_add_host_option_mirrors.
  - apply Forall_true. auto.
  - repeat split; try reflexivity; [discriminate|]. right. auto.
Qed.

(** X5. After any start-up sequence every registered host has an
    address and a community, and its session carries them: the peer name
    is the address, the session community is the community with its
    length, and the version is 1 or 2 with the matching protocol version
    in the session. *)
Theorem registered_hosts_ok (cbs : list callback) :
  Forall host_ok (host_head (run_callbacks cbs plugin_state_init)).
Proof.
  apply (run_callbacks_steps
           (fun a b => Forall host_ok (host_head a) ->
                       Forall host_ok (host_head b)));
    [auto | auto | auto | auto | | | constructor].
  - intros ci name st Hr Hok. cbn. apply Forall_app. split; [exact Hok|].
    constructor; [|constructor]. apply built_host_ok, Hr.
  - intros k ns st Hok. cbn. apply Forall_alter; [exact Hok|].
    intros h _ Hh. exact Hh.
Qed.

(** X6. A host declaration that lacks an Address or a Community option
    is rejected and leaves the plugin state as it was. *)
Theorem incomplete_host_rejected (ci : oconfig_item_t) (st : plugin_state) :
  host_incomplete ci = true ->
  result_of (csnmp_config_add_host ci st) = -1
  /\ state_of (csnmp_config_add_host ci st) = st.
Proof.
  intros Hinc. rewrite csnmp_config_add_host_run.
  destruct (values ci) as [|[name| |] [|]]; try (split; reflexivity).
  destruct (result_of (built_host ci name) =? 0) eqn:Hr;
    [|split; reflexivity].
  exfalso. rewrite built_host_result, !andb_true_iff in Hr.
  destruct Hr as [[_ Ha] Hc]. apply bool_decide_eq_true in Ha, Hc.
  rewrite built_host_state in Ha, Hc.
  unfold host_incomplete in Hinc. apply orb_true_iff in Hinc as [H|H];
    apply negb_true_iff, has_option_false in H.
  - revert Ha. apply (csnmp_config_add_host_children_invariant
                        (fun hd => ~ is_Some (address hd)) _ _ _
                        ltac:(intros o hd Ho; cbv beta;
                              rewrite csnmp_config_add_host_option_address
                                by exact Ho; auto) H).
    cbn. apply is_Some_None.
  - revert Hc. apply (csnmp_config_add_host_children_invariant
                        (fun hd => ~ is_Some (community hd)) _ _ _
                        ltac:(intros o hd Ho; cbv beta;
                              rewrite csnmp_config_add_host_option_community
                                by exact Ho; auto) H).
    cbn. apply is_Some_None.
Qed.

End Host_registry.

(** The host of [sim_config] without its Community option. *)
Lemma incomplete_host_rejected_witness :
  let ci := sim_item "Host" ["h1"] [sim_item "Address" ["10.0.0.1"] []] in
  result_of (csnmp_config_add_host (hdr := collectd_headers) ci
               plugin_state_init) = -1
  /\ state_of (csnmp_config_add_host (hdr := collectd_headers) ci
                 plugin_state_init) = plugin_state_init.
Proof.
  intros ci.
  apply (incomplete_host_rejected (hdr := collectd_headers) ci
           plugin_state_init).
  reflexivity.
Defined.

(** ** Options of a declaration *)

Section Options.
Context {hdr : Headers} {lib : Library}.

Lemma csnmp_config_add_data_children_unknown opts dd :
  existsb (fun o => negb (data_option_known o)) opts = true ->
  (result_of (csnmp_config_add_data_children opts dd) =? 0) = false.
Proof.
  revert dd. induction opts as [|o rest IH]; intros dd; [discriminate|].
  cbn [existsb csnmp_config_add_data_children]. intros H.
  rewrite result_of_bind.
  destruct (result_of (csnmp_config_add_data_option o dd) =? 0) eqn:Hs;
    cbn [negb]; [|exact Hs].
  apply IH. apply orb_true_iff in H as [H|H]; [|exact H].
  exfalso. apply negb_true_iff in H. unfold data_option_known in H.
  apply orb_false_iff in H as [H H4]. apply orb_false_iff in H as [H H3].
  apply orb_false_iff in H as [H1 H2].
  unfold csnmp_config_add_data_option in Hs.
  rewrite H1, H2, H3, H4 in Hs. discriminate Hs.
Qed.

Lemma csnmp_config_add_host_children_unknown opts hd :
  existsb (fun o => negb (host_option_known o)) opts = true ->
  (result_of (csnmp_config_add_host_children opts hd) =? 0) = false.
Proof.
  revert hd. induction opts as [|o rest IH]; intros hd; [discriminate|].
  cbn [existsb csnmp_config_add_host_children]. intros H.
  rewrite result_of_bind.
  destruct (result_of (csnmp_config_add_host_option o hd) =? 0) eqn:Hs;
    cbn [negb]; [|exact Hs].
  apply IH. apply orb_true_iff in H as [H|H]; [|exact H].
  exfalso. apply negb_true_iff in H. unfold host_option_known in H.
  apply orb_false_iff in H as [H H3]. apply orb_false_iff in H as [H1 H2].
  unfold csnmp_config_add_host_option in Hs.
  rewrite H1, H2, H3 in Hs. discriminate Hs.
Qed.

Lemma built_result_children ci name :
  (result_of (built ci name) =? 0) = true ->
  (result_of (csnmp_config_add_data_children (children ci)
                (Data_definition name None 0 (instance_string EmptyString)
                                 None)) =? 0) = true.
Proof.
  unfold built. rewrite result_of_bind.
  set (r := csnmp_config_add_data_children _ _).
  destruct (csnmp_config_add_data_check_run (result_of r) (state_of r))
    as [_ ->].
  rewrite !andb_true_iff. tauto.
Qed.

(** X7. One option with a key the declaration does not know rejects the
    whole Data or Host declaration, whatever the other options are; the
    plugin state stays as it was. *)
Theorem unknown_option_rejects (ci : oconfig_item_t) (st : plugin_state) :
  (existsb (fun o => negb (data_option_known o)) (children ci) = true ->
   result_of (csnmp_config_add_data ci st) = -1
   /\ state_of (csnmp_config_add_data ci st) = st)
  /\ (existsb (fun o => negb (host_option_known o)) (children ci) = true ->
      result_of (csnmp_config_add_host ci st) = -1
      /\ state_of (csnmp_config_add_host ci st) = st).
Proof.
  split; intros H.
  - rewrite csnmp_config_add_data_run.
    destruct (values ci) as [|[name| |] [|]]; try (split; reflexivity).
    destruct (result_of (built ci name) =? 0) eqn:Hr; [|split; reflexivity].
    apply built_result_children in Hr.
    rewrite (csnmp_config_add_data_children_unknown _ _ H) in Hr.
    discriminate Hr.
  - rewrite csnmp_config_add_host_run.
    destruct (values ci) as [|[name| |] [|]]; try (split; reflexivity).
    destruct (result_of (built_host ci name) =? 0) eqn:Hr;
      [|split; reflexivity].
    rewrite built_host_result in Hr.
    rewrite (csnmp_config_add_host_children_unknown _ _ H) in Hr.
    discriminate Hr.
Qed.

Lemma all_strings_Some vs ss :
  all_strings vs = Some ss <-> vs = map OCONFIG_TYPE_STRING ss.
Proof.
  split.
  - revert ss. induction vs as [|v vs IH]; intros ss; cbn.
    + intros [= <-]. reflexivity.
    + destruct v; try discriminate.
      destruct (all_strings vs) as [ss'|]; [|discriminate].
      intros [= <-]. cbn. f_equal. apply IH. reflexivity.
  - intros ->. apply all_strings_map.
Qed.

Lemma parse_oids_inr ss os :
  parse_oids ss = inr os <->
  Forall2 (fun s o => snmp_parse_oid s = Some o) ss os.
Proof.
  revert os. induction ss as [|s ss IH]; intros os; cbn.
  - split; [intros [= <-]; constructor|].
    intros H. apply Forall2_nil_inv_l in H. subst. reflexivity.
  - destruct (snmp_parse_oid s) as [o|] eqn:Es.
    + destruct (parse_oids ss) as [bad|os'] eqn:Ep.
      * split; [discriminate|]. intros H.
        apply Forall2_cons_inv_l in H as (o' & os'' & _ & H & _).
        apply IH in H. discriminate H.
      * split.
        -- intros [= <-]. constructor; [exact Es|]. apply IH. reflexivity.
        -- intros H.
           apply Forall2_cons_inv_l in H as (o' & os'' & Ho & H & ->).
           apply IH in H. injection H as <-. congruence.
    + split; [discriminate|]. intros H.
      apply Forall2_cons_inv_l in H as (o' & os'' & Ho & _). congruence.
Qed.

Lemma parse_oids_inl ss bad :
  parse_oids ss = inl bad -> bad ∈ ss /\ snmp_parse_oid bad = None.
Proof.
  induction ss as [|s ss IH]; cbn; [discriminate|].
  destruct (snmp_parse_oid s) as [o|] eqn:Es.
  - destruct (parse_oids ss) as [bad'|os']; [|discriminate].
    intros [= <-]. destruct (IH eq_refl) as [Hin Hn].
    split; [apply list_elem_of_further, Hin|exact Hn].
  - intros [= <-]. split; [apply list_elem_of_here|exact Es].
Qed.

(** X8. A Values option is taken when it has at least one argument, all
    arguments are strings and all of them parse as OIDs; the definition
    then holds one OID per argument, in the order of the arguments. When
    an argument does not parse the values of the definition are cleared
    (also those of an earlier Values option); with no argument or an
    argument that is not a string the definition stays as it was. In
    these cases the result is -1. *)
Theorem values_option (ci : oconfig_item_t) (dd : data_definition_t) :
  let r := csnmp_config_add_data_values ci dd in
  (result_of r = 0 ->
   exists ss os,
     values ci = map OCONFIG_TYPE_STRING ss /\ ss <> []
     /\ Forall2 (fun s o => snmp_parse_oid s = Some o) ss os
     /\ state_of r = set_dd_values (Some os) dd
     /\ values_len (state_of r) = Z.of_nat (length (values ci)))
  /\ (forall ss os,
        values ci = map OCONFIG_TYPE_STRING ss -> ss <> [] ->
        Forall2 (fun s o => snmp_parse_oid s = Some o) ss os ->
        result_of r = 0 /\ state_of r = set_dd_values (Some os) dd)
  /\ (forall ss s,
        values ci = map OCONFIG_TYPE_STRING ss ->
        s ∈ ss -> snmp_parse_oid s = None ->
        result_of r = -1 /\ state_of r = set_dd_values None dd)
  /\ (values ci = [] \/ all_strings (values ci) = None ->
      result_of r = -1 /\ state_of r = dd).
Proof.
  intros r. subst r. unfold csnmp_config_add_data_values.
  split; [|split; [|split]].
  - destruct (Z.of_nat (length (values ci)) <? 1) eqn:Hn; [discriminate|].
    destruct (all_strings (values ci)) as [ss|] eqn:Hs; [|discriminate].
    destruct (parse_oids ss) as [bad|os] eqn:Hp; [discriminate|].
    intros _. exists ss, os. apply all_strings_Some in Hs.
    apply Z.ltb_ge in Hn. split; [exact Hs|]. split.
    { intros ->. rewrite Hs in Hn. cbn in Hn. lia. }
    split; [apply parse_oids_inr, Hp|]. split; [reflexivity|].
    cbn. unfold values_len. cbn.
    apply parse_oids_inr, Forall2_length in Hp.
    rewrite Hs, length_map. congruence.
  - intros ss os Hv Hne Hp. rewrite Hv, length_map, all_strings_map.
    apply parse_oids_inr in Hp. rewrite Hp.
    destruct ss as [|s0 ss']; [contradiction|].
    cbn [length]. replace (Z.of_nat (S (length ss')) <? 1) with false
      by (symmetry; apply Z.ltb_ge; lia).
    split; reflexivity.
  - intros ss s Hv Hin Hnone. rewrite Hv, length_map, all_strings_map.
    destruct ss as [|s0 ss']; [apply elem_of_nil in Hin; contradiction|].
    cbn [length]. replace (Z.of_nat (S (length ss')) <? 1) with false
      by (symmetry; apply Z.ltb_ge; lia).
    destruct (parse_oids (s0 :: ss')) as [bad|os] eqn:Hp;
      [split; reflexivity|].
    exfalso. apply parse_oids_inr in Hp.
    apply list_elem_of_lookup in Hin as [i Hi].
    destruct (Forall2_lookup_l _ _ _ _ _ Hp Hi) as (o & _ & Ho). congruence.
  - intros [Hv|Hs].
    + rewrite Hv. split; reflexivity.
    + rewrite Hs. destruct (_ <? 1); split; reflexivity.
Qed.

End Options.

(** ** Rejections are reported *)

Section Reports.
Context {hdr : Headers} {lib : Library}.

Ltac solve_reported :=
  first [ left; split; reflexivity
        | right; split; [reflexivity|discriminate] ].

Lemma csnmp_config_add_data_option_reported o dd :
  reported (csnmp_config_add_data_option o dd).
Proof.
  unfold csnmp_config_add_data_option, csnmp_config_add_data_type,
    csnmp_config_add_data_table, csnmp_config_add_data_instance,
    csnmp_config_add_data_values.
  repeat first [case_match | progress (unfold bind, get; cbn)];
    simplify_eq; solve_reported.
Qed.

Lemma csnmp_config_add_host_option_reported o hd :
  reported (csnmp_config_add_host_option o hd).
Proof.
  unfold csnmp_config_add_host_option, csnmp_config_add_host_address,
    csnmp_config_add_host_community, csnmp_config_add_host_version.
  repeat first [case_match | progress (unfold bind, get; cbn)];
    simplify_eq; solve_reported.
Qed.

Lemma reported_loop {S} (m : M S Z) (k : M S Z) (s : S) :
  reported (m s) ->
  (forall s', reported (k s')) ->
  reported ((status <- m ;; if negb (status =? 0) then ret status else k)%M
              s).
Proof.
  intros Hm Hk. unfold reported.
  rewrite result_of_bind, log_of_bind.
  destruct Hm as [[Hr Hl]|[Hr Hl]]; rewrite Hr; cbn [Z.eqb negb].
  - rewrite Hl, app_nil_l. apply Hk.
  - right. split; [reflexivity|]. cbn. rewrite app_nil_r. exact Hl.
Qed.

Lemma csnmp_config_add_data_children_reported opts dd :
  reported (csnmp_config_add_data_children opts dd).
Proof.
  revert dd. induction opts as [|o rest IH]; intros dd;
    [left; split; reflexivity|].
  cbn [csnmp_config_add_data_children].
  apply reported_loop; [apply csnmp_config_add_data_option_reported|].
  exact IH.
Qed.

Lemma csnmp_config_add_host_children_reported opts hd :
  reported (csnmp_config_add_host_children opts hd).
Proof.
  revert hd. induction opts as [|o rest IH]; intros hd;
    [left; split; reflexivity|].
  cbn [csnmp_config_add_host_children].
  apply reported_loop; [apply csnmp_config_add_host_option_reported|].
  exact IH.
Qed.

Lemma csnmp_config_add_data_check_reported dd :
  reported (csnmp_config_add_data_check 0 dd).
Proof.
  unfold csnmp_config_add_data_check, bind, get. cbn.
  destruct (dd_type dd), (dd_values dd); solve_reported.
Qed.

Lemma csnmp_config_add_host_check_reported hd :
  reported (csnmp_config_add_host_check 0 hd).
Proof.
  unfold csnmp_config_add_host_check, bind, get. cbn.
  destruct (address hd), (community hd); solve_reported.
Qed.

Lemma built_reported ci name : reported (built ci name).
Proof.
  unfold built, reported. rewrite result_of_bind, log_of_bind.
  destruct (csnmp_config_add_data_children_reported (children ci)
              (Data_definition name None 0 (instance_string EmptyString)
                               None)) as [[Hr Hl]|[Hr Hl]];
    rewrite Hr.
  - rewrite Hl, app_nil_l. apply csnmp_config_add_data_check_reported.
  - right. split; [reflexivity|]. cbn. rewrite app_nil_r. exact Hl.
Qed.

Lemma built_host_reported ci name : reported (built_host ci name).
Proof.
  unfold built_host, reported. rewrite result_of_bind, log_of_bind.
  destruct (csnmp_config_add_host_children_reported (children ci)
              (Host_definition name None None 2 snmp_sess_init []))
    as [[Hr Hl]|[Hr Hl]]; rewrite Hr.
  - rewrite Hl, app_nil_l. apply csnmp_config_add_host_check_reported.
  - right. split; [reflexivity|]. cbn. rewrite app_nil_r. exact Hl.
Qed.

(** X9. No declaration is dropped in silence. A Data or Host declaration
    returns 0 and logs nothing, or returns -1 and logs at least one
    entry; a Collect declaration that returns -1 logs at least one entry
    and changes nothing, and otherwise returns 0. *)
Theorem rejections_are_reported (ci : oconfig_item_t) (st : plugin_state) :
  reported (csnmp_config_add_data ci st)
  /\ reported (csnmp_config_add_host ci st)
  /\ (result_of (csnmp_config_add_collect ci st) = 0
      \/ result_of (csnmp_config_add_collect ci st) = -1
         /\ log_of (csnmp_config_add_collect ci st) <> []
         /\ state_of (csnmp_config_add_collect ci st) = st).
Proof.
  split; [|split].
  - rewrite csnmp_config_add_data_run.
    destruct (values ci) as [|[name| |] [|]]; try solve_reported.
    destruct (built_reported ci name) as [[Hr Hl]|[Hr Hl]]; rewrite Hr;
      [left|right]; split; auto.
  - rewrite csnmp_config_add_host_run.
    destruct (values ci) as [|[name| |] [|]]; try solve_reported.
    destruct (built_host_reported ci name) as [[Hr Hl]|[Hr Hl]];
      rewrite Hr; [left|right]; split; auto.
  - remember (csnmp_config_add_collect ci st) as r eqn:E.
    unfold csnmp_config_add_collect in E.
    destruct (Z.of_nat (length (values ci)) <? 2) eqn:Hn.
    { subst r. right. repeat split. discriminate. }
    destruct (all_strings (values ci)) as [[|h ns]|] eqn:Hs.
    + apply all_strings_length in Hs. apply Z.ltb_ge in Hn.
      cbn in Hs. lia.
    + unfold bind at 1, get in E.
      destruct (find_host h (host_head st)) as [[k host]|].
      * unfold bind at 1 in E.
        rewrite csnmp_config_add_collect_names_run in E.
        left. subst r. reflexivity.
      * subst r. right. repeat split. discriminate.
    + subst r. right. repeat split. discriminate.
Qed.

End Reports.

(** ** What an accepted declaration registers *)

Section Defaults.
Context {hdr : Headers} {lib : Library}.

Lemma strncpy_length (s : string) (n : nat) :
  (String.length (strncpy s n) <= n)%nat.
Proof.
  unfold strncpy. revert s. induction n as [|n IH]; intros s.
  - destruct s; cbn; lia.
  - destruct s as [|c s]; cbn; [lia|]. specialize (IH s). lia.
Qed.

Lemma csnmp_config_add_data_option_shape name o dd :
  data_shape name dd ->
  data_shape name (state_of (csnmp_config_add_data_option o dd)).
Proof.
  intros (Hn & Ht & Hi). unfold csnmp_config_add_data_option.
  destruct (strcasecmp "Type" (key o) =? 0).
  { unfold csnmp_config_add_data_type.
    destruct (values o) as [|[s| |] [|]]; repeat split; assumption. }
  destruct (strcasecmp "Table" (key o) =? 0).
  { unfold csnmp_config_add_data_table.
    destruct (values o) as [|[| |b] [|]]; try (repeat split; assumption).
    split; [exact Hn|]. split; [|exact Hi].
    cbn. destruct (b =? 0); auto. }
  destruct (strcasecmp "Instance" (key o) =? 0).
  { unfold csnmp_config_add_data_instance.
    destruct (values o) as [|[s| |] [|]]; try (repeat split; assumption).
    rewrite state_of_bind. cbn [get result_of state_of fst snd].
    destruct (negb (is_table dd =? 0)).
    - destruct (read_objid s); [|repeat split; assumption].
      split; [exact Hn|]. split; [exact Ht|]. cbn. discriminate.
    - split; [exact Hn|]. split; [exact Ht|]. cbn.
      intros s' [= <-]. apply strncpy_length. }
  destruct (strcasecmp "Values" (key o) =? 0);
    [|repeat split; assumption].
  unfold csnmp_config_add_data_values.
  repeat case_match; repeat split; assumption.
Qed.

Lemma csnmp_config_add_data_option_table o dd :
  (strcasecmp "Table" (key o) =? 0) = false ->
  is_table (state_of (csnmp_config_add_data_option o dd)) = is_table dd.
Proof.
  intros Hk. unfold csnmp_config_add_data_option. rewrite Hk.
  destruct (strcasecmp "Type" (key o) =? 0).
  { unfold csnmp_config_add_data_type. repeat case_match; reflexivity. }
  destruct (strcasecmp "Instance" (key o) =? 0).
  { unfold csnmp_config_add_data_instance.
    repeat case_match; try reflexivity;
      rewrite state_of_bind; cbn; repeat case_match; reflexivity. }
  destruct (strcasecmp "Values" (key o) =? 0); [|reflexivity].
  unfold csnmp_config_add_data_values. repeat case_match; reflexivity.
Qed.

Lemma csnmp_config_add_data_option_instance o dd :
  (strcasecmp "Instance" (key o) =? 0) = false ->
  instance (state_of (csnmp_config_add_data_option o dd)) = instance dd.
Proof.
  intros Hk. unfold csnmp_config_add_data_option. rewrite Hk.
  destruct (strcasecmp "Type" (key o) =? 0).
  { unfold csnmp_config_add_data_type. repeat case_match; reflexivity. }
  destruct (strcasecmp "Table" (key o) =? 0).
  { unfold csnmp_config_add_data_table. repeat case_match; reflexivity. }
  destruct (strcasecmp "Values" (key o) =? 0); [|reflexivity].
  unfold csnmp_config_add_data_values. repeat case_match; reflexivity.
Qed.

(** X10. An accepted Data declaration registers one definition, under
    the declared name, with a table flag of 0 or 1 and, when its instance
    is a name, one of at most DATA_MAX_NAME_LEN - 1 characters. Without a
    Table option the definition is a scalar one; without an Instance
    option its instance is the empty name. *)
Theorem data_defaults (ci : oconfig_item_t) (st : plugin_state) :
  result_of (csnmp_config_add_data ci st) = 0 ->
  exists name dd,
    values ci = [OCONFIG_TYPE_STRING name]
    /\ state_of (csnmp_config_add_data ci st)
       = set_data_head (data_head st ++ [dd]) st
    /\ dd_name dd = name
    /\ (is_table dd = 0 \/ is_table dd = 1)
    /\ (forall s, instance dd = instance_string s ->
                  (String.length s <= DATA_MAX_NAME_LEN - 1)%nat)
    /\ (has_option "Table" ci = false -> is_table dd = 0)
    /\ (has_option "Instance" ci = false ->
        instance dd = instance_string EmptyString).
Proof.
  rewrite csnmp_config_add_data_run.
  destruct (values ci) as [|[name| |] [|]]; try discriminate.
  destruct (result_of (built ci name) =? 0) eqn:Hr; [|discriminate].
  intros _. exists name, (state_of (built ci name)).
  split; [reflexivity|]. split; [reflexivity|].
  rewrite built_state.
  set (dd0 := Data_definition name None 0 (instance_string EmptyString)
                              None).
  assert (Hs : data_shape name
                 (state_of (csnmp_config_add_data_children (children ci)
                              dd0))).
  { apply (csnmp_config_add_data_children_invariant (data_shape name)
             (fun _ => True)).
    - intros o dd _. apply csnmp_config_add_data_option_shape.
    - apply Forall_true. auto.
    - split; [reflexivity|]. split; [left; reflexivity|].
      intros s [= <-]. cbn. lia. }
  destruct Hs as (Hn & Ht & Hi).
  split; [exact Hn|]. split; [exact Ht|]. split; [exact Hi|]. split.
  - intros H. apply has_option_false in H.
    apply (csnmp_config_add_data_children_invariant
             (fun dd => is_table dd = 0) _ _ _
             ltac:(intros o dd Ho; cbv beta;
                   rewrite csnmp_config_add_data_option_table by exact Ho;
                   auto) H).
    reflexivity.
  - intros H. apply has_option_false in H.
    apply (csnmp_config_add_data_children_invariant
             (fun dd => instance dd = instance_string EmptyString) _ _ _
             ltac:(intros o dd Ho; cbv beta;
                   rewrite csnmp_config_add_data_option_instance
                     by exact Ho; auto) H).
    reflexivity.
Qed.

(** X11. An accepted Host declaration registers one host, under the
    declared name and with an empty collect set. Without a Version option
    the host has version 2 and its session SNMP_VERSION_2c. *)
Theorem host_defaults (ci : oconfig_item_t) (st : plugin_state) :
  result_of (csnmp_config_add_host ci st) = 0 ->
  exists name hd,
    values ci = [OCONFIG_TYPE_STRING name]
    /\ state_of (csnmp_config_add_host ci st)
       = set_host_head (host_head st ++ [hd]) st
    /\ hd_name hd = name
    /\ data_list hd = []
    /\ (has_option "Version" ci = false ->
        version hd = 2 /\ sess_version (sess hd) = SNMP_VERSION_2c).
Proof.
  rewrite csnmp_config_add_host_run.
  destruct (values ci) as [|[name| |] [|]]; try discriminate.
  destruct (result_of (built_host ci name) =? 0) eqn:Hr; [|discriminate].
  intros _. exists name, (state_of (built_host ci name)).
  split; [reflexivity|]. split; [reflexivity|].
  split; [|split; [apply built_host_data_list|]].
  - rewrite built_host_state.
    apply (csnmp_config_add_host_children_invariant
             (fun hd => hd_name hd = name) (fun _ => True)).
    + intros o hd _ <-. apply csnmp_config_add_host_option_name.
    + apply Forall_true. auto.
    + reflexivity.
  - intros H. apply has_option_false in H. rewrite built_host_state.
    apply (csnmp_config_add_host_children_invariant
             (fun hd => version hd = 2
                        /\ sess_version (sess hd) = SNMP_VERSION_2c) _ _ _
             ltac:(intros o hd Ho [H1 H2];
                   destruct (csnmp_config_add_host_option_version o hd Ho)
                     as [-> ->]; auto) H).
    split; reflexivity.
Qed.

End Defaults.

(** The declaration of [sim_octets], which has neither a Table nor an
    Instance option. *)
Lemma data_defaults_witness :
  exists name dd,
    values sim_octets_item = [OCONFIG_TYPE_STRING name]
    /\ state_of (csnmp_config_add_data (hdr := collectd_headers)
                   (lib := sim_library) sim_octets_item plugin_state_init)
       = set_data_head (data_head plugin_state_init ++ [dd])
                       plugin_state_init
    /\ dd_name dd = name
    /\ (is_table dd = 0 \/ is_table dd = 1)
    /\ (forall s, instance dd = instance_string s ->
                  (String.length s <= 64 - 1)%nat)
    /\ (has_option "Table" sim_octets_item = false -> is_table dd = 0)
    /\ (has_option "Instance" sim_octets_item = false ->
        instance dd = instance_string EmptyString).
Proof.
  apply (data_defaults (hdr := collectd_headers) (lib := sim_library)
           sim_octets_item plugin_state_init).
  reflexivity.
Defined.

(** A host declared without a Version option. *)
Lemma host_defaults_witness :
  let ci := sim_item "Host" ["down"]
              [sim_item "Address" ["192.0.2.1"] [];
               sim_item "Community" ["public"] []] in
  exists name hd,
    values ci = [OCONFIG_TYPE_STRING name]
    /\ state_of (csnmp_config_add_host (hdr := collectd_headers) ci
                   plugin_state_init)
       = set_host_head (host_head plugin_state_init ++ [hd])
                       plugin_state_init
    /\ hd_name hd = name
    /\ data_list hd = []
    /\ (has_option "Version" ci = false ->
        version hd = 2 /\ sess_version (sess hd) = 1).
Proof.
  intros ci.
  apply (host_defaults (hdr := collectd_headers) ci plugin_state_init).
  reflexivity.
Defined.

(** * Further properties of value coercion *)

Section Coercion_range.
Context {hdr : Headers}.

Lemma to_uint64_range (z : Z) : 0 <= to_uint64 z < 2 ^ 64.
Proof. unfold to_uint64. apply Z.mod_pos_bound. lia. Qed.

(** The integer the first half of the function computes is a
    [uint64_t]; the second half stores it according to the slot kind. *)
Lemma csnmp_value_list_to_value_temp (vl : variable_list) (type : Z) :
  exists temp (defined : bool),
    0 <= temp < 2 ^ 64
    /\ (vl_type vl ∈ [ASN_INTEGER; ASN_UINTEGER; ASN_COUNTER; ASN_GAUGE] ->
        temp = val_integer vl mod 2 ^ 64 /\ defined = true
        /\ (csnmp_value_list_to_value vl type).2 = [])
    /\ (csnmp_value_list_to_value vl type).1 =
       if type =? DS_TYPE_COUNTER then V_counter temp
       else if type =? DS_TYPE_GAUGE
            then if defined then V_gauge (uint64_to_double temp)
                 else V_gauge NAN
            else V_indeterminate.
Proof.
  unfold csnmp_value_list_to_value.
  destruct ((vl_type vl =? ASN_INTEGER) || (vl_type vl =? ASN_UINTEGER)
            || (vl_type vl =? ASN_COUNTER) || (vl_type vl =? ASN_GAUGE))
    eqn:H4.
  - exists (to_uint64 (val_integer vl)), true.
    split; [apply to_uint64_range|]. split; [intros _; auto|].
    cbn. destruct (type =? DS_TYPE_COUNTER), (type =? DS_TYPE_GAUGE);
      reflexivity.
  - assert (Hnot : vl_type vl
                   ∉ [ASN_INTEGER; ASN_UINTEGER; ASN_COUNTER; ASN_GAUGE]).
    { intros Hin. rewrite !elem_of_cons, elem_of_nil in Hin.
      apply not_true_iff_false in H4. apply H4.
      rewrite !orb_true_iff, !Z.eqb_eq. tauto. }
    destruct (vl_type vl =? ASN_COUNTER64).
    + eexists _, true. split; [apply to_uint64_range|].
      split; [intros H; contradiction|].
      cbn. destruct (type =? DS_TYPE_COUNTER), (type =? DS_TYPE_GAUGE);
        reflexivity.
    + exists 0, false. split; [lia|]. split; [intros H; contradiction|].
      cbn. destruct (type =? DS_TYPE_COUNTER), (type =? DS_TYPE_GAUGE);
        reflexivity.
Qed.

(** X12. A counter slot always receives an integer of 64 bits. For the
    wire types integer, unsigned integer, 32-bit counter and gauge it is
    the reading modulo 2^64 (a negative reading wraps around), the gauge
    slot receives the conversion of that same integer, and nothing is
    logged. *)
Theorem counter_in_range (vl : variable_list) :
  (exists c, (csnmp_value_list_to_value vl DS_TYPE_COUNTER).1 = V_counter c
             /\ 0 <= c < 2 ^ 64)
  /\ (vl_type vl ∈ [ASN_INTEGER; ASN_UINTEGER; ASN_COUNTER; ASN_GAUGE] ->
      (csnmp_value_list_to_value vl DS_TYPE_COUNTER).1
      = V_counter (val_integer vl mod 2 ^ 64)
      /\ (csnmp_value_list_to_value vl DS_TYPE_GAUGE).1
         = V_gauge (uint64_to_double (val_integer vl mod 2 ^ 64))
      /\ (csnmp_value_list_to_value vl DS_TYPE_COUNTER).2 = []
      /\ (csnmp_value_list_to_value vl DS_TYPE_GAUGE).2 = []).
Proof.
  split.
  - destruct (csnmp_value_list_to_value_temp vl DS_TYPE_COUNTER)
      as (temp & defined & Hr & _ & ->).
    rewrite Z.eqb_refl. eauto.
  - intros Hk.
    destruct (csnmp_value_list_to_value_temp vl DS_TYPE_COUNTER)
      as (t1 & d1 & _ & H1 & ->).
    destruct (csnmp_value_list_to_value_temp vl DS_TYPE_GAUGE)
      as (t2 & d2 & _ & H2 & ->).
    destruct (H1 Hk) as (-> & _ & L1). destruct (H2 Hk) as (-> & -> & L2).
    rewrite gauge_is_not_counter, !Z.eqb_refl. auto.
Qed.

Lemma binary_round_aux_sign prec emax (sx : bool) (mx ex : Z)
    (lx : location) :
  binary_round_aux prec emax sx mx ex lx = S754_nan
  \/ sign_clear (binary_round_aux prec emax sx mx ex lx) = negb sx.
Proof.
  unfold binary_round_aux.
  destruct (shr_fexp prec emax mx ex lx) as [mrs' e'].
  destruct (shr_fexp prec emax _ e' loc_Exact) as [mrs'' e''].
  destruct (shr_m mrs'') as [|p|p]; [right; reflexivity| |left; reflexivity].
  destruct (e'' <=? emax - prec); right; reflexivity.
Qed.

Lemma uint64_to_double_sign (z : Z) :
  0 <= z -> sign_clear (uint64_to_double z) = true.
Proof.
  intros Hz. unfold uint64_to_double, binary_normalize, binary_round.
  destruct z as [|p|p]; [reflexivity| |lia].
  destruct (shl_align _ _ _) as [mz ez].
  destruct (binary_round_aux_sign 53 1024 false (Z.pos mz) ez loc_Exact)
    as [-> | ->]; reflexivity.
Qed.

(** X13. A gauge slot never receives a value with the sign bit set: a
    negative reading does not arrive as a negative gauge. *)
Theorem gauge_sign_clear (vl : variable_list) :
  exists g, (csnmp_value_list_to_value vl DS_TYPE_GAUGE).1 = V_gauge g
            /\ sign_clear g = true.
Proof.
  destruct (csnmp_value_list_to_value_temp vl DS_TYPE_GAUGE)
    as (temp & defined & Hr & _ & ->).
  rewrite gauge_is_not_counter, Z.eqb_refl.
  destruct defined; eexists; (split; [reflexivity|]);
    [apply uint64_to_double_sign; lia|reflexivity].
Qed.

End Coercion_range.

(** * Further properties of the poll engine *)

Section Poll_runs.
Context {hdr : Headers} {lib : Library}.

Lemma csnmp_read_value_init_length dss :
  length (csnmp_read_value_init dss) = length dss.
Proof. unfold csnmp_read_value_init. apply length_map. Qed.

(** One read of a definition that has a type: what it returns, calls,
    dispatches and logs. *)
Lemma csnmp_read_value_run sess_ptr host data (w : world) :
  typed data ->
  exists r w' msgs new,
    csnmp_read_value sess_ptr host data w = Some (r, w', msgs)
    /\ calls w'
       = calls w ++ (if checked data then [request_of sess_ptr data] else [])
    /\ dispatched w' = dispatched w ++ new
    /\ Forall (sample_of host data) new
    /\ (r = 0 /\ length new = 1%nat /\ checked data = true
        \/ r = -1 /\ new = []
           /\ exists fmt a, msgs = [Log LOG_ERR fmt a]).
Proof.
  intros [type Htype]. unfold csnmp_read_value, checked, request_of.
  rewrite Htype.
  destruct (plugin_get_ds type) as [ds_|] eqn:Hds.
  2: { exists (-1), w, (ERROR "snmp plugin: DataSet `%s' not defined."
                              [arg_s type]), [].
       rewrite !app_nil_r. repeat split; auto.
       right. repeat split. eauto. }
  destruct (ds_num ds_ =? values_len data) eqn:Hn; cbn [negb].
  2: { eexists (-1), w, _, []. rewrite !app_nil_r.
       split; [reflexivity|]. repeat split; auto.
       right. repeat split. cbn. eauto. }
  unfold liftU, bind at 1, do_snmp_synch_response at 1.
  destruct (snmp_synch_response _ _ _) as [[status res] e1].
  destruct (negb (status =? STAT_SUCCESS)).
  - eexists (-1), _, _, []. split; [reflexivity|]. cbn.
    rewrite !app_nil_r. repeat split; auto.
    right. repeat split. eauto.
  - unfold bind at 1, do_time at 1. cbn [env].
    destruct (time e1) as [t e2].
    pose proof (csnmp_read_value_variables_length (ds ds_)
                  (default [] (dd_values data)) res
                  (csnmp_read_value_init (ds ds_))) as Hlen.
    rewrite csnmp_read_value_init_length in Hlen.
    destruct (csnmp_read_value_variables _ _ _ _) as [[u vals] msgs].
    cbn [state_of fst snd] in Hlen.
    eexists 0, _, _, [_]. split; [reflexivity|]. cbn.
    split; [reflexivity|]. split; [reflexivity|]. split.
    + constructor; [|constructor]. repeat split; cbn; try assumption.
      exists ds_. split; [exact Hds|]. split; [exact Hlen|].
      apply Z.eqb_eq, Hn.
    + left. auto.
Qed.

(** X14. One read of a definition returns 0 and dispatches exactly one
    sample, or returns -1, dispatches nothing and logs exactly one entry,
    an error. It sends at most one request: none when the daemon does not
    know the type or the type has another number of slots than the
    definition has values. *)
Theorem read_value_outcome (sess_ptr : snmp_session)
    (host : host_definition_t) (data : data_definition_t) (w : world) :
  typed data ->
  exists r w' msgs,
    csnmp_read_value sess_ptr host data w = Some (r, w', msgs)
    /\ calls w'
       = calls w ++ (if checked data then [request_of sess_ptr data] else [])
    /\ (r = 0 /\ (exists s, dispatched w' = dispatched w ++ [s]
                            /\ dd_type data = Some s.1)
        \/ r = -1 /\ dispatched w' = dispatched w
           /\ exists fmt a, msgs = [Log LOG_ERR fmt a]).
Proof.
  intros Ht.
  destruct (csnmp_read_value_run sess_ptr host data w Ht)
    as (r & w' & msgs & new & E & Hc & Hd & Hs & Hr).
  exists r, w', msgs. split; [exact E|]. split; [exact Hc|].
  destruct Hr as [(-> & Hl & _)|(-> & -> & Hm)].
  - left. split; [reflexivity|].
    destruct new as [|s [|]]; try discriminate Hl.
    exists s. split; [exact Hd|].
    apply Forall_inv in Hs. apply Hs.
  - right. rewrite app_nil_r in Hd. auto.
Qed.

(** The loop over a collect set. *)
Lemma csnmp_read_host_data_run sess_ptr host datas (w : world) :
  Forall typed datas ->
  exists w' msgs new,
    csnmp_read_host_data sess_ptr host datas w = Some (tt, w', msgs)
    /\ calls w'
       = calls w ++ map (request_of sess_ptr)
                        (filter (fun d => pollable d = true) datas)
    /\ dispatched w' = dispatched w ++ new
    /\ (length new <= length datas)%nat
    /\ Forall (fun s => exists data, data ∈ datas /\ is_table data = 0
                                     /\ sample_of host data s) new.
Proof.
  intros Ht. revert w. induction Ht as [|data rest Hd _ IH]; intros w.
  - exists w, [], []. rewrite !app_nil_r. repeat split; auto.
  - cbn [csnmp_read_host_data]. rewrite filter_cons.
    assert (Hp : pollable data = (is_table data =? 0) && checked data)
      by reflexivity.
    destruct (is_table data =? 0) eqn:Htab; cbn [negb andb] in *.
    + destruct (csnmp_read_value_run sess_ptr host data w Hd)
        as (r & w1 & l1 & n1 & E1 & C1 & D1 & S1 & R1).
      destruct (IH w1) as (w2 & l2 & n2 & E2 & C2 & D2 & L2 & S2).
      rewrite (bindU_Some _ _ _ _ _ _ E1), E2.
      exists w2, (l1 ++ l2), (n1 ++ n2). split; [reflexivity|].
      split; [|split; [|split]].
      * rewrite C2, C1, <- app_assoc. f_equal.
        destruct (checked data);
          [rewrite decide_True by exact Hp
          |rewrite decide_False by (rewrite Hp; discriminate)];
          reflexivity.
      * rewrite D2, D1, <- app_assoc. reflexivity.
      * rewrite length_app. cbn [length].
        assert (length n1 <= 1)%nat; [|lia].
        destruct R1 as [(_ & -> & _)|(_ & -> & _)]; cbn; lia.
      * apply Forall_app. split.
        -- eapply Forall_impl; [exact S1|]. intros s Hs. exists data.
           split; [apply list_elem_of_here|].
           split; [apply Z.eqb_eq, Htab|exact Hs].
        -- eapply Forall_impl; [exact S2|]. intros s (d & Hin & Hs).
           exists d. split; [apply list_elem_of_further, Hin|exact Hs].
    + destruct (IH w) as (w2 & l2 & n2 & E2 & C2 & D2 & L2 & S2).
      unfold csnmp_read_table. unfold bindU at 1, retU at 1. rewrite E2.
      exists w2, ([] ++ l2), n2. split; [reflexivity|].
      rewrite decide_False by (rewrite Hp; discriminate).
      split; [exact C2|]. split; [exact D2|]. split; [cbn; lia|].
      eapply Forall_impl; [exact S2|]. intros s (d & Hin & Hs).
      exists d. split; [apply list_elem_of_further, Hin|exact Hs].
Qed.

(** X15. A host whose session opens makes these calls and no others:
    the open, one request for each definition of its collect set that is
    scalar, has a type the daemon knows and as many values as the type
    has slots, in the order of the collect set, and the close of the
    session the open returned. Table definitions cause no request. *)
Theorem host_requests (host : host_definition_t) (w : world)
    (sess_ptr : snmp_session) (e : Env) :
  Forall typed (data_list host) ->
  snmp_open (sess host) (env w) = (Some sess_ptr, e) ->
  exists w' msgs,
    csnmp_read_host host w = Some (0, w', msgs)
    /\ calls w'
       = calls w ++ [call_snmp_open (sess host)]
         ++ map (request_of sess_ptr)
                (filter (fun d => pollable d = true) (data_list host))
         ++ [call_snmp_close sess_ptr].
Proof.
  intros Ht Hopen. rewrite csnmp_read_host_closed, Hopen.
  destruct (csnmp_read_host_data_run sess_ptr host (data_list host)
              (World _ e (dispatched w)
                     (calls w ++ [call_snmp_open (sess host)])) Ht)
    as (w1 & l1 & n1 & E1 & C1 & _).
  rewrite E1. do 2 eexists. split; [reflexivity|].
  cbn [calls] in *. rewrite C1, <- !app_assoc. reflexivity.
Qed.

Lemma csnmp_read_host_run host (w : world) :
  Forall typed (data_list host) ->
  exists r w' msgs new,
    csnmp_read_host host w = Some (r, w', msgs)
    /\ dispatched w' = dispatched w ++ new
    /\ (length new <= length (data_list host))%nat
    /\ Forall (fun s => exists data, data ∈ data_list host
                                     /\ is_table data = 0
                                     /\ sample_of host data s) new.
Proof.
  intros Ht. rewrite csnmp_read_host_closed.
  destruct (snmp_open (sess host) (env w)) as [[sess_ptr|] e].
  - destruct (csnmp_read_host_data_run sess_ptr host (data_list host)
                (World _ e (dispatched w)
                       (calls w ++ [call_snmp_open (sess host)])) Ht)
      as (w1 & l1 & n1 & E1 & _ & D1 & L1 & S1).
    rewrite E1. eexists 0, _, l1, n1. split; [reflexivity|].
    cbn [dispatched] in *. auto.
  - eexists (-1), _, _, []. split; [reflexivity|]. cbn [dispatched].
    rewrite app_nil_r. repeat split; [cbn; lia|constructor].
Qed.

Lemma csnmp_read_hosts_run hosts (w : world) :
  typed_hosts hosts ->
  exists w' msgs new,
    csnmp_read_hosts hosts w = Some (tt, w', msgs)
    /\ dispatched w' = dispatched w ++ new
    /\ (length new <= length (concat (map data_list hosts)))%nat
    /\ Forall (sample_from hosts) new.
Proof.
  intros Ht. revert w. induction Ht as [|host rest Hh _ IH]; intros w.
  - exists w, [], []. rewrite app_nil_r. repeat split; auto.
  - destruct (csnmp_read_host_run host w Hh)
      as (r & w1 & l1 & n1 & E1 & D1 & L1 & S1).
    destruct (IH w1) as (w2 & l2 & n2 & E2 & D2 & L2 & S2).
    cbn [csnmp_read_hosts]. rewrite (bindU_Some _ _ _ _ _ _ E1), E2.
    exists w2, (l1 ++ l2), (n1 ++ n2). split; [reflexivity|].
    split; [rewrite D2, D1, <- app_assoc; reflexivity|]. split.
    + cbn [map concat]. rewrite !length_app. lia.
    + apply Forall_app. split.
      * eapply Forall_impl; [exact S1|]. intros s (d & Hin & Htab & Hs).
        exists host, d. split; [apply list_elem_of_here|auto].
      * eapply Forall_impl; [exact S2|].
        intros s (h & d & Hh' & Hin & Htab & Hs).
        exists h, d. split; [apply list_elem_of_further, Hh'|auto].
Qed.

(** X16. The samples of a read cycle: at most one for each entry of the
    collect sets, each for a scalar definition bound to a registered
    host. Such a sample carries the type of the definition, the name of
    the host and the instance of the definition cut to
    DATA_MAX_NAME_LEN - 1 characters, the plugin name snmp, an empty
    plugin instance, and as many values as the type has slots. Samples
    dispatched before the cycle stay as they are. *)
Theorem cycle_samples (st : plugin_state) (w : world) :
  typed_hosts (host_head st) ->
  exists r w' msgs new,
    csnmp_read st w = Some (r, w', msgs)
    /\ dispatched w' = dispatched w ++ new
    /\ (length new <= length (concat (map data_list (host_head st))))%nat
    /\ Forall (sample_from (host_head st)) new
    /\ Forall (fun s =>
                 (String.length (vl_host s.2) <= DATA_MAX_NAME_LEN - 1)%nat
                 /\ (String.length (vl_type_instance s.2)
                     <= DATA_MAX_NAME_LEN - 1)%nat) new.
Proof.
  intros Ht. unfold csnmp_read.
  destruct (host_head st) as [|h hs] eqn:Hh.
  - eexists (-1), w, _, []. split; [reflexivity|]. rewrite app_nil_r.
    repeat split; auto.
  - destruct (csnmp_read_hosts_run (h :: hs) w Ht)
      as (w' & msgs & new & E & D & L & S).
    rewrite (bindU_Some _ _ _ _ _ _ E). cbn.
    exists 0, w', (msgs ++ []), new. split; [reflexivity|].
    split; [exact D|]. split; [exact L|]. split; [exact S|].
    eapply Forall_impl; [exact S|].
    intros s (host & data & _ & _ & _ & (_ & -> & _ & _ & -> & _)).
    split; apply strncpy_length.
Qed.

End Poll_runs.

(** The read of the round trip. *)
Lemma read_value_outcome_witness :
  exists r w' msgs,
    csnmp_read_value (hdr := collectd_headers) (lib := sim_library)
      (sim_sess "10.0.0.1") sim_h1 sim_d1 sim_world = Some (r, w', msgs)
    /\ calls w'
       = [call_snmp_synch_response (sim_sess "10.0.0.1")
            [[1; 3; 6; 1; 1]; [1; 3; 6; 1; 2]]]
    /\ (r = 0 /\ (exists s, dispatched w' = [] ++ [s]
                            /\ dd_type sim_d1 = Some s.1)
        \/ r = -1 /\ dispatched w' = []
           /\ exists fmt a, msgs = [Log LOG_ERR fmt a]).
Proof.
  apply (read_value_outcome (hdr := collectd_headers) (lib := sim_library)
           (sim_sess "10.0.0.1") sim_h1 sim_d1 sim_world).
  eexists. reflexivity.
Defined.

(** The host of the agent: a request for the definition of the round
    trip, none for the definition with one value for two slots. *)
Lemma host_requests_witness :
  exists w' msgs,
    csnmp_read_host (hdr := collectd_headers) (lib := sim_library)
      sim_h1_bound sim_world = Some (0, w', msgs)
    /\ calls w'
       = [call_snmp_open (sim_sess "10.0.0.1");
          call_snmp_synch_response (sim_sess "10.0.0.1")
            [[1; 3; 6; 1; 1]; [1; 3; 6; 1; 2]];
          call_snmp_close (sim_sess "10.0.0.1")].
Proof.
  apply (host_requests (hdr := collectd_headers) (lib := sim_library)
           sim_h1_bound sim_world (sim_sess "10.0.0.1") 1000).
  - repeat constructor; eexists; reflexivity.
  - reflexivity.
Defined.

(** The cycle over the hosts of [sim_config]. *)
Lemma cycle_samples_witness :
  exists r w' msgs new,
    csnmp_read (hdr := collectd_headers) (lib := sim_library)
               sim_state sim_world = Some (r, w', msgs)
    /\ dispatched w' = dispatched sim_world ++ new
    /\ (length new <= length (concat (map data_list (host_head sim_state))))%nat
    /\ Forall (sample_from (hdr := collectd_headers) (lib := sim_library)
                 (host_head sim_state)) new
    /\ Forall (fun s =>
                 (String.length (vl_host s.2) <= 64 - 1)%nat
                 /\ (String.length (vl_type_instance s.2) <= 64 - 1)%nat)
              new.
Proof.
  apply (cycle_samples (hdr := collectd_headers) (lib := sim_library)
           sim_state sim_world).
  vm_compute. repeat constructor; eexists; reflexivity.
Defined.

(** * Further properties: unknown declarations, wide counters, unmatched
    variables *)

Section Leftovers.
Context {hdr : Headers} {lib : Library}.

Lemma csnmp_config_children_known cs st :
  state_of (csnmp_config_children cs st)
  = state_of (csnmp_config_children
                (filter (fun c => declaration_known c = true) cs) st)
  /\ result_of (csnmp_config_children cs st) = tt.
Proof.
  split; [|destruct (result_of _); reflexivity].
  revert st. induction cs as [|c rest IH]; intros st; [reflexivity|].
  rewrite filter_cons.
  destruct (decide (declaration_known c = true)) as [Hk|Hk].
  - cbn [csnmp_config_children]. rewrite !state_of_bind. apply IH.
  - apply not_true_is_false in Hk. unfold declaration_known in Hk.
    apply orb_false_iff in Hk as [Hk H3].
    apply orb_false_iff in Hk as [H1 H2].
    cbn [csnmp_config_children]. rewrite state_of_bind.
    unfold csnmp_config_child. rewrite H1, H2, H3. apply IH.
Qed.

(** X17. [csnmp_config] returns 0 whatever its declarations do, and a
    declaration with a key other than Data, Host and Collect is passed
    over with one warning: the plugin state after a configuration is the
    state after the configuration without such declarations. *)
Theorem unknown_declarations_ignored (key_ : string)
    (vs : list oconfig_value_t) (cs : list oconfig_item_t)
    (st : plugin_state) :
  result_of (csnmp_config (Oconfig_item key_ vs cs) st) = 0
  /\ state_of (csnmp_config (Oconfig_item key_ vs cs) st)
     = state_of (csnmp_config
                   (Oconfig_item key_ vs
                      (filter (fun c => declaration_known c = true) cs)) st)
  /\ forall child,
       declaration_known child = false ->
       csnmp_config_child child st
       = (tt, st,
          WARNING "snmp plugin: Ignoring unknown config option `%s'."
                  [arg_s (key child)]).
Proof.
  split; [|split].
  - unfold csnmp_config. rewrite !result_of_bind. reflexivity.
  - rewrite !csnmp_config_state. cbn [children].
    apply csnmp_config_children_known.
  - intros child Hk. unfold declaration_known in Hk.
    apply orb_false_iff in Hk as [Hk H3].
    apply orb_false_iff in Hk as [H1 H2].
    unfold csnmp_config_child. rewrite H1, H2, H3. reflexivity.
Qed.

(** X18. A 64-bit counter whose words are wider than 32 bits: the
    integer stored is (high * 2^32 + low) modulo 2^64, so the bits of the
    high word above the 32nd are lost. *)
Theorem counter64_wraps (vl : variable_list) :
  vl_type vl = ASN_COUNTER64 ->
  (csnmp_value_list_to_value vl DS_TYPE_COUNTER).1
  = V_counter ((high (val_counter64 vl) * 2 ^ 32 + low (val_counter64 vl))
               mod 2 ^ 64).
Proof.
  intros Ht. destruct asn_counter64_distinct as (N1 & N2 & N3 & N4).
  unfold csnmp_value_list_to_value. rewrite Ht.
  apply Z.eqb_neq in N1, N2, N3, N4. rewrite N1, N2, N3, N4, !Z.eqb_refl.
  cbv [orb]. cbn [fst]. f_equal. unfold to_uint64.
  rewrite Z.shiftl_mul_pow2 by lia.
  rewrite Z.mul_mod_idemp_l by lia.
  rewrite <- Z.add_mod by lia. reflexivity.
Qed.

Lemma last_named_filter (oids : list oid_t) (o : oid_t)
    (vbs : list variable_list) :
  o ∈ oids ->
  last_named o (filter (fun vb => vl_name vb ∈ oids) vbs) = last_named o vbs.
Proof.
  intros Ho. unfold last_named. f_equal.
  induction vbs as [|vb rest IH]; [reflexivity|].
  rewrite !filter_cons.
  destruct (decide (vl_name vb ∈ oids)) as [Hin|Hnin].
  - rewrite filter_cons. destruct (decide (o = vl_name vb));
      rewrite IH; reflexivity.
  - rewrite decide_False by (intros ->; contradiction). exact IH.
Qed.

(** X19. Returned variables that carry none of the configured OIDs are
    ignored: the slots after a response are the slots after the response
    without them. After an empty response the slots are as they were. *)
Theorem unmatched_variables_ignored (dss : list data_source_t)
    (oids : list oid_t) (vbs : list variable_list) (vals : list value_t) :
  state_of (csnmp_read_value_variables dss oids vbs vals)
  = state_of (csnmp_read_value_variables dss oids
                (filter (fun vb => vl_name vb ∈ oids) vbs) vals)
  /\ state_of (csnmp_read_value_variables dss oids [] vals) = vals.
Proof.
  split; [|reflexivity]. apply list_eq. intros j.
  rewrite !csnmp_read_value_variables_lookup.
  destruct (vals !! j) as [old|]; [|reflexivity]. cbn. f_equal.
  unfold slot_final.
  destruct (oids !! j) as [o|] eqn:Ho; [|reflexivity].
  destruct (dss !! j) as [d|]; [|reflexivity].
  rewrite last_named_filter; [reflexivity|].
  apply list_elem_of_lookup. eauto.
Qed.

End Leftovers.

(** A counter whose high word has a bit above the 32nd. *)
Lemma counter64_wraps_witness :
  (csnmp_value_list_to_value (hdr := collectd_headers)
     (Variable_list [1; 3; 6; 1; 1] 70 0 (Counter64 (2 ^ 32 + 1) 2)) 0).1
  = V_counter 4294967298.
Proof.
  apply (counter64_wraps (hdr := collectd_headers)
           (Variable_list [1; 3; 6; 1; 1] 70 0 (Counter64 (2 ^ 32 + 1) 2))).
  reflexivity.
Defined.
